(** * Dire Wolf [latlong.c]: latitude / longitude text codecs

    A shallow embedding of [src/latlong.c] and the properties of its
    human-readable, compressed (base 91) and NMEA encoders and of its NMEA
    decoders.

    - C [double] is IEEE-754 binary64, taken from the Standard Library's
      [SpecFloat] at precision 53 and maximal exponent 1024; arithmetic is
      the library's correctly rounded [SFadd], [SFsub], [SFmul], [SFdiv].
    - C [int] is [Z]; the conversions that C leaves undefined (a NaN or an
      out-of-range double converted to [int], a read or write past the end
      of a string) make the embedded function return [None].
    - The diagnostic sink ([text_color_set], [dw_printf]) is a log of
      events threaded through a small monad. *)

From Stdlib Require Import ZArith List Bool Ascii String Lia.
From Stdlib Require Import SpecFloat.
Import ListNotations.

Local Open Scope Z_scope.

(** ** Binary64 *)

Definition prec : Z := 53.
Definition emax : Z := 1024.

Definition float : Set := spec_float.

Definition fadd : float -> float -> float := SFadd prec emax.
Definition fsub : float -> float -> float := SFsub prec emax.
Definition fmul : float -> float -> float := SFmul prec emax.
Definition fdiv : float -> float -> float := SFdiv prec emax.
Definition fneg : float -> float := SFopp.
Definition flt : float -> float -> bool := SFltb.
Definition feq : float -> float -> bool := SFeqb.

(** A well-formed C double: a canonical binary64 datum. *)
Definition is_double (x : float) : Prop := valid_binary prec emax x = true.

Definition is_nan (x : float) : bool :=
  match x with S754_nan => true | _ => false end.

(** [(double) n] for an [int] n: exact below 2^53. *)
Definition int_to_double (n : Z) : float := binary_normalize prec emax n 0 false.

(** The integer part of a finite double, rounded toward zero. *)
Definition ftrunc (x : float) : option Z :=
  match x with
  | S754_zero _ => Some 0
  | S754_finite s m e => Some (cond_Zopp s (Z.shiftl (Zpos m) e))
  | _ => None
  end.

Definition INT_MIN : Z := - 2 ^ 31.
Definition INT_MAX : Z := 2 ^ 31 - 1.

(** [(int) x]: truncation; undefined for NaN, infinities and values whose
    integer part does not fit an [int]. *)
Definition double_to_int (x : float) : option Z :=
  match ftrunc x with
  | Some n => if (INT_MIN <=? n) && (n <=? INT_MAX) then Some n else None
  | None => None
  end.

(** [round] of <math.h>: to the nearest integral value, halfway cases away
    from zero; the sign of a zero result is that of the argument. *)
Definition c_round (x : float) : float :=
  match x with
  | S754_finite s m e =>
      if 0 <=? e then x
      else
        let d := 2 ^ (- e) in
        let q := Zpos m / d in
        let r := Zpos m mod d in
        let n := if d <=? 2 * r then q + 1 else q in
        if n =? 0 then S754_zero s else binary_normalize prec emax (cond_Zopp s n) 0 s
  | _ => x
  end.

(** The literals of the source. *)
Definition d0 : float := S754_zero false.
Definition d60 : float := Eval cbv in int_to_double 60.
Definition d90 : float := Eval cbv in int_to_double 90.
Definition d180 : float := Eval cbv in int_to_double 180.
Definition d380926 : float := Eval cbv in int_to_double 380926.
Definition d190463 : float := Eval cbv in int_to_double 190463.

(** ** Characters and strings *)

Definition NUL : ascii := Ascii.zero.

Definition isdigit (c : ascii) : bool :=
  (48 <=? Z.of_nat (nat_of_ascii c)) && (Z.of_nat (nat_of_ascii c) <=? 57).

(** A [char] promoted to [int]; [char] is signed, as with gcc on x86. *)
Definition int_of_char (c : ascii) : Z :=
  let n := Z.of_nat (nat_of_ascii c) in
  if n <? 128 then n else n - 256.

(** An [int] stored into a [char]: the low eight bits. *)
Definition char_of_int (n : Z) : ascii := ascii_of_nat (Z.to_nat (n mod 256)).

Definition digit_char (n : Z) : ascii := char_of_int (48 + n).

(** Decimal digits of a non-negative integer, most significant first. *)
Fixpoint dec_digits (fuel : nat) (n : Z) : string :=
  match fuel with
  | O => EmptyString
  | S fuel' =>
      if n <? 10 then String (digit_char n) EmptyString
      else dec_digits fuel' (n / 10) ++ String (digit_char (n mod 10)) EmptyString
  end.

Definition dec_of_Z (n : Z) : string := dec_digits (S (Z.to_nat (Z.log2 n))) n.

Fixpoint repeat_char (c : ascii) (n : nat) : string :=
  match n with
  | O => EmptyString
  | S n' => String c (repeat_char c n')
  end.

(** Left padding of [body] to [width] characters; the pad goes between the
    sign and the digits, as the [0] flag of printf does. *)
Definition pad_left (c : ascii) (width : nat) (sign body : string) : string :=
  (sign ++ repeat_char c (width - (length sign + length body)) ++ body)%string.

(** [sprintf "%0<width>d"]. *)
Definition sprintf_0d (width : nat) (n : Z) : string :=
  pad_left "0"%char width (if n <? 0 then "-"%string else ""%string) (dec_of_Z (Z.abs n)).

(** A non-negative dyadic [m * 2^e] scaled by [10^p] and rounded to the
    nearest integer, ties to even: the correctly rounded decimal conversion
    of the C library. *)
Definition round_decimal (p : Z) (m : positive) (e : Z) : Z :=
  if 0 <=? e then Zpos m * 2 ^ e * 10 ^ p
  else
    let num := Zpos m * 10 ^ p in
    let den := 2 ^ (- e) in
    let q := num / den in
    let r := num mod den in
    match 2 * r ?= den with
    | Lt => q
    | Gt => q + 1
    | Eq => if Z.even q then q else q + 1
    end.

(** The digits of [sprintf "%.<p>f"] for the scaled integer [q]. *)
Definition fixed_digits (p : nat) (q : Z) : string :=
  let ip := dec_of_Z (q / 10 ^ Z.of_nat p) in
  let fp := pad_left "0"%char p "" (dec_of_Z (q mod 10 ^ Z.of_nat p)) in
  (ip ++ "." ++ fp)%string.

(** [sprintf "%0<width>.<p>f"] with [0 < p]. Infinities and NaN print as
    words, padded with blanks. *)
Definition sprintf_0f (width p : nat) (x : float) : string :=
  match x with
  | S754_zero s =>
      pad_left "0"%char width (if s then "-"%string else ""%string) (fixed_digits p 0)
  | S754_finite s m e =>
      pad_left "0"%char width (if s then "-"%string else ""%string)
               (fixed_digits p (round_decimal (Z.of_nat p) m e))
  | S754_infinity s => pad_left " "%char width "" (if s then "-inf"%string else "inf"%string)
  | S754_nan => pad_left " "%char width "" "nan"%string
  end.

(** [s + n] for a C string. *)
Fixpoint string_drop (n : nat) (s : string) : string :=
  match n, s with
  | O, _ => s
  | S n', String _ s' => string_drop n' s'
  | S _, EmptyString => EmptyString
  end.

Fixpoint string_set (s : string) (i : nat) (c : ascii) : string :=
  match s, i with
  | EmptyString, _ => EmptyString
  | String _ s', O => String c s'
  | String a s', S i' => String a (string_set s' i' c)
  end.

(** ** The diagnostic sink and undefined behaviour *)

Inductive dw_color := DW_COLOR_ERROR.

Inductive event :=
| Text_color_set (c : dw_color)
| Dw_printf (msg : string).

(** A computation appends events to the log and may be undefined. *)
Definition M (A : Type) : Type := list event -> option (A * list event).

Definition ret {A} (a : A) : M A := fun log => Some (a, log).

Definition bind {A B} (m : M A) (f : A -> M B) : M B :=
  fun log => match m log with
             | Some (a, log') => f a log'
             | None => None
             end.

Definition undefined {A} : M A := fun _ => None.

Definition lift {A} (o : option A) : M A :=
  fun log => match o with Some a => Some (a, log) | None => None end.

Definition text_color_set (c : dw_color) : M unit :=
  fun log => Some (tt, log ++ [Text_color_set c]).

Definition dw_printf (msg : string) : M unit :=
  fun log => Some (tt, log ++ [Dw_printf msg]).

(** A call from a caller whose sink is empty. *)
Definition run {A} (m : M A) : option (A * list event) := m [].

Declare Scope monad_scope.
Delimit Scope monad_scope with monad.
Notation "x <- m ;; f" := (bind m (fun x => f))
  (at level 61, m at next level, right associativity) : monad_scope.
Notation "m ;;; f" := (bind m (fun _ => f))
  (at level 61, right associativity) : monad_scope.
Local Open Scope monad_scope.

(** [s[i]] read: the terminating NUL can be read, nothing after it. *)
Definition c_index (s : string) (i : nat) : option ascii :=
  match String.get i s with
  | Some c => Some c
  | None => if Nat.eqb i (length s) then Some NUL else None
  end.

Definition char_at (s : string) (i : nat) : M ascii := lift (c_index s i).

(** [s[i] = c] write, inside a string that [sprintf] has just produced. *)
Definition char_set (s : string) (i : nat) (c : ascii) : M string :=
  if Nat.ltb i (length s) then ret (string_set s i c) else undefined.

Definition LF : string := String (ascii_of_nat 10) EmptyString.

(** ** The encoders of [latlong.c] *)

(** [latitude_to_str]: [ddmm.mm] and the hemisphere letter, with the
    trailing digits blanked as [ambiguity] asks. *)
Definition latitude_to_str (dlat : float) (ambiguity : Z) : M string :=
  dlat <- (if flt dlat (fneg d90) then
             text_color_set DW_COLOR_ERROR ;;;
             dw_printf "Latitude is less than -90.  Changing to -90.n" ;;;
             ret (fneg d90)
           else ret dlat) ;;
  dlat <- (if flt d90 dlat then
             text_color_set DW_COLOR_ERROR ;;;
             dw_printf "Latitude is greater than 90.  Changing to 90.n" ;;;
             ret d90
           else ret dlat) ;;
  let '(dlat, hemi) :=
    if flt dlat d0 then (fneg dlat, "S"%char) else (dlat, "N"%char) in
  ideg <- lift (double_to_int dlat) ;;
  let dmin := fmul (fsub dlat (int_to_double ideg)) d60 in
  let smin := sprintf_0f 5 2 dmin in
  c <- char_at smin 0 ;;
  si <- (if Ascii.eqb c "6" then
           smin <- char_set smin 0 "0" ;; ret (smin, ideg + 1)
         else ret (smin, ideg)) ;;
  let '(smin, ideg) := si in
  let slat := (sprintf_0d 2 ideg ++ smin ++ String hemi "")%string in
  if 1 <=? ambiguity then
    slat <- char_set slat 6 " " ;;
    if 2 <=? ambiguity then
      slat <- char_set slat 5 " " ;;
      if 3 <=? ambiguity then
        slat <- char_set slat 3 " " ;;
        if 4 <=? ambiguity then
          char_set slat 2 " "
        else ret slat
      else ret slat
    else ret slat
  else ret slat.

(** [longitude_to_str]: [dddmm.mm] and the hemisphere letter. *)
Definition longitude_to_str (dlong : float) (ambiguity : Z) : M string :=
  dlong <- (if flt dlong (fneg d180) then
              text_color_set DW_COLOR_ERROR ;;;
              dw_printf "Longitude is less than -180.  Changing to -180.n" ;;;
              ret (fneg d180)
            else ret dlong) ;;
  dlong <- (if flt d180 dlong then
              text_color_set DW_COLOR_ERROR ;;;
              dw_printf "Longitude is greater than 180.  Changing to 180.n" ;;;
              ret d180
            else ret dlong) ;;
  let '(dlong, hemi) :=
    if flt dlong d0 then (fneg dlong, "W"%char) else (dlong, "E"%char) in
  ideg <- lift (double_to_int dlong) ;;
  let dmin := fmul (fsub dlong (int_to_double ideg)) d60 in
  let smin := sprintf_0f 5 2 dmin in
  c <- char_at smin 0 ;;
  si <- (if Ascii.eqb c "6" then
           smin <- char_set smin 0 "0" ;; ret (smin, ideg + 1)
         else ret (smin, ideg)) ;;
  let '(smin, ideg) := si in
  let slong := (sprintf_0d 3 ideg ++ smin ++ String hemi "")%string in
  if 1 <=? ambiguity then
    slong <- char_set slong 7 " " ;;
    if 2 <=? ambiguity then
      slong <- char_set slong 6 " " ;;
      if 3 <=? ambiguity then
        slong <- char_set slong 4 " " ;;
        if 4 <=? ambiguity then
          char_set slong 3 " "
        else ret slong
      else ret slong
    else ret slong
  else ret slong.

(** The scaled integer of line 218, [(int)round(380926. * (90. - dlat))]. *)
Definition lat_scaled (dlat : float) : option Z :=
  double_to_int (c_round (fmul d380926 (fsub d90 dlat))).

(** The scaled integer of line 264, [(int)round(190463. * (180. + dlong))]. *)
Definition long_scaled (dlong : float) : option Z :=
  double_to_int (c_round (fmul d190463 (fadd d180 dlong))).

(** [latitude_to_comp_str]: four base-91 characters. [/] on [int] is
    [Z.quot]. *)
Definition latitude_to_comp_str (dlat : float) : M (list ascii) :=
  dlat <- (if flt dlat (fneg d90) then
             text_color_set DW_COLOR_ERROR ;;;
             dw_printf "Latitude is less than -90.  Changing to -90.n" ;;;
             ret (fneg d90)
           else ret dlat) ;;
  dlat <- (if flt d90 dlat then
             text_color_set DW_COLOR_ERROR ;;;
             dw_printf "Latitude is greater than 90.  Changing to 90.n" ;;;
             ret d90
           else ret dlat) ;;
  y <- lift (lat_scaled dlat) ;;
  let y0 := Z.quot y (91 * 91 * 91) in
  let y := y - y0 * (91 * 91 * 91) in
  let y1 := Z.quot y (91 * 91) in
  let y := y - y1 * (91 * 91) in
  let y2 := Z.quot y 91 in
  let y := y - y2 * 91 in
  let y3 := y in
  ret [char_of_int (y0 + 33); char_of_int (y1 + 33);
       char_of_int (y2 + 33); char_of_int (y3 + 33)].

(** [longitude_to_comp_str]. *)
Definition longitude_to_comp_str (dlong : float) : M (list ascii) :=
  dlong <- (if flt dlong (fneg d180) then
              text_color_set DW_COLOR_ERROR ;;;
              dw_printf "Longitude is less than -180.  Changing to -180.n" ;;;
              ret (fneg d180)
            else ret dlong) ;;
  dlong <- (if flt d180 dlong then
              text_color_set DW_COLOR_ERROR ;;;
              dw_printf "Longitude is greater than 180.  Changing to 180.n" ;;;
              ret d180
            else ret dlong) ;;
  x <- lift (long_scaled dlong) ;;
  let x0 := Z.quot x (91 * 91 * 91) in
  let x := x - x0 * (91 * 91 * 91) in
  let x1 := Z.quot x (91 * 91) in
  let x := x - x1 * (91 * 91) in
  let x2 := Z.quot x 91 in
  let x := x - x2 * 91 in
  let x3 := x in
  ret [char_of_int (x0 + 33); char_of_int (x1 + 33);
       char_of_int (x2 + 33); char_of_int (x3 + 33)].

(** ** The NMEA codec

    [direwolf.h] is not among the sources: its constant [G_UNKNOWN], the
    double that stands for an unknown position, is a parameter here, and so
    is [atof] of the C library. *)

Section NMEA.

Variable G_UNKNOWN : float.
Variable atof : string -> float.

(** [latitude_to_nmea]: the outputs are [slat] and [hemi]. *)
Definition latitude_to_nmea (dlat : float) : M (string * string) :=
  if feq dlat G_UNKNOWN then ret (""%string, ""%string)
  else
    dlat <- (if flt dlat (fneg d90) then
               text_color_set DW_COLOR_ERROR ;;;
               dw_printf "Latitude is less than -90.  Changing to -90.n" ;;;
               ret (fneg d90)
             else ret dlat) ;;
    dlat <- (if flt d90 dlat then
               text_color_set DW_COLOR_ERROR ;;;
               dw_printf "Latitude is greater than 90.  Changing to 90.n" ;;;
               ret d90
             else ret dlat) ;;
    let '(dlat, hemi) :=
      if flt dlat d0 then (fneg dlat, "S"%string) else (dlat, "N"%string) in
    ideg <- lift (double_to_int dlat) ;;
    let dmin := fmul (fsub dlat (int_to_double ideg)) d60 in
    let smin := sprintf_0f 7 4 dmin in
    c <- char_at smin 0 ;;
    si <- (if Ascii.eqb c "6" then
             smin <- char_set smin 0 "0" ;; ret (smin, ideg + 1)
           else ret (smin, ideg)) ;;
    let '(smin, ideg) := si in
    ret ((sprintf_0d 2 ideg ++ smin)%string, hemi).

(** [longitude_to_nmea]: the outputs are [slong] and [hemi]. *)
Definition longitude_to_nmea (dlong : float) : M (string * string) :=
  if feq dlong G_UNKNOWN then ret (""%string, ""%string)
  else
    dlong <- (if flt dlong (fneg d180) then
                text_color_set DW_COLOR_ERROR ;;;
                dw_printf "longitude is less than -180.  Changing to -180.n" ;;;
                ret (fneg d180)
              else ret dlong) ;;
    dlong <- (if flt d180 dlong then
                text_color_set DW_COLOR_ERROR ;;;
                dw_printf "longitude is greater than 180.  Changing to 180.n" ;;;
                ret d180
              else ret dlong) ;;
    let '(dlong, hemi) :=
      if flt dlong d0 then (fneg dlong, "W"%string) else (dlong, "E"%string) in
    ideg <- lift (double_to_int dlong) ;;
    let dmin := fmul (fsub dlong (int_to_double ideg)) d60 in
    let smin := sprintf_0f 7 4 dmin in
    c <- char_at smin 0 ;;
    si <- (if Ascii.eqb c "6" then
             smin <- char_set smin 0 "0" ;; ret (smin, ideg + 1)
           else ret (smin, ideg)) ;;
    let '(smin, ideg) := si in
    ret ((sprintf_0d 3 ideg ++ smin)%string, hemi).

(** The value that [latitude_from_nmea] computes at line 444 from the
    characters [c0], [c1] and the rest of the field. *)
Definition lat_value (c0 c1 : ascii) (rest : string) : float :=
  fadd (int_to_double ((int_of_char c0 - int_of_char "0") * 10
                       + (int_of_char c1 - int_of_char "0")))
       (fdiv (atof rest) d60).

(** The value that [longitude_from_nmea] computes at line 506. *)
Definition long_value (c0 c1 c2 : ascii) (rest : string) : float :=
  fadd (int_to_double ((int_of_char c0 - int_of_char "0") * 100
                       + (int_of_char c1 - int_of_char "0") * 10
                       + (int_of_char c2 - int_of_char "0")))
       (fdiv (atof rest) d60).

(** [latitude_from_nmea]. *)
Definition latitude_from_nmea (pstr phemi : string) : M float :=
  c0 <- char_at pstr 0 ;;
  if negb (isdigit c0) then ret G_UNKNOWN
  else
    c4 <- char_at pstr 4 ;;
    if negb (Ascii.eqb c4 ".") then ret G_UNKNOWN
    else
      c1 <- char_at pstr 1 ;;
      let lat := lat_value c0 c1 (string_drop 2 pstr) in
      (if flt lat d0 || flt d90 lat then
         text_color_set DW_COLOR_ERROR ;;;
         dw_printf ("Error: Latitude not in range of 0 to 90." ++ LF)
       else ret tt) ;;;
      h <- char_at phemi 0 ;;
      (if negb (Ascii.eqb h "N") && negb (Ascii.eqb h "S") && negb (Ascii.eqb h NUL) then
         text_color_set DW_COLOR_ERROR ;;;
         dw_printf ("Error: Latitude hemisphere should be N or S." ++ LF)
       else ret tt) ;;;
      let lat := if Ascii.eqb h "S" then fneg lat else lat in
      ret lat.

(** [longitude_from_nmea]. *)
Definition longitude_from_nmea (pstr phemi : string) : M float :=
  c0 <- char_at pstr 0 ;;
  if negb (isdigit c0) then ret G_UNKNOWN
  else
    c5 <- char_at pstr 5 ;;
    if negb (Ascii.eqb c5 ".") then ret G_UNKNOWN
    else
      c1 <- char_at pstr 1 ;;
      c2 <- char_at pstr 2 ;;
      let lon := long_value c0 c1 c2 (string_drop 3 pstr) in
      (if flt lon d0 || flt d180 lon then
         text_color_set DW_COLOR_ERROR ;;;
         dw_printf ("Error: Longitude not in range of 0 to 180." ++ LF)
       else ret tt) ;;;
      h <- char_at phemi 0 ;;
      (if negb (Ascii.eqb h "E") && negb (Ascii.eqb h "W") && negb (Ascii.eqb h NUL) then
         text_color_set DW_COLOR_ERROR ;;;
         dw_printf ("Error: Longitude hemisphere should be E or W." ++ LF)
       else ret tt) ;;;
      let lon := if Ascii.eqb h "W" then fneg lon else lon in
      ret lon.

End NMEA.

(** ** An instance of the parameters

    [strtod_c] reads what C's [strtod] reads (blanks, a sign, then a
    decimal constant with an optional exponent, a hexadecimal constant, or
    one of the words inf, infinity, nan) and rounds the value to the
    nearest double; [atof] is [strtod] with the end pointer dropped. *)

Definition Zchar (c : ascii) : Z := Z.of_nat (nat_of_ascii c).

Definition isspace (c : ascii) : bool :=
  (Zchar c =? 32) || ((9 <=? Zchar c) && (Zchar c <=? 13)).

Definition dec_val (c : ascii) : option Z :=
  if isdigit c then Some (Zchar c - 48) else None.

Definition hex_val (c : ascii) : option Z :=
  if isdigit c then Some (Zchar c - 48)
  else if (97 <=? Zchar c) && (Zchar c <=? 102) then Some (Zchar c - 87)
  else if (65 <=? Zchar c) && (Zchar c <=? 70) then Some (Zchar c - 55)
  else None.

Definition tolower (c : ascii) : ascii :=
  if (65 <=? Zchar c) && (Zchar c <=? 90) then char_of_int (Zchar c + 32) else c.

Fixpoint skip_space (s : string) : string :=
  match s with
  | String c s' => if isspace c then skip_space s' else s
  | EmptyString => s
  end.

(** Digits in base [base]: the accumulated value, how many were read, and
    what follows them. *)
Fixpoint read_digits (val : ascii -> option Z) (base : Z) (s : string)
         (acc n : Z) : Z * Z * string :=
  match s with
  | String c s' =>
      match val c with
      | Some d => read_digits val base s' (acc * base + d) (n + 1)
      | None => (acc, n, s)
      end
  | EmptyString => (acc, n, s)
  end.

(** Does [s] start with the lower-case word [w], whatever the case? *)
Fixpoint starts_with_ci (w s : string) : bool :=
  match w, s with
  | EmptyString, _ => true
  | String a w', String b s' => Ascii.eqb a (tolower b) && starts_with_ci w' s'
  | String _ _, EmptyString => false
  end.

(** An exponent part: the marker was read; a sign and at least one digit
    must follow, or there is no exponent. *)
Definition read_exponent (s : string) : Z :=
  let '(neg, s1) :=
    match s with
    | String "-" s' => (true, s')
    | String "+" s' => (false, s')
    | _ => (false, s)
    end in
  let '(v, n, _) := read_digits dec_val 10 s1 0 0 in
  if n =? 0 then 0 else if neg then - v else v.

(** [num / den] rounded to the nearest double, ties to even. *)
Definition ratio_to_double (s : bool) (num den : Z) : float :=
  match num, den with
  | Zpos n, Zpos d => fdiv (S754_finite s n 0) (S754_finite false d 0)
  | _, _ => S754_zero s
  end.

Definition strtod_c (str : string) : float :=
  let s0 := skip_space str in
  let '(neg, s1) :=
    match s0 with
    | String "-" s' => (true, s')
    | String "+" s' => (false, s')
    | _ => (false, s0)
    end in
  if starts_with_ci "inf" s1 then S754_infinity neg
  else if starts_with_ci "nan" s1 then S754_nan
  else
    let hex :=
      match s1 with
      | String "0" (String x s2) =>
          if Ascii.eqb (tolower x) "x" then
            let '(ip, ni, s3) := read_digits hex_val 16 s2 0 0 in
            let '(m, nf, s4) :=
              match s3 with
              | String "." s' => read_digits hex_val 16 s' ip 0
              | _ => (ip, 0, s3)
              end in
            if ni + nf =? 0 then None
            else
              let e :=
                match s4 with
                | String p s' => if Ascii.eqb (tolower p) "p" then read_exponent s' else 0
                | EmptyString => 0
                end in
              Some (binary_normalize prec emax (cond_Zopp neg m) (e - 4 * nf) neg)
          else None
      | _ => None
      end in
    match hex with
    | Some x => x
    | None =>
        let '(ip, ni, s2) := read_digits dec_val 10 s1 0 0 in
        let '(m, nf, s3) :=
          match s2 with
          | String "." s' => read_digits dec_val 10 s' ip 0
          | _ => (ip, 0, s2)
          end in
        if ni + nf =? 0 then S754_zero false
        else
          let e :=
            match s3 with
            | String p s' => if Ascii.eqb (tolower p) "e" then read_exponent s' else 0
            | EmptyString => 0
            end in
          let e10 := e - nf in
          if 0 <=? e10 then ratio_to_double neg (m * 10 ^ e10) 1
          else ratio_to_double neg m (10 ^ (- e10))
    end.

(** [G_UNKNOWN] as [direwolf.h] defines it: the [int] -999999. *)
Definition G_UNKNOWN_dw : float := Eval cbv in int_to_double (-999999).


(** * Vocabulary of the statements

    The stages of the encoders and decoders, each a piece of the functions
    above under a name; the lemmas [latitude_to_str_run] and its siblings
    prove that the functions are the composition of these stages. *)

(** Lines 70-79: the two clamping tests, in the order of the source. *)
Definition clamp (lim x : float) : float :=
  let x := if flt x (fneg lim) then fneg lim else x in
  if flt lim x then lim else x.

(** Lines 81-87: the magnitude and the hemisphere letter. *)
Definition magnitude (x : float) : float := if flt x d0 then fneg x else x.

Definition hemisphere (neg pos : ascii) (x : float) : ascii :=
  if flt x d0 then neg else pos.

(** Line 90: [dmin = (dlat - ideg) * 60.]. *)
Definition minutes (a : float) (ideg : Z) : float :=
  fmul (fsub a (int_to_double ideg)) d60.

(** Lines 94-97: the carry out of a minutes field that starts with [6]. *)
Definition carry (smin : string) (ideg : Z) : string * Z :=
  match smin with
  | String c rest => if Ascii.eqb c "6" then (String "0" rest, ideg + 1) else (smin, ideg)
  | EmptyString => (smin, ideg)
  end.

(** Lines 101-112 and 175-186 as functions on the formatted string. *)
Definition blank_lat (ambiguity : Z) (slat : string) : string :=
  if 1 <=? ambiguity then
    let slat := string_set slat 6 " " in
    if 2 <=? ambiguity then
      let slat := string_set slat 5 " " in
      if 3 <=? ambiguity then
        let slat := string_set slat 3 " " in
        if 4 <=? ambiguity then string_set slat 2 " " else slat
      else slat
    else slat
  else slat.

Definition blank_long (ambiguity : Z) (slong : string) : string :=
  if 1 <=? ambiguity then
    let slong := string_set slong 7 " " in
    if 2 <=? ambiguity then
      let slong := string_set slong 6 " " in
      if 3 <=? ambiguity then
        let slong := string_set slong 4 " " in
        if 4 <=? ambiguity then string_set slong 3 " " else slong
      else slong
    else slong
  else slong.

(** Lines 220-234: the four characters for the scaled integer [y]. *)
Definition base91 (y : Z) : list ascii :=
  let y0 := Z.quot y (91 * 91 * 91) in
  let y := y - y0 * (91 * 91 * 91) in
  let y1 := Z.quot y (91 * 91) in
  let y := y - y1 * (91 * 91) in
  let y2 := Z.quot y 91 in
  let y := y - y2 * 91 in
  let y3 := y in
  [char_of_int (y0 + 33); char_of_int (y1 + 33);
   char_of_int (y2 + 33); char_of_int (y3 + 33)].

(** What a warning sends to the sink. *)
Definition warn (msg : string) : list event :=
  [Text_color_set DW_COLOR_ERROR; Dw_printf msg].

(** The events of the two clamping tests. *)
Definition clamp_events (lo hi : string) (lim x : float) : list event :=
  (if flt x (fneg lim) then warn lo else []) ++
  (if flt lim (if flt x (fneg lim) then fneg lim else x) then warn hi else []).

(** The events of the decoders: lines 446-449, 459-462, 508-511, 513-516. *)
Definition lat_range_events (v : float) : list event :=
  if flt v d0 || flt d90 v
  then warn ("Error: Latitude not in range of 0 to 90." ++ LF) else [].

Definition lat_hemi_events (h : ascii) : list event :=
  if negb (Ascii.eqb h "N") && negb (Ascii.eqb h "S") && negb (Ascii.eqb h NUL)
  then warn ("Error: Latitude hemisphere should be N or S." ++ LF) else [].

Definition long_range_events (v : float) : list event :=
  if flt v d0 || flt d180 v
  then warn ("Error: Longitude not in range of 0 to 180." ++ LF) else [].

Definition long_hemi_events (h : ascii) : list event :=
  if negb (Ascii.eqb h "E") && negb (Ascii.eqb h "W") && negb (Ascii.eqb h NUL)
  then warn ("Error: Longitude hemisphere should be E or W." ++ LF) else [].

(** [*s] for a C string. *)
Definition first_char (s : string) : ascii :=
  match s with String c _ => c | EmptyString => NUL end.

(** ** Decimal fields *)

(** [n] decimal digits of [r], most significant first. *)
Fixpoint fixed_width (n : nat) (r : Z) : string :=
  match n with
  | O => EmptyString
  | S n' => fixed_width n' (r / 10) ++ String (digit_char (r mod 10)) EmptyString
  end.

(** The text of a [%0<w>.<p>f] field for the scaled integer [q]. *)
Definition render (w p : nat) (q : Z) : string :=
  (fixed_width (w - p - 1) (q / 10 ^ Z.of_nat p) ++ "." ++
   fixed_width p (q mod 10 ^ Z.of_nat p))%string.

(** The integer that printf prints for [x] with [p] decimals: [x * 10^p]
    rounded to the nearest, ties to even. *)
Definition printed_scaled (p : nat) (x : float) : Z :=
  match x with
  | S754_finite _ m e => round_decimal (Z.of_nat p) m e
  | _ => 0
  end.

(** [s] is the text of [x] in a [%0<w>.<p>f] field, and [x], so rounded,
    is at most [B]. *)
Definition printed_as (w p : nat) (B : Z) (x : float) (s : string) : Prop :=
  0 <= printed_scaled p x <= B /\ s = render w p (printed_scaled p x).

(** The minutes that a human-readable field shows for [x], in hundredths:
    the minutes of line 90 as printf rounds them, and zero after a carry. *)
Definition shown_minutes (lim x : float) : Z :=
  let a := magnitude (clamp lim x) in
  match double_to_int a with
  | Some ideg =>
      let q := printed_scaled 2 (minutes a ideg) in if q =? 6000 then 0 else q
  | None => 0
  end.


(** ** Position ambiguity *)

(** The digits of the minutes field [mm.mm]. *)
Inductive place := Tens | Units | Tenths | Hundredths.

(** Where a place stands in [mm.mm]. *)
Definition place_offset (p : place) : nat :=
  match p with Tens => 0 | Units => 1 | Tenths => 3 | Hundredths => 4 end.

(** The digit at a place, for minutes counted in hundredths. *)
Definition place_digit (p : place) (q : Z) : Z :=
  match p with
  | Tens => q / 1000 mod 10
  | Units => q / 100 mod 10
  | Tenths => q / 10 mod 10
  | Hundredths => q mod 10
  end.

(** The minutes follow two digits of degrees in a latitude, three in a
    longitude. *)
Definition lat_index (p : place) : nat := 2 + place_offset p.
Definition long_index (p : place) : nat := 3 + place_offset p.

Definition blank_at (positions : list nat) (s : string) : string :=
  fold_left (fun s i => string_set s i " ") positions s.

(** The places that lines 101-112 and 175-186 blank: slat[6], slat[5],
    slat[3], slat[2] (slong[7], slong[6], slong[4], slong[3]). *)
Definition blanked_places (ambiguity : Z) : list place :=
  if 1 <=? ambiguity then
    Hundredths ::
    (if 2 <=? ambiguity then
       Tenths ::
       (if 3 <=? ambiguity then
          Units :: (if 4 <=? ambiguity then [Tens] else [])
        else [])
     else [])
  else [].

(** The places as the specification words them for the levels 1 to 4, with
    the tens of minutes at level 3 and the units at level 4. Lines 101-109
    and 175-183 do the opposite: compare [blanked_places]. *)
Definition claimed_places (level : Z) : list place :=
  if 1 <=? level then
    Hundredths ::
    (if 2 <=? level then
       Tenths ::
       (if 3 <=? level then
          Tens :: (if 4 <=? level then [Units] else [])
        else [])
     else [])
  else [].

(** The field [s0] holds at [index p] the digit of place [p] of the minutes
    [q], counted in hundredths. *)
Definition minutes_at (index : place -> nat) (s0 : string) (q : Z) : Prop :=
  forall p, String.get (index p) s0 = Some (digit_char (place_digit p q)).

(** The character positions blanked at a level. *)
Definition lat_blanked (ambiguity : Z) : list nat := map lat_index (blanked_places ambiguity).
Definition long_blanked (ambiguity : Z) : list nat := map long_index (blanked_places ambiguity).

(** [s] is [s0] with blanks at the [positions] and nowhere else. *)
Definition blanked (positions : list nat) (s0 s : string) : Prop :=
  length s = length s0 /\
  forall i, (i < length s0)%nat ->
            String.get i s
            = if existsb (Nat.eqb i) positions then Some " "%char else String.get i s0.

(** ** Values of doubles

    Bounds on the results of the arithmetic are stated on scaled integers:
    [Zv m e] is the dyadic [m * 2^e] counted in units of [2^-2148], fine
    enough for the exact product of two binary64 numbers. *)
Definition Zv (m e : Z) : Z := m * 2 ^ (e + 2148).

(** [M * 2^E] is the value of a binary64 number, canonical or not. *)
Definition repr (M E : Z) : Prop := 0 <= M < 2 ^ 53 /\ -1074 <= E.

(** A zero of sign [s], or a finite float of sign [s] whose magnitude lies
    in [[L, H]]. *)
Definition mag_in (s : bool) (L H : Z) (x : float) : Prop :=
  match x with
  | S754_zero s' => s' = s /\ L <= 0
  | S754_finite s' m e => s' = s /\ -1074 <= e /\ L <= Zv (Zpos m) e <= H
  | _ => False
  end.

(** [x] is a zero or finite, of magnitude at most [H]. *)
Definition abs_le (H : Z) (x : float) : Prop :=
  match x with
  | S754_zero _ => True
  | S754_finite _ m e => -1074 <= e /\ Zv (Zpos m) e <= H
  | _ => False
  end.

(** [x] is a zero, or positive and at most [H]. *)
Definition pos_le (H : Z) (x : float) : Prop :=
  match x with
  | S754_zero _ => True
  | S754_finite false m e => -1074 <= e /\ Zv (Zpos m) e <= H
  | _ => False
  end.

(** Is it the negative zero? *)
Definition neg_zero (x : float) : bool :=
  match x with S754_zero true => true | _ => false end.

(** The sticky information of a shift record: is anything lost? *)
Definition inexact (mrs : shr_record) : bool := shr_r mrs || shr_s mrs.

(** The value of a double in the units of [Zv], with its sign; zero for a
    zero (and for what is not finite). *)
Definition fval (x : float) : Z :=
  match x with
  | S754_finite s m e => cond_Zopp s (Zv (Zpos m) e)
  | _ => 0
  end.

(** The number 1 in the units of [Zv] and [fval]. *)
Definition one : Z := Zv 1 0.

(** [round] on an exact quantity [V], counted in the units of [fval]: the
    nearest integer, a half going away from zero. *)
Definition round_exact (V : Z) : Z :=
  if V <? 0 then - ((2 * - V + one) / (2 * one)) else (2 * V + one) / (2 * one).

(** Lines 218 and 264 read in exact arithmetic, as C10 words them: the
    nearest integers to 380926 * (90 - lat) and to 190463 * (180 + lon). *)
Definition lat_scaled_exact (c : float) : Z :=
  round_exact (380926 * (90 * one - fval c)).

Definition long_scaled_exact (c : float) : Z :=
  round_exact (190463 * (180 * one + fval c)).

(** Is every character of [s] a decimal digit? *)
Fixpoint all_digits (s : string) : bool :=
  match s with
  | EmptyString => true
  | String c s' => isdigit c && all_digits s'
  end.


(** * Rounding of binary64

    [binary_round_aux] is faithful: its result lies between any two
    representable numbers that enclose the exact value. The sums, differences
    and products of the source inherit their bounds from this. *)

Lemma digits2_pos_bounds (m : positive) :
  2 ^ (Zpos (digits2_pos m) - 1) <= Zpos m < 2 ^ Zpos (digits2_pos m).
Proof.
  induction m as [m IH | m IH | ]; cbn [digits2_pos].
  - rewrite Pos2Z.inj_succ.
    replace (Z.succ (Zpos (digits2_pos m)) - 1) with (Z.succ (Zpos (digits2_pos m) - 1)) by lia.
    rewrite !Z.pow_succ_r by lia. lia.
  - rewrite Pos2Z.inj_succ.
    replace (Z.succ (Zpos (digits2_pos m)) - 1) with (Z.succ (Zpos (digits2_pos m) - 1)) by lia.
    rewrite !Z.pow_succ_r by lia. lia.
  - cbn. lia.
Qed.

Lemma shr_1_m mrs : 0 <= shr_m mrs -> shr_m (shr_1 mrs) = shr_m mrs / 2.
Proof.
  destruct mrs as [m r s]; cbn [shr_m]; intros Hm.
  destruct m as [ | [p | p | ] | p]; cbn [shr_1 shr_m]; try lia.
  - reflexivity.
  - rewrite Pos2Z.inj_xI. apply Z.div_unique with 1; lia.
  - rewrite Pos2Z.inj_xO. apply Z.div_unique with 0; lia.
  - reflexivity.
Qed.

Lemma shr_1_inexact mrs :
  0 <= shr_m mrs ->
  inexact (shr_1 mrs) = inexact mrs || negb (shr_m mrs mod 2 =? 0).
Proof.
  destruct mrs as [m r s]; unfold inexact; cbn [shr_m shr_r shr_s]; intros Hm.
  destruct m as [ | [p | p | ] | p]; cbn [shr_1 shr_m shr_r shr_s]; try lia.
  - cbn. destruct r, s; reflexivity.
  - rewrite Pos2Z.inj_xI. replace ((2 * Zpos p + 1) mod 2) with 1.
    + destruct r, s; reflexivity.
    + apply Z.mod_unique with (Zpos p); lia.
  - rewrite Pos2Z.inj_xO. replace ((2 * Zpos p) mod 2) with 0.
    + destruct r, s; reflexivity.
    + apply Z.mod_unique with (Zpos p); lia.
  - cbn. destruct r, s; reflexivity.
Qed.

Lemma mod_mul_eqb (m a b : Z) :
  0 < a -> 0 < b ->
  (m mod (a * b) =? 0) = (m mod a =? 0) && ((m / a) mod b =? 0).
Proof.
  intros Ha Hb.
  rewrite Z.rem_mul_r by lia.
  assert (B1 : 0 <= m mod a < a) by (apply Z.mod_pos_bound; lia).
  assert (B2 : 0 <= (m / a) mod b < b) by (apply Z.mod_pos_bound; lia).
  destruct (Z.eqb_spec (m mod a) 0) as [E1 | E1],
           (Z.eqb_spec ((m / a) mod b) 0) as [E2 | E2]; cbn [andb];
    apply Z.eqb_eq || apply Z.eqb_neq; nia.
Qed.

Lemma iter_pos_shr_1 (p : positive) : forall mrs,
  0 <= shr_m mrs ->
  shr_m (iter_pos shr_1 p mrs) = shr_m mrs / 2 ^ Zpos p /\
  inexact (iter_pos shr_1 p mrs) = inexact mrs || negb (shr_m mrs mod 2 ^ Zpos p =? 0).
Proof.
  induction p as [p IH | p IH | ]; intros mrs Hm; cbn [iter_pos].
  - assert (H1 : 0 <= shr_m (shr_1 mrs)) by (rewrite shr_1_m by lia; apply Z.div_pos; lia).
    destruct (IH _ H1) as [Ha Hb].
    assert (H2 : 0 <= shr_m (iter_pos shr_1 p (shr_1 mrs))).
    { rewrite Ha. apply Z.div_pos; [lia | apply Z.pow_pos_nonneg; lia]. }
    destruct (IH _ H2) as [Hc Hd].
    rewrite Hc, Hd, Ha, Hb, shr_1_m, shr_1_inexact by lia.
    assert (Hp : 0 < 2 ^ Zpos p) by (apply Z.pow_pos_nonneg; lia).
    rewrite (Pos2Z.inj_xI p).
    replace (2 * Zpos p + 1) with (1 + Zpos p + Zpos p) by lia.
    rewrite !Z.pow_add_r by lia. change (2 ^ 1) with 2.
    set (P := 2 ^ Zpos p) in *. set (m := shr_m mrs) in *.
    split.
    + rewrite !Z.div_div by lia. f_equal. lia.
    + rewrite <- !orb_assoc. f_equal.
      rewrite (mod_mul_eqb m (2 * P) P), (mod_mul_eqb m 2 P) by lia.
      rewrite !negb_andb, Z.div_div by lia.
      rewrite <- !orb_assoc. reflexivity.
  - destruct (IH _ Hm) as [Ha Hb].
    assert (H2 : 0 <= shr_m (iter_pos shr_1 p mrs)).
    { rewrite Ha. apply Z.div_pos; [lia | apply Z.pow_pos_nonneg; lia]. }
    destruct (IH _ H2) as [Hc Hd].
    rewrite Hc, Hd, Ha, Hb.
    assert (Hp : 0 < 2 ^ Zpos p) by (apply Z.pow_pos_nonneg; lia).
    rewrite (Pos2Z.inj_xO p).
    replace (2 * Zpos p) with (Zpos p + Zpos p) by lia.
    rewrite !Z.pow_add_r by lia.
    set (P := 2 ^ Zpos p) in *. set (m := shr_m mrs) in *.
    split.
    + rewrite !Z.div_div by lia. reflexivity.
    + rewrite <- !orb_assoc. f_equal.
      rewrite (mod_mul_eqb m P P) by lia.
      rewrite !negb_andb. reflexivity.
  - split.
    + rewrite shr_1_m by lia. reflexivity.
    + rewrite shr_1_inexact by lia. reflexivity.
Qed.

Lemma pow2_pos (k : Z) : 0 <= k -> 0 < 2 ^ k.
Proof. intros; apply Z.pow_pos_nonneg; lia. Qed.


Lemma pow2_le (a b : Z) : 0 <= a <= b -> 2 ^ a <= 2 ^ b.
Proof. intros; apply Z.pow_le_mono_r; lia. Qed.

Lemma pow2_lt (a b : Z) : 0 <= a < b -> 2 ^ a < 2 ^ b.
Proof. intros; apply Z.pow_lt_mono_r; lia. Qed.

Lemma fexp_eq (z : Z) : fexp prec emax z = Z.max (z - 53) (-1074).
Proof. reflexivity. Qed.

Lemma shr_fexp_exact (m e : Z) :
  0 <= m ->
  let k := fexp prec emax (Zdigits2 m + e) - e in
  let r := shr_fexp prec emax m e loc_Exact in
  (k <= 0 -> r = ({| shr_m := m; shr_r := false; shr_s := false |}, e)) /\
  (0 < k -> snd r = e + k /\ shr_m (fst r) = m / 2 ^ k /\
            inexact (fst r) = negb (m mod 2 ^ k =? 0)).
Proof.
  intros Hm k r. unfold r, shr_fexp. fold k.
  cbn [shr_record_of_loc]. unfold shr.
  destruct k as [ | p | p ] eqn:Ek.
  - split; [reflexivity | lia].
  - split; [lia | intros _].
    cbn [fst snd].
    destruct (iter_pos_shr_1 p {| shr_m := m; shr_r := false; shr_s := false |}) as [Ha Hb];
      [exact Hm | ].
    cbn [shr_m] in Ha, Hb. unfold inexact at 2 in Hb. cbn in Hb.
    auto.
  - split; [reflexivity | lia].
Qed.

Lemma round_nearest_even_faithful (mrs : shr_record) :
  let m' := round_nearest_even (shr_m mrs) (loc_of_shr_record mrs) in
  shr_m mrs <= m' <= shr_m mrs + 1 /\ (inexact mrs = false -> m' = shr_m mrs).
Proof.
  destruct mrs as [m [ | ] [ | ]]; unfold inexact; cbn; try destruct (Z.even m); lia || (split; [lia | congruence]).
Qed.

Lemma Zdigits2_bounds (m : Z) : 0 < m -> 2 ^ (Zdigits2 m - 1) <= m < 2 ^ Zdigits2 m.
Proof. destruct m; try lia. intros _. apply digits2_pos_bounds. Qed.

Lemma Zdigits2_le (m k : Z) : 0 <= k -> 0 <= m < 2 ^ k -> Zdigits2 m <= k.
Proof.
  intros Hk [H0 H].
  destruct (Z.eq_dec m 0) as [-> | Hn]; [cbn; lia | ].
  destruct (Zdigits2_bounds m ltac:(lia)) as [Hl _].
  destruct (Z.le_gt_cases (Zdigits2 m) k) as [ | Hgt]; [assumption | exfalso].
  assert (2 ^ k <= 2 ^ (Zdigits2 m - 1)) by (apply pow2_le; lia). lia.
Qed.

Lemma Zdigits2_pos (m : Z) : 0 < m -> 0 < Zdigits2 m.
Proof. destruct m; cbn; lia. Qed.

(** What [binary_round_aux] returns on an exact positive input, up to the
    direction of the rounding. *)
Lemma binary_round_aux_cases (s : bool) (mx : positive) (ex : Z) :
  let e1 := fexp prec emax (Zpos (digits2_pos mx) + ex) in
  let k := e1 - ex in
  let r := binary_round_aux prec emax s (Zpos mx) ex loc_Exact in
  (k <= 0 -> r = if ex <=? 971 then S754_finite s mx ex else S754_infinity s) /\
  (0 < k ->
   exists m1 : Z,
     Zpos mx / 2 ^ k <= m1 <= Zpos mx / 2 ^ k + 1 /\
     (Zpos mx mod 2 ^ k = 0 -> m1 = Zpos mx / 2 ^ k) /\
     ((m1 = 0 /\ r = S754_zero s) \/
      (0 < m1 < 2 ^ 53 /\
       r = if e1 <=? 971 then S754_finite s (Z.to_pos m1) e1 else S754_infinity s) \/
      (m1 = 2 ^ 53 /\
       r = if e1 + 1 <=? 971 then S754_finite s (Z.to_pos (2 ^ 52)) (e1 + 1)
           else S754_infinity s))).
Proof.
  intros e1 k r.
  destruct (shr_fexp_exact (Zpos mx) ex ltac:(lia)) as [Hk0 Hk1].
  change (Zdigits2 (Zpos mx)) with (Zpos (digits2_pos mx)) in Hk0, Hk1.
  fold e1 in Hk0, Hk1. fold k in Hk0, Hk1.
  cbv zeta in Hk0, Hk1.
  split; intros Hk.
  - specialize (Hk0 Hk). unfold r, binary_round_aux.
    rewrite Hk0. cbn [shr_m loc_of_shr_record round_nearest_even].
    rewrite Hk0. cbn [shr_m]. reflexivity.
  - destruct (Hk1 Hk) as (He & Hm & Hi). clear Hk0 Hk1.
    unfold r, binary_round_aux.
    destruct (shr_fexp prec emax (Zpos mx) ex loc_Exact) as [mrs e'].
    cbn [fst snd] in He, Hm, Hi. cbv beta iota.
    destruct (round_nearest_even_faithful mrs) as [Hb Hx].
    set (m1 := round_nearest_even (shr_m mrs) (loc_of_shr_record mrs)) in *.
    cbv zeta in Hb, Hx.
    assert (Hp : 0 < 2 ^ k) by (apply pow2_pos; lia).
    assert (He1 : e' = e1) by (unfold k in He; lia). clear He. subst e'.
    assert (E1 : -1074 <= e1) by (unfold e1; rewrite fexp_eq; lia).
    assert (Hq : 0 <= Zpos mx / 2 ^ k) by (apply Z.div_pos; lia).
    assert (Hlt : Zpos mx / 2 ^ k < 2 ^ 53).
    { apply Z.div_lt_upper_bound; [lia | ].
      destruct (digits2_pos_bounds mx) as [_ Hd].
      assert (Zpos (digits2_pos mx) <= k + 53) by (unfold k, e1; rewrite fexp_eq; lia).
      assert (2 ^ Zpos (digits2_pos mx) <= 2 ^ (k + 53)) by (apply pow2_le; lia).
      rewrite Z.pow_add_r in * by lia. lia. }
    exists m1. rewrite Hm in Hb, Hx.
    split; [exact Hb | ]. split.
    { intros H0. apply Hx. rewrite Hi. apply Z.eqb_eq in H0. rewrite H0. reflexivity. }
    destruct (shr_fexp_exact m1 e1 ltac:(lia)) as [Hk0 Hk1].
    cbv zeta in Hk0, Hk1.
    destruct (Z.eq_dec m1 0) as [Hz | Hnz];
      [ | destruct (Z.eq_dec m1 (2 ^ 53)) as [Hbig | Hsmall] ].
    + left. split; [exact Hz | ].
      rewrite Hk0; [ rewrite Hz; reflexivity | ].
      rewrite Hz. cbn [Zdigits2]. rewrite fexp_eq. lia.
    + right; right. split; [exact Hbig | ].
      assert (Hd54 : Zdigits2 m1 = 54) by (rewrite Hbig; reflexivity).
      assert (Hk2 : fexp prec emax (Zdigits2 m1 + e1) - e1 = 1)
        by (rewrite Hd54, fexp_eq; lia).
      rewrite Hk2 in Hk1. destruct (Hk1 ltac:(lia)) as (He2 & Hm2 & _).
      destruct (shr_fexp prec emax m1 e1 loc_Exact) as [mrs2 e2].
      cbn [fst snd] in He2, Hm2. rewrite Hm2, He2, Hbig.
      change (2 ^ 53 / 2 ^ 1) with (Zpos (Z.to_pos (2 ^ 52))).
      reflexivity.
    + right; left. split; [lia | ].
      assert (Hd : Zdigits2 m1 <= 53) by (apply Zdigits2_le; lia).
      rewrite Hk0 by (rewrite fexp_eq; lia).
      cbn [shr_m]. destruct m1; try lia. reflexivity.
Qed.

Lemma Zv_pos (m e : Z) : 0 < m -> -2148 <= e -> 0 < Zv m e.
Proof. intros; unfold Zv; apply Z.mul_pos_pos; [lia | apply pow2_pos; lia]. Qed.

Lemma Zv_shift (m e k : Z) : 0 <= k -> -2148 <= e -> Zv m (e + k) = Zv (m * 2 ^ k) e.
Proof.
  intros; unfold Zv.
  replace (e + k + 2148) with (k + (e + 2148)) by lia.
  rewrite Z.pow_add_r by lia. ring.
Qed.

Lemma Zv_le_cancel (a b e : Z) : -2148 <= e -> Zv a e <= Zv b e -> a <= b.
Proof.
  unfold Zv; intros He H.
  assert (0 < 2 ^ (e + 2148)) by (apply pow2_pos; lia). nia.
Qed.

Lemma Zv_le_mono (a b e : Z) : -2148 <= e -> a <= b -> Zv a e <= Zv b e.
Proof.
  unfold Zv; intros He H.
  assert (0 < 2 ^ (e + 2148)) by (apply pow2_pos; lia). nia.
Qed.

Lemma Zv_lt_pow (M E : Z) : 0 <= M < 2 ^ 53 -> -2148 <= E -> Zv M E < Zv 1 (E + 53).
Proof.
  intros HM HE. rewrite Zv_shift by lia.
  unfold Zv. assert (0 < 2 ^ (E + 2148)) by (apply pow2_pos; lia). nia.
Qed.

Lemma Zv_pow_le (a b : Z) : -2148 <= a <= b -> Zv 1 a <= Zv 1 b.
Proof. intros; unfold Zv; rewrite !Z.mul_1_l; apply pow2_le; lia. Qed.

Lemma Zv_pow_lt_inv (a b : Z) : -2148 <= a -> -2148 <= b -> Zv 1 a < Zv 1 b -> a < b.
Proof.
  intros Ha Hb H. destruct (Z.lt_ge_cases a b) as [ | Hge]; [assumption | exfalso].
  assert (Zv 1 b <= Zv 1 a) by (apply Zv_pow_le; lia). lia.
Qed.

Theorem binary_round_aux_bounds (s : bool) (mx : positive) (ex ML EL MH EH : Z) :
  -2148 <= ex -> repr ML EL -> repr MH EH ->
  Zv MH EH < Zv 1 972 ->
  Zv ML EL <= Zv (Zpos mx) ex <= Zv MH EH ->
  mag_in s (Zv ML EL) (Zv MH EH) (binary_round_aux prec emax s (Zpos mx) ex loc_Exact).
Proof.
  intros Hex [HML HEL] [HMH HEH] Hsmall [HL HH].
  destruct (binary_round_aux_cases s mx ex) as [C0 C1].
  set (d := Zpos (digits2_pos mx)) in *.
  set (e1 := fexp prec emax (d + ex)) in *.
  cbv zeta in C0, C1.
  assert (E1 : -1074 <= e1) by (unfold e1; rewrite fexp_eq; lia).
  assert (E1' : d + ex - 53 <= e1) by (unfold e1; rewrite fexp_eq; lia).
  assert (Hone : Zv 1 ex <= Zv (Zpos mx) ex) by (apply Zv_le_mono; lia).
  destruct (Z.le_gt_cases (e1 - ex) 0) as [Hk | Hk].
  - rewrite (C0 Hk).
    assert (ex < 972) by (apply Zv_pow_lt_inv; lia).
    replace (ex <=? 971) with true by (symmetry; apply Z.leb_le; lia).
    cbn [mag_in]. repeat split; lia.
  - destruct (C1 ltac:(lia)) as (m1 & [Hlo Hhi] & Hexact & Hres). clear C0 C1.
    set (k := e1 - ex) in *.
    assert (Hp : 0 < 2 ^ k) by (apply pow2_pos; lia).
    assert (Hdm : Zpos mx = 2 ^ k * (Zpos mx / 2 ^ k) + Zpos mx mod 2 ^ k)
      by (apply Z.div_mod; lia).
    assert (Hmb : 0 <= Zpos mx mod 2 ^ k < 2 ^ k) by (apply Z.mod_pos_bound; lia).
    assert (Hq0 : 0 <= Zpos mx / 2 ^ k) by (apply Z.div_pos; lia).
    assert (Hval : Zv m1 e1 = Zv (m1 * 2 ^ k) ex).
    { replace e1 with (ex + k) by (unfold k; lia). apply Zv_shift; lia. }
    destruct (digits2_pos_bounds mx) as [Hd1 Hd2]. fold d in Hd1, Hd2.
    (* the upper bound *)
    assert (UP : Zv m1 e1 <= Zv MH EH).
    { destruct (Z.le_gt_cases e1 EH) as [Hge | Hlt].
      - set (N := MH * 2 ^ (EH - e1)).
        assert (HN : Zv MH EH = Zv (N * 2 ^ k) ex).
        { unfold N. replace EH with (ex + (k + (EH - e1))) at 1 by (unfold k; lia).
          rewrite Zv_shift by lia. f_equal.
          rewrite Z.pow_add_r by lia. ring. }
        rewrite HN in HH |- *. rewrite Hval.
        apply Zv_le_mono; [lia | ].
        apply Zv_le_cancel in HH; [ | lia].
        destruct (Z.eq_dec (Zpos mx mod 2 ^ k) 0) as [Hz | Hnz].
        + rewrite (Hexact Hz). nia.
        + assert (Zpos mx / 2 ^ k < N) by nia. nia.
      - exfalso.
        assert (e1 = d + ex - 53) by (unfold e1 in *; rewrite fexp_eq in *; lia).
        assert (Zv MH EH < Zv 1 (EH + 53)) by (apply Zv_lt_pow; lia).
        assert (Zv 1 (EH + 53) <= Zv 1 (ex + (d - 1))) by (apply Zv_pow_le; lia).
        assert (Zv 1 (ex + (d - 1)) <= Zv (Zpos mx) ex).
        { rewrite Zv_shift by lia. apply Zv_le_mono; lia. }
        lia. }
    (* the lower bound *)
    assert (LO : Zv ML EL <= Zv m1 e1).
    { destruct (Z.le_gt_cases e1 EL) as [Hge | Hlt].
      - set (N := ML * 2 ^ (EL - e1)).
        assert (HN : Zv ML EL = Zv (N * 2 ^ k) ex).
        { unfold N. replace EL with (ex + (k + (EL - e1))) at 1 by (unfold k; lia).
          rewrite Zv_shift by lia. f_equal.
          rewrite Z.pow_add_r by lia. ring. }
        rewrite HN in HL |- *. rewrite Hval.
        apply Zv_le_mono; [lia | ].
        apply Zv_le_cancel in HL; [ | lia].
        assert (N <= Zpos mx / 2 ^ k) by nia. nia.
      - assert (He1 : e1 = d + ex - 53) by (unfold e1 in *; rewrite fexp_eq in *; lia).
        assert (Hk53 : k = d - 53) by (unfold k; lia).
        assert (2 ^ 52 <= Zpos mx / 2 ^ k).
        { apply Z.div_le_lower_bound; [lia | ].
          rewrite <- Z.pow_add_r by lia.
          replace (k + 52) with (d - 1) by lia. lia. }
        assert (Zv ML EL < Zv 1 (EL + 53)) by (apply Zv_lt_pow; lia).
        assert (Zv 1 (EL + 53) <= Zv 1 (e1 + 52)) by (apply Zv_pow_le; lia).
        assert (Zv 1 (e1 + 52) <= Zv m1 e1).
        { rewrite Zv_shift by lia. apply Zv_le_mono; lia. }
        lia. }
    assert (Hz1 : 0 < m1 -> Zv 1 e1 <= Zv m1 e1) by (intros; apply Zv_le_mono; lia).
    destruct Hres as [[Hz Hr] | [[Hm Hr] | [Hm Hr]]]; rewrite Hr.
    + cbn [mag_in]. rewrite Hz in LO. unfold Zv at 2 in LO. split; [reflexivity | lia].
    + specialize (Hz1 ltac:(lia)).
      assert (e1 < 972) by (apply Zv_pow_lt_inv; lia).
      replace (e1 <=? 971) with true by (symmetry; apply Z.leb_le; lia).
      cbn [mag_in]. rewrite Z2Pos.id by lia. repeat split; lia.
    + assert (Hv2 : Zv (2 ^ 52) (e1 + 1) = Zv m1 e1).
      { rewrite Zv_shift by lia. f_equal. rewrite Hm. reflexivity. }
      assert (Zv 1 (e1 + 53) = Zv m1 e1).
      { rewrite Zv_shift by lia. f_equal. rewrite Hm. lia. }
      assert (e1 + 53 < 972) by (apply Zv_pow_lt_inv; lia).
      replace (e1 + 1 <=? 971) with true by (symmetry; apply Z.leb_le; lia).
      cbn [mag_in]. rewrite Z2Pos.id by (apply pow2_pos; lia).
      rewrite Hv2. repeat split; lia.
Qed.

Lemma Pos_iter_xO (d m : positive) : Zpos (Pos.iter xO m d) = Zpos m * 2 ^ Zpos d.
Proof.
  induction d as [ | d IH] using Pos.peano_ind.
  - cbn. lia.
  - rewrite Pos.iter_succ, Pos2Z.inj_xO, IH, Pos2Z.inj_succ, Z.pow_succ_r by lia. ring.
Qed.

Lemma shl_align_spec (mx : positive) (ex e' : Z) :
  snd (shl_align mx ex e') = Z.min ex e' /\
  Zpos (fst (shl_align mx ex e')) = Zpos mx * 2 ^ (ex - Z.min ex e').
Proof.
  unfold shl_align. destruct (e' - ex) as [ | p | p] eqn:E; cbn [fst snd].
  - replace (Z.min ex e') with ex by lia. rewrite Z.sub_diag. cbn. lia.
  - replace (Z.min ex e') with ex by lia. rewrite Z.sub_diag. cbn. lia.
  - replace (Z.min ex e') with e' by lia. rewrite Pos_iter_xO.
    split; [reflexivity | f_equal; f_equal; lia].
Qed.

Lemma shl_align_Zv (mx : positive) (ex e' : Z) :
  -2148 <= ex -> -2148 <= e' ->
  Zv (Zpos (fst (shl_align mx ex e'))) (snd (shl_align mx ex e')) = Zv (Zpos mx) ex.
Proof.
  intros H1 H2. destruct (shl_align_spec mx ex e') as [-> ->].
  rewrite <- Zv_shift by lia. f_equal. lia.
Qed.

Lemma binary_round_bounds (s : bool) (mx : positive) (ex ML EL MH EH : Z) :
  -2148 <= ex -> repr ML EL -> repr MH EH ->
  Zv MH EH < Zv 1 972 ->
  Zv ML EL <= Zv (Zpos mx) ex <= Zv MH EH ->
  mag_in s (Zv ML EL) (Zv MH EH) (binary_round prec emax s mx ex).
Proof.
  intros Hex HL HH Hs Hb. unfold binary_round.
  set (e' := fexp prec emax (Zpos (digits2_pos mx) + ex)).
  assert (-1074 <= e') by (unfold e'; rewrite fexp_eq; lia).
  pose proof (shl_align_Zv mx ex e' ltac:(lia) ltac:(lia)) as Hv.
  destruct (shl_align_spec mx ex e') as [He _].
  destruct (shl_align mx ex e') as [mz ez]. cbn [fst snd] in *.
  apply binary_round_aux_bounds; try assumption; [lia | rewrite Hv; exact Hb].
Qed.

Lemma binary_normalize_bounds (z e ML EL MH EH : Z) (sz : bool) :
  -2148 <= e -> repr ML EL -> repr MH EH ->
  Zv MH EH < Zv 1 972 ->
  0 <= z ->
  Zv ML EL <= Zv z e <= Zv MH EH ->
  mag_in false (Zv ML EL) (Zv MH EH) (binary_normalize prec emax z e false).
Proof.
  intros He HL HH Hs Hz Hb. destruct z as [ | p | p]; try lia; cbn [binary_normalize].
  - cbn [mag_in]. unfold Zv at 2 in Hb. split; [reflexivity | lia].
  - apply binary_round_bounds; assumption.
Qed.

(** An integer below 2^53 converts exactly. *)
Lemma int_to_double_exact (n : Z) :
  0 < n < 2 ^ 53 ->
  exists m e, int_to_double n = S754_finite false m e /\ -1074 <= e /\
              Zv (Zpos m) e = Zv n 0.
Proof.
  intros Hn. unfold int_to_double.
  assert (Hr : repr n 0) by (unfold repr; lia).
  assert (Hs : Zv n 0 < Zv 1 972).
  { eapply Z.lt_le_trans; [apply Zv_lt_pow; lia | apply Zv_pow_le; lia]. }
  pose proof (binary_normalize_bounds n 0 n 0 n 0 false ltac:(lia) Hr Hr Hs ltac:(lia)
                ltac:(lia)) as H.
  destruct (binary_normalize prec emax n 0 false) as [s' | | | s' m e]; cbn [mag_in] in H;
    try contradiction.
  - destruct H as [_ H]. pose proof (Zv_pos n 0 ltac:(lia) ltac:(lia)). lia.
  - destruct H as (-> & He & Hv). exists m, e. repeat split; lia.
Qed.

Lemma mag_in_pos_le (L H : Z) (x : float) : mag_in false L H x -> pos_le H x.
Proof.
  destruct x as [s | s | | s m e]; cbn; try tauto.
  intros (-> & He & Hv). split; lia.
Qed.

Lemma bounded_inv (m : positive) (e : Z) :
  bounded prec emax m e = true -> Zpos m < 2 ^ 53 /\ -1074 <= e <= 971.
Proof.
  unfold bounded, canonical_mantissa. intros H.
  apply andb_prop in H. destruct H as [Hc He].
  apply Z.eqb_eq in Hc. apply Z.leb_le in He.
  rewrite fexp_eq in Hc. change (emax - prec) with 971 in He.
  destruct (digits2_pos_bounds m) as [_ Hd].
  split; [ | lia].
  assert (2 ^ Zpos (digits2_pos m) <= 2 ^ 53) by (apply pow2_le; lia). lia.
Qed.

(** Comparison against a normal positive constant [mc * 2^ec]. *)
Lemma not_gt_bound (mc : positive) (ec : Z) (s : bool) (m : positive) (e : Z) :
  2 ^ 52 <= Zpos mc -> -1074 <= ec ->
  bounded prec emax m e = true ->
  flt (S754_finite false mc ec) (S754_finite s m e) = false ->
  s = true \/ Zv (Zpos m) e <= Zv (Zpos mc) ec.
Proof.
  intros Hmc Hec Hb H. destruct (bounded_inv m e Hb) as [Hm He].
  destruct s; [left; reflexivity | right].
  unfold flt, SFltb, SFcompare in H.
  destruct (Z.compare_spec ec e) as [E | E | E]; try discriminate.
  - subst e. apply Zv_le_mono; [lia | ].
    rewrite Pos.compare_cont_spec in H. cbn [Pos.switch_Eq] in H.
    destruct (Pos.compare_spec mc m) as [E | E | E]; try discriminate; lia.
  - assert (Zv (Zpos m) e < Zv 1 (e + 53)) by (apply Zv_lt_pow; lia).
    assert (Zv 1 (e + 53) <= Zv 1 (ec + 52)) by (apply Zv_pow_le; lia).
    assert (Zv 1 (ec + 52) <= Zv (Zpos mc) ec).
    { rewrite Zv_shift by lia. apply Zv_le_mono; lia. }
    lia.
Qed.

Lemma not_lt_bound (mc : positive) (ec : Z) (s : bool) (m : positive) (e : Z) :
  2 ^ 52 <= Zpos mc -> -1074 <= ec ->
  bounded prec emax m e = true ->
  flt (S754_finite s m e) (S754_finite true mc ec) = false ->
  s = false \/ Zv (Zpos m) e <= Zv (Zpos mc) ec.
Proof.
  intros Hmc Hec Hb H. destruct (bounded_inv m e Hb) as [Hm He].
  destruct s; [right | left; reflexivity].
  unfold flt, SFltb, SFcompare in H.
  destruct (Z.compare_spec e ec) as [E | E | E]; try discriminate.
  - subst e. apply Zv_le_mono; [lia | ].
    rewrite Pos.compare_cont_spec in H. cbn [Pos.switch_Eq] in H.
    destruct (Pos.compare_spec m mc) as [E | E | E]; try discriminate; lia.
  - assert (Zv (Zpos m) e < Zv 1 (e + 53)) by (apply Zv_lt_pow; lia).
    assert (Zv 1 (e + 53) <= Zv 1 (ec + 52)) by (apply Zv_pow_le; lia).
    assert (Zv 1 (ec + 52) <= Zv (Zpos mc) ec).
    { rewrite Zv_shift by lia. apply Zv_le_mono; lia. }
    lia.
Qed.

(** Clamping a double that is not a NaN leaves a magnitude within the
    limit. *)
Lemma clamp_abs_le (mc : positive) (ec : Z) (x : float) :
  2 ^ 52 <= Zpos mc -> -1074 <= ec ->
  is_double x -> is_nan x = false ->
  abs_le (Zv (Zpos mc) ec) (clamp (S754_finite false mc ec) x).
Proof.
  intros Hmc Hec Hv Hn. unfold clamp. cbn [fneg SFopp negb].
  destruct x as [s | s | | s m e]; try discriminate.
  - unfold flt, SFltb; cbn [SFcompare abs_le]. destruct s; exact I.
  - unfold flt, SFltb; destruct s; cbn [SFcompare abs_le]; split; lia.
  - unfold is_double in Hv. cbn [valid_binary] in Hv.
    destruct (bounded_inv m e Hv) as [Hm He].
    destruct (flt (S754_finite s m e) (S754_finite true mc ec)) eqn:E1.
    + replace (flt (S754_finite false mc ec) (S754_finite true mc ec)) with false
        by reflexivity.
      cbn [abs_le]. split; lia.
    + destruct (flt (S754_finite false mc ec) (S754_finite s m e)) eqn:E2.
      * cbn [abs_le]. split; lia.
      * cbn [abs_le]. split; [lia | ].
        destruct (not_gt_bound mc ec s m e Hmc Hec Hv E2) as [-> | ]; [ | assumption].
        destruct (not_lt_bound mc ec true m e Hmc Hec Hv E1); [discriminate | assumption].
Qed.

Lemma magnitude_pos_le (H : Z) (x : float) : abs_le H x -> pos_le H (magnitude x).
Proof.
  destruct x as [s | s | | s m e]; cbn [abs_le]; try tauto.
  unfold magnitude, flt, SFltb, d0; cbn [SFcompare].
  destruct s; cbn [fneg SFopp negb pos_le]; tauto.
Qed.

Lemma Zv_sub (a b e : Z) : Zv (a - b) e = Zv a e - Zv b e.
Proof. unfold Zv; ring. Qed.

Lemma Zv_add (a b e : Z) : Zv (a + b) e = Zv a e + Zv b e.
Proof. unfold Zv; ring. Qed.

Lemma Zv_cond_Zopp (s : bool) (a e : Z) : Zv (cond_Zopp s a) e = cond_Zopp s (Zv a e).
Proof. destruct s; unfold Zv; cbn [cond_Zopp]; ring. Qed.

Lemma Zv_mul (a ea b eb : Z) :
  -1074 <= ea -> -1074 <= eb ->
  Zv (a * b) (ea + eb) * Zv 1 0 = Zv a ea * Zv b eb.
Proof.
  intros Ha Hb. unfold Zv.
  replace (ea + eb + 2148) with ((ea + 1074) + (eb + 1074)) by lia.
  replace (ea + 2148) with ((ea + 1074) + 1074) by lia.
  replace (eb + 2148) with ((eb + 1074) + 1074) by lia.
  replace (0 + 2148) with (1074 + 1074) by lia.
  rewrite (Z.pow_add_r 2 (ea + 1074) (eb + 1074)), (Z.pow_add_r 2 (ea + 1074) 1074),
    (Z.pow_add_r 2 (eb + 1074) 1074), (Z.pow_add_r 2 1074 1074) by lia.
  generalize (2 ^ (ea + 1074)) (2 ^ (eb + 1074)) (2 ^ 1074). intros; ring.
Qed.

Lemma Zv_nonneg_inv (z e : Z) : -2148 <= e -> 0 <= Zv z e -> 0 <= z.
Proof.
  intros He H. apply (Zv_le_cancel 0 z e He). unfold Zv at 1. lia.
Qed.

Lemma Zv_repr_small (N : Z) : 0 <= N < 2 ^ 53 -> Zv N 0 < Zv 1 972.
Proof.
  intros H. eapply Z.lt_le_trans; [apply Zv_lt_pow; lia | apply Zv_pow_le; lia].
Qed.

(** Sums and differences of finite doubles. *)
Lemma fsub_finite_bounds (sx : bool) (mx : positive) (ex : Z)
      (sy : bool) (my : positive) (ey ML EL MH EH : Z) :
  -1074 <= ex -> -1074 <= ey -> repr ML EL -> repr MH EH ->
  Zv MH EH < Zv 1 972 ->
  Zv ML EL <= cond_Zopp sx (Zv (Zpos mx) ex) - cond_Zopp sy (Zv (Zpos my) ey) <= Zv MH EH ->
  mag_in false (Zv ML EL) (Zv MH EH)
         (fsub (S754_finite sx mx ex) (S754_finite sy my ey)).
Proof.
  intros Hex Hey HL HH Hs Hb. unfold fsub, SFsub.
  set (ez := Z.min ex ey).
  pose proof (shl_align_Zv mx ex ez ltac:(lia) ltac:(lia)) as Hx.
  pose proof (shl_align_Zv my ey ez ltac:(lia) ltac:(lia)) as Hy.
  destruct (shl_align_spec mx ex ez) as [Hx1 _].
  destruct (shl_align_spec my ey ez) as [Hy1 _].
  replace (Z.min ex ez) with ez in Hx1 by lia.
  replace (Z.min ey ez) with ez in Hy1 by lia.
  rewrite Hx1 in Hx. rewrite Hy1 in Hy.
  set (z := cond_Zopp sx (Zpos (fst (shl_align mx ex ez)))
            - cond_Zopp sy (Zpos (fst (shl_align my ey ez)))).
  assert (Hz : Zv z ez = cond_Zopp sx (Zv (Zpos mx) ex) - cond_Zopp sy (Zv (Zpos my) ey)).
  { unfold z. rewrite Zv_sub, !Zv_cond_Zopp, Hx, Hy. reflexivity. }
  destruct HL as [HML HEL].
  assert (0 <= Zv ML EL) by (unfold Zv; apply Z.mul_nonneg_nonneg; [lia | apply Z.pow_nonneg; lia]).
  apply binary_normalize_bounds; try assumption; try lia.
  - split; assumption.
  - apply (Zv_nonneg_inv z ez); lia.
Qed.

Lemma fadd_finite_bounds (sx : bool) (mx : positive) (ex : Z)
      (sy : bool) (my : positive) (ey ML EL MH EH : Z) :
  -1074 <= ex -> -1074 <= ey -> repr ML EL -> repr MH EH ->
  Zv MH EH < Zv 1 972 ->
  Zv ML EL <= cond_Zopp sx (Zv (Zpos mx) ex) + cond_Zopp sy (Zv (Zpos my) ey) <= Zv MH EH ->
  mag_in false (Zv ML EL) (Zv MH EH)
         (fadd (S754_finite sx mx ex) (S754_finite sy my ey)).
Proof.
  intros Hex Hey HL HH Hs Hb. unfold fadd, SFadd.
  set (ez := Z.min ex ey).
  pose proof (shl_align_Zv mx ex ez ltac:(lia) ltac:(lia)) as Hx.
  pose proof (shl_align_Zv my ey ez ltac:(lia) ltac:(lia)) as Hy.
  destruct (shl_align_spec mx ex ez) as [Hx1 _].
  destruct (shl_align_spec my ey ez) as [Hy1 _].
  replace (Z.min ex ez) with ez in Hx1 by lia.
  replace (Z.min ey ez) with ez in Hy1 by lia.
  rewrite Hx1 in Hx. rewrite Hy1 in Hy.
  set (z := cond_Zopp sx (Zpos (fst (shl_align mx ex ez)))
            + cond_Zopp sy (Zpos (fst (shl_align my ey ez)))).
  assert (Hz : Zv z ez = cond_Zopp sx (Zv (Zpos mx) ex) + cond_Zopp sy (Zv (Zpos my) ey)).
  { unfold z. rewrite Zv_add, !Zv_cond_Zopp, Hx, Hy. reflexivity. }
  destruct HL as [HML HEL].
  assert (0 <= Zv ML EL) by (unfold Zv; apply Z.mul_nonneg_nonneg; [lia | apply Z.pow_nonneg; lia]).
  apply binary_normalize_bounds; try assumption; try lia.
  - split; assumption.
  - apply (Zv_nonneg_inv z ez); lia.
Qed.

(** Products of finite doubles. *)
Lemma fmul_finite_bounds (sx : bool) (mx : positive) (ex : Z)
      (sy : bool) (my : positive) (ey ML EL MH EH : Z) :
  -1074 <= ex -> -1074 <= ey -> repr ML EL -> repr MH EH ->
  Zv MH EH < Zv 1 972 ->
  Zv ML EL * Zv 1 0 <= Zv (Zpos mx) ex * Zv (Zpos my) ey <= Zv MH EH * Zv 1 0 ->
  mag_in (xorb sx sy) (Zv ML EL) (Zv MH EH)
         (fmul (S754_finite sx mx ex) (S754_finite sy my ey)).
Proof.
  intros Hex Hey HL HH Hs Hb. unfold fmul, SFmul.
  rewrite <- (Zv_mul (Zpos mx) ex (Zpos my) ey) in Hb by lia.
  assert (0 < Zv 1 0) by (apply Zv_pos; lia).
  apply binary_round_aux_bounds; try assumption; try lia.
  rewrite Pos2Z.inj_mul. destruct Hb as [Hb1 Hb2].
  apply Z.mul_le_mono_pos_r in Hb1; [ | assumption].
  apply Z.mul_le_mono_pos_r in Hb2; [ | assumption].
  split; assumption.
Qed.

Lemma Zv_const (N k : Z) : 0 <= k <= 2148 -> Zv (N * 2 ^ k) (- k) = Zv N 0.
Proof. intros H. rewrite <- Zv_shift by lia. f_equal. lia. Qed.

Lemma d60_Zv : d60 = S754_finite false (Z.to_pos (60 * 2 ^ 47)) (-47).
Proof. reflexivity. Qed.

Lemma d90_Zv : d90 = S754_finite false (Z.to_pos (90 * 2 ^ 46)) (-46).
Proof. reflexivity. Qed.

Lemma d180_Zv : d180 = S754_finite false (Z.to_pos (180 * 2 ^ 45)) (-45).
Proof. reflexivity. Qed.

Lemma d380926_Zv : d380926 = S754_finite false (Z.to_pos (380926 * 2 ^ 34)) (-34).
Proof. reflexivity. Qed.

Lemma d190463_Zv : d190463 = S754_finite false (Z.to_pos (190463 * 2 ^ 35)) (-35).
Proof. reflexivity. Qed.

Lemma Zv_to_pos_const (N k : Z) :
  0 < N -> 0 <= k <= 2148 -> Zv (Zpos (Z.to_pos (N * 2 ^ k))) (- k) = Zv N 0.
Proof.
  intros HN Hk. rewrite Z2Pos.id; [apply Zv_const; lia | ].
  apply Z.mul_pos_pos; [lia | apply pow2_pos; lia].
Qed.

(** The integer part of a non-negative double. *)
Lemma ftrunc_bounds (m : positive) (e : Z) :
  -1074 <= e ->
  let n := Z.shiftl (Zpos m) e in
  0 <= n /\ Zv n 0 <= Zv (Zpos m) e < Zv (n + 1) 0.
Proof.
  intros He n. unfold n.
  destruct (Z.le_gt_cases 0 e) as [H | H].
  - rewrite Z.shiftl_mul_pow2 by lia.
    assert (0 < 2 ^ e) by (apply pow2_pos; lia).
    replace (Zv (Zpos m) e) with (Zv (Zpos m * 2 ^ e) 0)
      by (rewrite <- Zv_shift by lia; f_equal; lia).
    split; [nia | ].
    split; [lia | apply Z.le_succ_l; apply Z.lt_succ_r].
    destruct (Z.le_gt_cases (Zv (Zpos m * 2 ^ e + 1) 0) (Zv (Zpos m * 2 ^ e) 0)) as [C | C].
    + apply Zv_le_cancel in C; lia.
    + lia.
  - rewrite Z.shiftl_div_pow2 by lia.
    set (k := - e). assert (Hp : 0 < 2 ^ k) by (apply pow2_pos; lia).
    assert (Hdm : Zpos m = 2 ^ k * (Zpos m / 2 ^ k) + Zpos m mod 2 ^ k)
      by (apply Z.div_mod; lia).
    assert (Hmb : 0 <= Zpos m mod 2 ^ k < 2 ^ k) by (apply Z.mod_pos_bound; lia).
    assert (Hq : 0 <= Zpos m / 2 ^ k) by (apply Z.div_pos; lia).
    assert (Hc : forall N, Zv N 0 = Zv (N * 2 ^ k) e).
    { intros N. replace 0 with (e + k) at 1 by (unfold k; lia). apply Zv_shift; lia. }
    rewrite !Hc. split; [lia | ].
    split.
    + apply Zv_le_mono; [lia | nia].
    + assert (Zv (Zpos m + 1) e <= Zv ((Zpos m / 2 ^ k + 1) * 2 ^ k) e)
        by (apply Zv_le_mono; [lia | nia]).
      assert (Zv (Zpos m) e < Zv (Zpos m + 1) e).
      { rewrite Zv_add. pose proof (Zv_pos 1 e ltac:(lia) ltac:(lia)). lia. }
      lia.
Qed.

Lemma Zv_lt_mono (a b e : Z) : -2148 <= e -> a < b -> Zv a e < Zv b e.
Proof.
  intros He H. assert (Zv (a + 1) e <= Zv b e) by (apply Zv_le_mono; lia).
  rewrite Zv_add in *. pose proof (Zv_pos 1 e ltac:(lia) He). lia.
Qed.

Lemma Zv_lt_cancel (a b e : Z) : -2148 <= e -> Zv a e < Zv b e -> a < b.
Proof.
  intros He H. destruct (Z.lt_ge_cases a b) as [ | C]; [assumption | ].
  apply (Zv_le_mono b a e He) in C. lia.
Qed.

Lemma mag_in_false_neg_zero (L H : Z) (x : float) : mag_in false L H x -> neg_zero x = false.
Proof.
  destruct x as [s | s | | s m e]; cbn [mag_in neg_zero]; try reflexivity.
  intros [-> _]. reflexivity.
Qed.

Lemma neg_zero_magnitude (x : float) : neg_zero (magnitude x) = neg_zero x.
Proof.
  destruct x as [s | s | | s m e]; try reflexivity.
  - destruct s; reflexivity.
  - destruct s; reflexivity.
Qed.

Lemma neg_zero_clamp (mc : positive) (ec : Z) (x : float) :
  neg_zero (clamp (S754_finite false mc ec) x) = neg_zero x.
Proof.
  unfold clamp. cbn [fneg SFopp negb].
  destruct x as [s | s | | s m e]; try reflexivity.
  - destruct s; reflexivity.
  - destruct (flt (S754_finite s m e) (S754_finite true mc ec)).
    + destruct (flt (S754_finite false mc ec) (S754_finite true mc ec)); reflexivity.
    + destruct (flt (S754_finite false mc ec) (S754_finite s m e)); reflexivity.
Qed.

(** Degrees and the fraction left for the minutes, lines 89-90. *)
Lemma degrees_fraction (N : Z) (a : float) :
  0 <= N < 2 ^ 31 - 1 ->
  pos_le (Zv N 0) a ->
  exists ideg, double_to_int a = Some ideg /\ 0 <= ideg <= N /\
               pos_le (Zv 1 0) (fsub a (int_to_double ideg)) /\
               neg_zero (fsub a (int_to_double ideg)) = neg_zero a.
Proof.
  intros HN Ha. destruct a as [s | s | | s m e]; cbn [pos_le] in Ha; try contradiction.
  - exists 0. split; [reflexivity | ]. split; [lia | ].
    destruct s; split; try exact I; reflexivity.
  - destruct s; [contradiction | ]. destruct Ha as [He Hv].
    destruct (ftrunc_bounds m e He) as (Hn0 & Hn1 & Hn2).
    set (n := Z.shiftl (Zpos m) e) in *.
    assert (Hn : n <= N).
    { apply Z.lt_succ_r. apply (Zv_lt_cancel n (Z.succ N) 0); [lia | ].
      assert (Zv (N + 1) 0 = Zv N 0 + Zv 1 0) by apply Zv_add.
      pose proof (Zv_pos 1 0 ltac:(lia) ltac:(lia)).
      replace (Z.succ N) with (N + 1) by lia. lia. }
    exists n. split.
    { unfold double_to_int. cbn [ftrunc cond_Zopp]. fold n.
      replace (INT_MIN <=? n) with true
        by (symmetry; apply Z.leb_le; unfold INT_MIN; lia).
      replace (n <=? INT_MAX) with true
        by (symmetry; apply Z.leb_le; unfold INT_MAX; lia).
      reflexivity. }
    split; [lia | ].
    assert (Hfr : Zv (Zpos m) e - Zv n 0 < Zv 1 0) by (rewrite Zv_add in Hn2; lia).
    destruct (Z.eq_dec n 0) as [Hz | Hnz].
    + rewrite Hz. change (int_to_double 0) with (S754_zero false).
      cbn [fsub SFsub pos_le neg_zero]. rewrite Hz in Hfr. unfold Zv at 2 in Hfr.
      split; [split; lia | reflexivity].
    + destruct (int_to_double_exact n) as (mi & ei & Hi & Hei & Hvi).
      { split; [lia | ]. assert (2 ^ 31 < 2 ^ 53) by (apply pow2_lt; lia). lia. }
      rewrite Hi.
      assert (Hm : mag_in false (Zv 0 0) (Zv 1 0)
                          (fsub (S754_finite false m e) (S754_finite false mi ei))).
      { apply fsub_finite_bounds; try assumption; try (unfold repr; lia).
        * apply Zv_repr_small; lia.
        * cbn [cond_Zopp]. rewrite Hvi. unfold Zv at 1. lia. }
      split; [exact (mag_in_pos_le _ _ _ Hm) | exact (mag_in_false_neg_zero _ _ _ Hm)].
Qed.

(** The minutes of line 90 lie in [[0, 60]]. *)
Lemma minutes_pos_le (a : float) (ideg : Z) :
  pos_le (Zv 1 0) (fsub a (int_to_double ideg)) ->
  pos_le (Zv 60 0) (minutes a ideg) /\
  neg_zero (minutes a ideg) = neg_zero (fsub a (int_to_double ideg)).
Proof.
  unfold minutes. destruct (fsub a (int_to_double ideg)) as [s | s | | s m e];
    cbn [pos_le]; try contradiction.
  - intros _. rewrite d60_Zv. split; [exact I | destruct s; reflexivity].
  - destruct s; [contradiction | ]. intros [He Hv].
    rewrite d60_Zv.
    assert (Hc : Zv (Zpos (Z.to_pos (60 * 2 ^ 47))) (-47) = Zv 60 0)
      by (apply Zv_to_pos_const; lia).
    assert (Hm : mag_in (xorb false false) (Zv 0 0) (Zv 60 0)
                   (fmul (S754_finite false m e)
                         (S754_finite false (Z.to_pos (60 * 2 ^ 47)) (-47)))).
    { apply fmul_finite_bounds; try lia; try (unfold repr; lia).
      + apply Zv_repr_small; lia.
      + rewrite Hc.
        pose proof (Zv_pos 60 0 ltac:(lia) ltac:(lia)).
        pose proof (Zv_pos (Zpos m) e ltac:(lia) ltac:(lia)).
        pose proof (Zv_pos 1 0 ltac:(lia) ltac:(lia)).
        unfold Zv at 1. nia. }
    cbn [xorb] in Hm.
    split; [exact (mag_in_pos_le _ _ _ Hm) | exact (mag_in_false_neg_zero _ _ _ Hm)].
Qed.

(** * Decimal text *)

Lemma append_length (s t : string) : length (s ++ t) = (length s + length t)%nat.
Proof. induction s as [ | c s IH]; cbn; [reflexivity | rewrite IH; reflexivity]. Qed.

Lemma append_assoc (s t u : string) : ((s ++ t) ++ u = s ++ (t ++ u))%string.
Proof. induction s as [ | c s IH]; cbn; [reflexivity | rewrite IH; reflexivity]. Qed.

Lemma append_nil_r (s : string) : (s ++ "")%string = s.
Proof. induction s as [ | c s IH]; cbn; [reflexivity | rewrite IH; reflexivity]. Qed.

Lemma fixed_width_length (n : nat) (r : Z) : length (fixed_width n r) = n.
Proof.
  revert r; induction n as [ | n IH]; intros r; cbn [fixed_width]; [reflexivity | ].
  rewrite append_length, IH. cbn. lia.
Qed.

Lemma fixed_width_0 (n : nat) : fixed_width n 0 = repeat_char "0" n.
Proof.
  induction n as [ | n IH]; cbn [fixed_width]; [reflexivity | ].
  change (0 / 10) with 0. rewrite IH. change (digit_char (0 mod 10)) with "0"%char.
  clear IH. induction n as [ | n IH]; cbn; [reflexivity | rewrite IH; reflexivity].
Qed.


Lemma dec_digits_fixed_width (n : nat) : forall (fuel : nat) (r : Z),
  (1 <= n)%nat -> 0 <= r < 10 ^ Z.of_nat n -> (1 <= fuel)%nat -> r < 2 ^ Z.of_nat fuel ->
  (length (dec_digits fuel r) <= n)%nat /\
  (repeat_char "0" (n - length (dec_digits fuel r)) ++ dec_digits fuel r)%string
  = fixed_width n r.
Proof.
  induction n as [ | n IH]; intros fuel r Hn Hr Hf1 Hf; [lia | ].
  destruct fuel as [ | fuel]; [lia | ].
  cbn [dec_digits fixed_width].
  destruct (Z.ltb_spec r 10) as [Hlt | Hge].
  - cbn [length]. split; [lia | ].
    rewrite Z.div_small, Z.mod_small by lia.
    rewrite fixed_width_0. replace (S n - 1)%nat with n by lia. reflexivity.
  - destruct n as [ | n]; [cbn in Hr; lia | ].
    assert (Hr' : 0 <= r / 10 < 10 ^ Z.of_nat (S n)).
    { split; [apply Z.div_pos; lia | ].
      apply Z.div_lt_upper_bound; [lia | ].
      rewrite (Nat2Z.inj_succ (S n)), Z.pow_succ_r in Hr by lia. lia. }
    assert (Hf' : r / 10 < 2 ^ Z.of_nat fuel).
    { apply Z.div_lt_upper_bound; [lia | ].
      rewrite Nat2Z.inj_succ, Z.pow_succ_r in Hf by lia. lia. }
    assert (Hf1' : (1 <= fuel)%nat).
    { destruct fuel; [ | lia]. cbn in Hf'.
      assert (1 <= r / 10) by (apply Z.div_le_lower_bound; lia). lia. }
    destruct (IH fuel (r / 10) ltac:(lia) Hr' Hf1' Hf') as [Hl He].
    rewrite append_length. cbn [length]. split; [lia | ].
    rewrite <- He, append_assoc.
    replace (S (S n) - (length (dec_digits fuel (r / 10)) + 1))%nat
      with (S n - length (dec_digits fuel (r / 10)))%nat by lia.
    reflexivity.
Qed.

Lemma dec_of_Z_fixed_width (n : nat) (r : Z) :
  (1 <= n)%nat -> 0 <= r < 10 ^ Z.of_nat n ->
  (length (dec_of_Z r) <= n)%nat /\
  (repeat_char "0" (n - length (dec_of_Z r)) ++ dec_of_Z r)%string = fixed_width n r.
Proof.
  intros Hn Hr. unfold dec_of_Z. apply dec_digits_fixed_width; try assumption; [lia | ].
  rewrite Nat2Z.inj_succ, Z2Nat.id by apply Z.log2_nonneg.
  destruct (Z.eq_dec r 0) as [-> | Hnz]; [cbn; lia | ].
  apply Z.log2_spec. lia.
Qed.

(** [%0<w>d] of a number that fits [w] digits. *)
Lemma sprintf_0d_fixed_width (w : nat) (n : Z) :
  (1 <= w)%nat -> 0 <= n < 10 ^ Z.of_nat w -> sprintf_0d w n = fixed_width w n.
Proof.
  intros Hw Hn. unfold sprintf_0d, pad_left.
  replace (n <? 0) with false by (symmetry; apply Z.ltb_ge; lia).
  rewrite Z.abs_eq by lia. cbn [length append Nat.add].
  apply dec_of_Z_fixed_width; assumption.
Qed.

(** [%0<w>.<p>f] of a scaled value that fits the field. *)
Lemma fixed_digits_fixed_width (w p : nat) (q : Z) :
  (1 <= p)%nat -> (p + 2 <= w)%nat -> 0 <= q < 10 ^ Z.of_nat (w - 1) ->
  pad_left "0" w "" (fixed_digits p q)
  = (fixed_width (w - p - 1) (q / 10 ^ Z.of_nat p) ++ "." ++
     fixed_width p (q mod 10 ^ Z.of_nat p))%string.
Proof.
  intros Hp Hw Hq. unfold fixed_digits, pad_left. cbn [length append Nat.add].
  assert (H10 : 0 < 10 ^ Z.of_nat p) by (apply Z.pow_pos_nonneg; lia).
  destruct (dec_of_Z_fixed_width p (q mod 10 ^ Z.of_nat p) Hp
              ltac:(apply Z.mod_pos_bound; lia)) as [_ Hf].
  rewrite Hf.
  assert (Hi : 0 <= q / 10 ^ Z.of_nat p < 10 ^ Z.of_nat (w - p - 1)).
  { split; [apply Z.div_pos; lia | ].
    apply Z.div_lt_upper_bound; [lia | ].
    rewrite <- Z.pow_add_r by lia.
    replace (Z.of_nat p + Z.of_nat (w - p - 1)) with (Z.of_nat (w - 1)) by lia. lia. }
  destruct (dec_of_Z_fixed_width (w - p - 1) (q / 10 ^ Z.of_nat p) ltac:(lia) Hi) as [Hl Hd].
  rewrite <- Hd, append_assoc. f_equal. f_equal.
  rewrite append_length. cbn [length]. rewrite fixed_width_length. lia.
Qed.

Lemma round_decimal_bounds (p : Z) (m : positive) (e H : Z) :
  0 <= p -> -1074 <= e -> Zv (Zpos m) e <= Zv H 0 ->
  0 <= round_decimal p m e <= H * 10 ^ p.
Proof.
  intros Hp He Hv. unfold round_decimal.
  assert (H10 : 0 < 10 ^ p) by (apply Z.pow_pos_nonneg; lia).
  destruct (Z.leb_spec 0 e) as [Hpos | Hneg].
  - assert (0 < 2 ^ e) by (apply pow2_pos; lia).
    replace (Zv (Zpos m) e) with (Zv (Zpos m * 2 ^ e) 0) in Hv
      by (rewrite <- Zv_shift by lia; f_equal; lia).
    apply Zv_le_cancel in Hv; [ | lia]. nia.
  - set (k := - e). assert (Hk : 0 < 2 ^ k) by (apply pow2_pos; lia).
    replace (Zv H 0) with (Zv (H * 2 ^ k) e) in Hv
      by (rewrite <- Zv_shift by lia; f_equal; lia).
    apply Zv_le_cancel in Hv; [ | lia].
    set (num := Zpos m * 10 ^ p).
    assert (Hnum : 0 <= num <= (H * 10 ^ p) * 2 ^ k) by (unfold num; nia).
    assert (Hdm : num = 2 ^ k * (num / 2 ^ k) + num mod 2 ^ k) by (apply Z.div_mod; lia).
    assert (Hmb : 0 <= num mod 2 ^ k < 2 ^ k) by (apply Z.mod_pos_bound; lia).
    assert (Hq : 0 <= num / 2 ^ k) by (apply Z.div_pos; lia).
    assert (Hq' : num / 2 ^ k <= H * 10 ^ p) by nia.
    destruct (Z.compare_spec (2 * (num mod 2 ^ k)) (2 ^ k)) as [E | E | E].
    + destruct (Z.even (num / 2 ^ k)); [lia | ].
      split; [lia | ]. destruct (Z.eq_dec (num / 2 ^ k) (H * 10 ^ p)); [nia | lia].
    + lia.
    + split; [lia | ]. destruct (Z.eq_dec (num / 2 ^ k) (H * 10 ^ p)); [nia | lia].
Qed.

Lemma sprintf_0f_shape (w p : nat) (H : Z) (x : float) :
  (1 <= p)%nat -> (p + 2 <= w)%nat -> 0 <= H -> H * 10 ^ Z.of_nat p < 10 ^ Z.of_nat (w - 1) ->
  pos_le (Zv H 0) x ->
  x = S754_zero true \/ printed_as w p (H * 10 ^ Z.of_nat p) x (sprintf_0f w p x).
Proof.
  intros Hp Hw H0 Hfit Hx. unfold printed_as.
  assert (H10 : 0 < 10 ^ Z.of_nat p) by (apply Z.pow_pos_nonneg; lia).
  destruct x as [s | s | | s m e]; cbn [pos_le] in Hx; try contradiction.
  - destruct s; [left; reflexivity | right]. cbn [printed_scaled].
    split; [nia | ].
    cbn [sprintf_0f]. apply fixed_digits_fixed_width; try assumption. nia.
  - destruct s; [contradiction | right]. destruct Hx as [He Hv].
    pose proof (round_decimal_bounds (Z.of_nat p) m e H ltac:(lia) He Hv) as Hq.
    cbn [printed_scaled]. split; [exact Hq | ].
    cbn [sprintf_0f]. apply fixed_digits_fixed_width; try assumption. lia.
Qed.

(** * Running the encoders *)

Lemma bind_some {A B} (m : M A) (f : A -> M B) (log log' : list event) (a : A) :
  m log = Some (a, log') -> bind m f log = f a log'.
Proof. intros H. unfold bind. rewrite H. reflexivity. Qed.

Lemma clamp_bind {B} (lo hi : string) (lim x : float) (k : float -> M B) (log : list event) :
  bind (if flt x (fneg lim) then
          text_color_set DW_COLOR_ERROR ;;; dw_printf lo ;;; ret (fneg lim)
        else ret x)
       (fun x1 =>
          bind (if flt lim x1 then
                  text_color_set DW_COLOR_ERROR ;;; dw_printf hi ;;; ret lim
                else ret x1) k) log
  = k (clamp lim x) (log ++ clamp_events lo hi lim x).
Proof.
  unfold clamp, clamp_events, bind, text_color_set, dw_printf, ret, warn.
  destruct (flt x (fneg lim)).
  - destruct (flt lim (fneg lim)).
    + rewrite <- !app_assoc. reflexivity.
    + rewrite app_nil_r, <- !app_assoc. reflexivity.
  - destruct (flt lim x).
    + rewrite <- !app_assoc. reflexivity.
    + rewrite !app_nil_r. reflexivity.
Qed.

Lemma carry_bind {B} (c0 : ascii) (rest : string) (ideg : Z)
      (k : string * Z -> M B) (log : list event) :
  bind (char_at (String c0 rest) 0)
       (fun c =>
          bind (if Ascii.eqb c "6" then
                  smin <- char_set (String c0 rest) 0 "0" ;; ret (smin, ideg + 1)
                else ret (String c0 rest, ideg)) k) log
  = k (carry (String c0 rest) ideg) log.
Proof.
  unfold bind, char_at, char_set, ret, carry. cbn.
  destruct (Ascii.eqb c0 "6"); reflexivity.
Qed.

(** The degrees and the minutes field that the four text encoders share
    (lines 70-92), for a limit [N] of 90 or 180 degrees. *)
Lemma degree_minute_field (N : Z) (mc : positive) (ec : Z) (w p : nat) (x : float) :
  0 <= N < 2 ^ 31 - 1 -> 2 ^ 52 <= Zpos mc -> -1074 <= ec ->
  Zv (Zpos mc) ec = Zv N 0 ->
  (1 <= p)%nat -> (p + 2 <= w)%nat -> 60 * 10 ^ Z.of_nat p < 10 ^ Z.of_nat (w - 1) ->
  is_double x -> is_nan x = false ->
  let a := magnitude (clamp (S754_finite false mc ec) x) in
  exists ideg,
    double_to_int a = Some ideg /\ 0 <= ideg <= N /\
    ((neg_zero x = true /\ minutes a ideg = S754_zero true) \/
     printed_as w p (60 * 10 ^ Z.of_nat p) (minutes a ideg)
                (sprintf_0f w p (minutes a ideg))).
Proof.
  intros HN Hmc Hec Hc Hp Hw Hfit Hd Hnan a.
  pose proof (clamp_abs_le mc ec x Hmc Hec Hd Hnan) as H1.
  apply magnitude_pos_le in H1. fold a in H1. rewrite Hc in H1.
  destruct (degrees_fraction N a HN H1) as (ideg & Hi & Hr & Hf & Hz1).
  destruct (minutes_pos_le a ideg Hf) as [Hm Hz2].
  exists ideg. split; [exact Hi | ]. split; [exact Hr | ].
  destruct (sprintf_0f_shape w p 60 (minutes a ideg) Hp Hw ltac:(lia) Hfit Hm) as [Hz | Hq].
  - left. split; [ | exact Hz].
    rewrite Hz in Hz2. cbn [neg_zero] in Hz2.
    rewrite <- Hz2 in Hz1. unfold a in Hz1.
    rewrite neg_zero_magnitude, neg_zero_clamp in Hz1. congruence.
  - right. exact Hq.
Qed.

Lemma string_set_length (s : string) (i : nat) (c : ascii) :
  length (string_set s i c) = length s.
Proof.
  revert i; induction s as [ | a s IH]; intros i; [reflexivity | ].
  destruct i; cbn; [reflexivity | rewrite IH; reflexivity].
Qed.

Lemma char_set_some (s : string) (i : nat) (c : ascii) (log : list event) :
  (i < length s)%nat -> char_set s i c log = Some (string_set s i c, log).
Proof.
  intros H. unfold char_set.
  replace (Nat.ltb i (length s)) with true by (symmetry; apply Nat.ltb_lt; exact H).
  reflexivity.
Qed.

Lemma blank_lat_run (ambiguity : Z) (slat : string) (log : list event) :
  length slat = 8%nat ->
  (if 1 <=? ambiguity then
     slat <- char_set slat 6 " " ;;
     if 2 <=? ambiguity then
       slat <- char_set slat 5 " " ;;
       if 3 <=? ambiguity then
         slat <- char_set slat 3 " " ;;
         if 4 <=? ambiguity then
           char_set slat 2 " "
         else ret slat
       else ret slat
     else ret slat
   else ret slat) log = Some (blank_lat ambiguity slat, log).
Proof.
  intros Hl. unfold blank_lat.
  destruct (1 <=? ambiguity); [ | reflexivity].
  unfold bind at 1. rewrite char_set_some by lia.
  destruct (2 <=? ambiguity); [ | reflexivity].
  unfold bind at 1. rewrite char_set_some by (rewrite string_set_length; lia).
  destruct (3 <=? ambiguity); [ | reflexivity].
  unfold bind at 1. rewrite char_set_some by (rewrite !string_set_length; lia).
  destruct (4 <=? ambiguity); [ | reflexivity].
  rewrite char_set_some by (rewrite !string_set_length; lia).
  reflexivity.
Qed.

Lemma blank_long_run (ambiguity : Z) (slong : string) (log : list event) :
  length slong = 9%nat ->
  (if 1 <=? ambiguity then
     slong <- char_set slong 7 " " ;;
     if 2 <=? ambiguity then
       slong <- char_set slong 6 " " ;;
       if 3 <=? ambiguity then
         slong <- char_set slong 4 " " ;;
         if 4 <=? ambiguity then
           char_set slong 3 " "
         else ret slong
       else ret slong
     else ret slong
   else ret slong) log = Some (blank_long ambiguity slong, log).
Proof.
  intros Hl. unfold blank_long.
  destruct (1 <=? ambiguity); [ | reflexivity].
  unfold bind at 1. rewrite char_set_some by lia.
  destruct (2 <=? ambiguity); [ | reflexivity].
  unfold bind at 1. rewrite char_set_some by (rewrite string_set_length; lia).
  destruct (3 <=? ambiguity); [ | reflexivity].
  unfold bind at 1. rewrite char_set_some by (rewrite !string_set_length; lia).
  destruct (4 <=? ambiguity); [ | reflexivity].
  rewrite char_set_some by (rewrite !string_set_length; lia).
  reflexivity.
Qed.

Lemma render_length (w p : nat) (q : Z) : (p + 2 <= w)%nat -> length (render w p q) = w.
Proof.
  intros H. unfold render. rewrite !append_length, !fixed_width_length. cbn [length]. lia.
Qed.

Lemma render_cons (w p : nat) (q : Z) :
  (p + 2 <= w)%nat -> exists c rest, render w p q = String c rest.
Proof.
  intros H. pose proof (render_length w p q H) as Hl.
  destruct (render w p q) as [ | c rest]; [cbn in Hl; lia | eauto].
Qed.

Lemma carry_length (smin : string) (ideg : Z) :
  length (fst (carry smin ideg)) = length smin.
Proof.
  destruct smin as [ | c rest]; [reflexivity | ].
  cbn [carry]. destruct (Ascii.eqb c "6"); reflexivity.
Qed.

Lemma carry_deg (smin : string) (ideg : Z) :
  ideg <= snd (carry smin ideg) <= ideg + 1.
Proof.
  destruct smin as [ | c rest]; cbn [carry snd]; [lia | ].
  destruct (Ascii.eqb c "6"); cbn [snd]; lia.
Qed.

Lemma d90_normal : 2 ^ 52 <= Zpos (Z.to_pos (90 * 2 ^ 46)).
Proof. cbv; discriminate. Qed.

Lemma d180_normal : 2 ^ 52 <= Zpos (Z.to_pos (180 * 2 ^ 45)).
Proof. cbv; discriminate. Qed.

(** [latitude_to_str] on a double that is not a NaN. *)
Lemma latitude_to_str_run (dlat : float) :
  is_double dlat -> is_nan dlat = false ->
  let a := magnitude (clamp d90 dlat) in
  exists ideg,
    double_to_int a = Some ideg /\ 0 <= ideg <= 90 /\
    let smin := sprintf_0f 5 2 (minutes a ideg) in
    ((neg_zero dlat = true /\ smin = "-0.00"%string) \/
     printed_as 5 2 6000 (minutes a ideg) smin) /\
    forall ambiguity log,
      latitude_to_str dlat ambiguity log
      = Some (blank_lat ambiguity
                (sprintf_0d 2 (snd (carry smin ideg)) ++ fst (carry smin ideg)
                 ++ String (hemisphere "S" "N" (clamp d90 dlat)) ""),
              log ++ clamp_events "Latitude is less than -90.  Changing to -90.n"
                                  "Latitude is greater than 90.  Changing to 90.n"
                                  d90 dlat).
Proof.
  intros Hd Hn a.
  destruct (degree_minute_field 90 (Z.to_pos (90 * 2 ^ 46)) (-46) 5 2 dlat
              ltac:(lia) d90_normal ltac:(lia)
              (Zv_to_pos_const 90 46 ltac:(lia) ltac:(lia))
              ltac:(lia) ltac:(lia) ltac:(reflexivity) Hd Hn)
    as (ideg & Hi & Hr & Hs).
  rewrite <- d90_Zv in Hi, Hs. fold a in Hi, Hs.
  exists ideg. split; [exact Hi | ]. split; [exact Hr | ].
  intros smin.
  assert (Hshape : (neg_zero dlat = true /\ smin = "-0.00"%string) \/
                   printed_as 5 2 6000 (minutes a ideg) smin).
  { destruct Hs as [[Hz Hm] | Hq].
    - left. split; [exact Hz | ]. unfold smin. rewrite Hm. reflexivity.
    - right. exact Hq. }
  split; [exact Hshape | ].
  intros ambiguity log.
  assert (Hcons : exists c rest, smin = String c rest /\ length smin = 5%nat).
  { destruct Hshape as [[_ ->] | [_ ->]].
    - eexists _, _. split; reflexivity.
    - destruct (render_cons 5 2 (printed_scaled 2 (minutes a ideg)) ltac:(lia))
        as (c & rest & E).
      exists c, rest. split; [exact E | apply render_length; lia]. }
  destruct Hcons as (c & rest & Hc & Hlen).
  unfold latitude_to_str. rewrite clamp_bind.
  fold (magnitude (clamp d90 dlat)). 
  assert (Hpair : (if flt (clamp d90 dlat) d0
                   then (fneg (clamp d90 dlat), "S"%char)
                   else (clamp d90 dlat, "N"%char))
                  = (a, hemisphere "S" "N" (clamp d90 dlat))).
  { unfold a, magnitude, hemisphere. destruct (flt (clamp d90 dlat) d0); reflexivity. }
  rewrite Hpair.
  unfold bind at 1. unfold lift. rewrite Hi.
  change (sprintf_0f 5 2 (fmul (fsub a (int_to_double ideg)) d60)) with smin.
  rewrite Hc. rewrite carry_bind. rewrite <- Hc.
  pose proof (carry_length smin ideg) as Hcl.
  pose proof (carry_deg smin ideg) as Hcd.
  destruct (carry smin ideg) as [smin' ideg']. cbn [fst snd] in *.
  apply blank_lat_run.
  rewrite sprintf_0d_fixed_width by (cbn; lia).
  rewrite !append_length, fixed_width_length, Hcl, Hlen. reflexivity.
Qed.

(** [longitude_to_str] on a double that is not a NaN. *)
Lemma longitude_to_str_run (dlong : float) :
  is_double dlong -> is_nan dlong = false ->
  let a := magnitude (clamp d180 dlong) in
  exists ideg,
    double_to_int a = Some ideg /\ 0 <= ideg <= 180 /\
    let smin := sprintf_0f 5 2 (minutes a ideg) in
    ((neg_zero dlong = true /\ smin = "-0.00"%string) \/
     printed_as 5 2 6000 (minutes a ideg) smin) /\
    forall ambiguity log,
      longitude_to_str dlong ambiguity log
      = Some (blank_long ambiguity
                (sprintf_0d 3 (snd (carry smin ideg)) ++ fst (carry smin ideg)
                 ++ String (hemisphere "W" "E" (clamp d180 dlong)) ""),
              log ++ clamp_events "Longitude is less than -180.  Changing to -180.n"
                                  "Longitude is greater than 180.  Changing to 180.n"
                                  d180 dlong).
Proof.
  intros Hd Hn a.
  destruct (degree_minute_field 180 (Z.to_pos (180 * 2 ^ 45)) (-45) 5 2 dlong
              ltac:(lia) d180_normal ltac:(lia)
              (Zv_to_pos_const 180 45 ltac:(lia) ltac:(lia))
              ltac:(lia) ltac:(lia) ltac:(reflexivity) Hd Hn)
    as (ideg & Hi & Hr & Hs).
  rewrite <- d180_Zv in Hi, Hs. fold a in Hi, Hs.
  exists ideg. split; [exact Hi | ]. split; [exact Hr | ].
  intros smin.
  assert (Hshape : (neg_zero dlong = true /\ smin = "-0.00"%string) \/
                   printed_as 5 2 6000 (minutes a ideg) smin).
  { destruct Hs as [[Hz Hm] | Hq].
    - left. split; [exact Hz | ]. unfold smin. rewrite Hm. reflexivity.
    - right. exact Hq. }
  split; [exact Hshape | ].
  intros ambiguity log.
  assert (Hcons : exists c rest, smin = String c rest /\ length smin = 5%nat).
  { destruct Hshape as [[_ ->] | [_ ->]].
    - eexists _, _. split; reflexivity.
    - destruct (render_cons 5 2 (printed_scaled 2 (minutes a ideg)) ltac:(lia))
        as (c & rest & E).
      exists c, rest. split; [exact E | apply render_length; lia]. }
  destruct Hcons as (c & rest & Hc & Hlen).
  unfold longitude_to_str. rewrite clamp_bind.
  assert (Hpair : (if flt (clamp d180 dlong) d0
                   then (fneg (clamp d180 dlong), "W"%char)
                   else (clamp d180 dlong, "E"%char))
                  = (a, hemisphere "W" "E" (clamp d180 dlong))).
  { unfold a, magnitude, hemisphere. destruct (flt (clamp d180 dlong) d0); reflexivity. }
  rewrite Hpair.
  unfold bind at 1. unfold lift. rewrite Hi.
  change (sprintf_0f 5 2 (fmul (fsub a (int_to_double ideg)) d60)) with smin.
  rewrite Hc. rewrite carry_bind. rewrite <- Hc.
  pose proof (carry_length smin ideg) as Hcl.
  pose proof (carry_deg smin ideg) as Hcd.
  destruct (carry smin ideg) as [smin' ideg']. cbn [fst snd] in *.
  apply blank_long_run.
  rewrite sprintf_0d_fixed_width by (cbn; lia).
  rewrite !append_length, fixed_width_length, Hcl, Hlen. reflexivity.
Qed.

Section NMEA_encoders.

Variable G_UNKNOWN : float.

(** [latitude_to_nmea] on a double that is neither a NaN nor the sentinel. *)
Lemma latitude_to_nmea_run (dlat : float) :
  is_double dlat -> is_nan dlat = false -> feq dlat G_UNKNOWN = false ->
  let a := magnitude (clamp d90 dlat) in
  exists ideg,
    double_to_int a = Some ideg /\ 0 <= ideg <= 90 /\
    let smin := sprintf_0f 7 4 (minutes a ideg) in
    ((neg_zero dlat = true /\ smin = "-0.0000"%string) \/
     printed_as 7 4 600000 (minutes a ideg) smin) /\
    forall log,
      latitude_to_nmea G_UNKNOWN dlat log
      = Some ((sprintf_0d 2 (snd (carry smin ideg)) ++ fst (carry smin ideg),
               String (hemisphere "S" "N" (clamp d90 dlat)) "")%string,
              log ++ clamp_events "Latitude is less than -90.  Changing to -90.n"
                                  "Latitude is greater than 90.  Changing to 90.n"
                                  d90 dlat).
Proof.
  intros Hd Hn Hg a.
  destruct (degree_minute_field 90 (Z.to_pos (90 * 2 ^ 46)) (-46) 7 4 dlat
              ltac:(lia) d90_normal ltac:(lia)
              (Zv_to_pos_const 90 46 ltac:(lia) ltac:(lia))
              ltac:(lia) ltac:(lia) ltac:(reflexivity) Hd Hn)
    as (ideg & Hi & Hr & Hs).
  rewrite <- d90_Zv in Hi, Hs. fold a in Hi, Hs.
  exists ideg. split; [exact Hi | ]. split; [exact Hr | ].
  intros smin.
  assert (Hshape : (neg_zero dlat = true /\ smin = "-0.0000"%string) \/
                   printed_as 7 4 600000 (minutes a ideg) smin).
  { destruct Hs as [[Hz Hm] | Hq].
    - left. split; [exact Hz | ]. unfold smin. rewrite Hm. reflexivity.
    - right. exact Hq. }
  split; [exact Hshape | ].
  intros log.
  assert (Hcons : exists c rest, smin = String c rest).
  { destruct Hshape as [[_ ->] | [_ ->]].
    - eexists _, _. reflexivity.
    - apply render_cons; lia. }
  destruct Hcons as (c & rest & Hc).
  unfold latitude_to_nmea. rewrite Hg. rewrite clamp_bind.
  assert (Hpair : (if flt (clamp d90 dlat) d0
                   then (fneg (clamp d90 dlat), "S"%string)
                   else (clamp d90 dlat, "N"%string))
                  = (a, String (hemisphere "S" "N" (clamp d90 dlat)) "")).
  { unfold a, magnitude, hemisphere. destruct (flt (clamp d90 dlat) d0); reflexivity. }
  rewrite Hpair.
  unfold bind at 1. unfold lift. rewrite Hi.
  change (sprintf_0f 7 4 (fmul (fsub a (int_to_double ideg)) d60)) with smin.
  rewrite Hc. rewrite carry_bind. rewrite <- Hc.
  destruct (carry smin ideg) as [smin' ideg']. reflexivity.
Qed.

(** [longitude_to_nmea] on a double that is neither a NaN nor the sentinel. *)
Lemma longitude_to_nmea_run (dlong : float) :
  is_double dlong -> is_nan dlong = false -> feq dlong G_UNKNOWN = false ->
  let a := magnitude (clamp d180 dlong) in
  exists ideg,
    double_to_int a = Some ideg /\ 0 <= ideg <= 180 /\
    let smin := sprintf_0f 7 4 (minutes a ideg) in
    ((neg_zero dlong = true /\ smin = "-0.0000"%string) \/
     printed_as 7 4 600000 (minutes a ideg) smin) /\
    forall log,
      longitude_to_nmea G_UNKNOWN dlong log
      = Some ((sprintf_0d 3 (snd (carry smin ideg)) ++ fst (carry smin ideg),
               String (hemisphere "W" "E" (clamp d180 dlong)) "")%string,
              log ++ clamp_events "longitude is less than -180.  Changing to -180.n"
                                  "longitude is greater than 180.  Changing to 180.n"
                                  d180 dlong).
Proof.
  intros Hd Hn Hg a.
  destruct (degree_minute_field 180 (Z.to_pos (180 * 2 ^ 45)) (-45) 7 4 dlong
              ltac:(lia) d180_normal ltac:(lia)
              (Zv_to_pos_const 180 45 ltac:(lia) ltac:(lia))
              ltac:(lia) ltac:(lia) ltac:(reflexivity) Hd Hn)
    as (ideg & Hi & Hr & Hs).
  rewrite <- d180_Zv in Hi, Hs. fold a in Hi, Hs.
  exists ideg. split; [exact Hi | ]. split; [exact Hr | ].
  intros smin.
  assert (Hshape : (neg_zero dlong = true /\ smin = "-0.0000"%string) \/
                   printed_as 7 4 600000 (minutes a ideg) smin).
  { destruct Hs as [[Hz Hm] | Hq].
    - left. split; [exact Hz | ]. unfold smin. rewrite Hm. reflexivity.
    - right. exact Hq. }
  split; [exact Hshape | ].
  intros log.
  assert (Hcons : exists c rest, smin = String c rest).
  { destruct Hshape as [[_ ->] | [_ ->]].
    - eexists _, _. reflexivity.
    - apply render_cons; lia. }
  destruct Hcons as (c & rest & Hc).
  unfold longitude_to_nmea. rewrite Hg. rewrite clamp_bind.
  assert (Hpair : (if flt (clamp d180 dlong) d0
                   then (fneg (clamp d180 dlong), "W"%string)
                   else (clamp d180 dlong, "E"%string))
                  = (a, String (hemisphere "W" "E" (clamp d180 dlong)) "")).
  { unfold a, magnitude, hemisphere. destruct (flt (clamp d180 dlong) d0); reflexivity. }
  rewrite Hpair.
  unfold bind at 1. unfold lift. rewrite Hi.
  change (sprintf_0f 7 4 (fmul (fsub a (int_to_double ideg)) d60)) with smin.
  rewrite Hc. rewrite carry_bind. rewrite <- Hc.
  destruct (carry smin ideg) as [smin' ideg']. reflexivity.
Qed.

End NMEA_encoders.

(** ** The compressed encoders *)

Lemma Zv_int (N : Z) : Zv N 0 = N * Zv 1 0.
Proof. unfold Zv; ring. Qed.

(** [(int)round(u)] for a non-negative [u] of at most [H]. *)
Lemma round_to_int (H : Z) (u : float) :
  0 <= H < 2 ^ 31 - 1 -> pos_le (Zv H 0) u ->
  exists n, double_to_int (c_round u) = Some n /\ 0 <= n <= H.
Proof.
  intros HH Hu.
  assert (Hint : forall n, 0 <= n <= H ->
                   (if (INT_MIN <=? n) && (n <=? INT_MAX) then Some n else None) = Some n).
  { intros n Hn.
    replace (INT_MIN <=? n) with true by (symmetry; apply Z.leb_le; unfold INT_MIN; lia).
    replace (n <=? INT_MAX) with true by (symmetry; apply Z.leb_le; unfold INT_MAX; lia).
    reflexivity. }
  destruct u as [s | s | | s m e]; cbn [pos_le] in Hu; try contradiction.
  - exists 0. split; [reflexivity | lia].
  - destruct s; [contradiction | ]. destruct Hu as [He Hv].
    cbn [c_round]. destruct (Z.leb_spec 0 e) as [Hpos | Hneg].
    + destruct (ftrunc_bounds m e He) as (Hn0 & Hn1 & _).
      set (n := Z.shiftl (Zpos m) e) in *.
      assert (n <= H) by (apply (Zv_le_cancel n H 0); lia).
      exists n. split; [ | lia].
      unfold double_to_int. cbn [ftrunc cond_Zopp]. fold n. apply Hint. lia.
    + set (d := 2 ^ (- e)). assert (Hd : 0 < d) by (apply pow2_pos; lia).
      replace (Zv H 0) with (Zv (H * d) e) in Hv
        by (unfold d; rewrite <- Zv_shift by lia; f_equal; lia).
      apply Zv_le_cancel in Hv; [ | lia].
      assert (Hdm : Zpos m = d * (Zpos m / d) + Zpos m mod d) by (apply Z.div_mod; lia).
      assert (Hmb : 0 <= Zpos m mod d < d) by (apply Z.mod_pos_bound; lia).
      assert (Hq : 0 <= Zpos m / d) by (apply Z.div_pos; lia).
      assert (Hq' : Zpos m / d <= H) by nia.
      set (n := if d <=? 2 * (Zpos m mod d) then Zpos m / d + 1 else Zpos m / d).
      assert (Hn : 0 <= n <= H).
      { unfold n. destruct (Z.leb_spec d (2 * (Zpos m mod d))); [ | lia].
        split; [lia | ]. destruct (Z.eq_dec (Zpos m / d) H); [nia | lia]. }
      exists n. split; [ | exact Hn].
      destruct (Z.eqb_spec n 0) as [Hz | Hnz].
      * rewrite Hz. reflexivity.
      * cbn [cond_Zopp].
        destruct (int_to_double_exact n) as (mi & ei & Hi & Hei & Hvi).
        { split; [lia | ]. assert (2 ^ 31 < 2 ^ 53) by (apply pow2_lt; lia). lia. }
        unfold int_to_double in Hi. rewrite Hi.
        destruct (ftrunc_bounds mi ei Hei) as (Hn0 & Hn1 & Hn2).
        set (n' := Z.shiftl (Zpos mi) ei) in *.
        rewrite Hvi in Hn1, Hn2.
        apply Zv_le_cancel in Hn1; [ | lia]. apply Zv_lt_cancel in Hn2; [ | lia].
        unfold double_to_int. cbn [ftrunc cond_Zopp]. fold n'.
        replace n' with n by lia. apply Hint. exact Hn.
Qed.

Lemma d380926_normal : 2 ^ 52 <= Zpos (Z.to_pos (380926 * 2 ^ 34)).
Proof. cbv; discriminate. Qed.

Lemma d190463_normal : 2 ^ 52 <= Zpos (Z.to_pos (190463 * 2 ^ 35)).
Proof. cbv; discriminate. Qed.

(** A product by a positive integer constant. *)
Lemma fmul_const_pos_le (C k H : Z) (t : float) :
  0 < C -> 0 <= k <= 1074 -> 0 <= H -> C * H < 2 ^ 53 ->
  pos_le (Zv H 0) t ->
  pos_le (Zv (C * H) 0) (fmul (S754_finite false (Z.to_pos (C * 2 ^ k)) (- k)) t).
Proof.
  intros HC Hk HH Hfit Ht.
  destruct t as [s | s | | s m e]; cbn [pos_le] in Ht; try contradiction.
  - exact I.
  - destruct s; [contradiction | ]. destruct Ht as [He Hv].
    apply (mag_in_pos_le (Zv 0 0)).
    change false with (xorb false false) at 1.
    assert (Hc : Zv (Zpos (Z.to_pos (C * 2 ^ k))) (- k) = Zv C 0)
      by (apply Zv_to_pos_const; lia).
    assert (HCH : 0 <= C * H) by (apply Z.mul_nonneg_nonneg; lia).
    apply fmul_finite_bounds.
    + lia.
    + exact He.
    + unfold repr; lia.
    + unfold repr; split; [split; assumption | lia].
    + apply Zv_repr_small. split; assumption.
    + rewrite Hc. rewrite (Zv_int C), (Zv_int (C * H)). rewrite (Zv_int H) in Hv.
      pose proof (Zv_pos (Zpos m) e ltac:(lia) ltac:(lia)) as HV.
      pose proof (Zv_pos 1 0 ltac:(lia) ltac:(lia)) as HK.
      replace (Zv 0 0) with 0 by (unfold Zv; rewrite Z.mul_0_l; reflexivity).
      generalize dependent (Zv (Zpos m) e). generalize dependent (Zv 1 0).
      intros K HK V Hv HV.
      split.
      * rewrite Z.mul_0_l. apply Z.mul_nonneg_nonneg; [ | lia].
        apply Z.mul_nonneg_nonneg; lia.
      * replace (C * H * K * K) with (C * K * (H * K)) by ring.
        apply Z.mul_le_mono_nonneg_l; [ | exact Hv].
        apply Z.mul_nonneg_nonneg; lia.
Qed.

(** Line 218 on a clamped latitude. *)
Lemma lat_scaled_bounds (x : float) :
  abs_le (Zv 90 0) x ->
  exists n, lat_scaled x = Some n /\ 0 <= n <= 68566680.
Proof.
  intros Hx. unfold lat_scaled.
  assert (Ht : pos_le (Zv 180 0) (fsub d90 x)).
  { rewrite d90_Zv.
    assert (Hc : Zv (Zpos (Z.to_pos (90 * 2 ^ 46))) (-46) = Zv 90 0)
      by (apply Zv_to_pos_const; lia).
    destruct x as [s | s | | s m e]; cbn [abs_le] in Hx; try contradiction.
    - cbn [fsub SFsub pos_le]. split; [lia | ]. rewrite Hc, (Zv_int 90), (Zv_int 180).
      pose proof (Zv_pos 1 0 ltac:(lia) ltac:(lia)). lia.
    - destruct Hx as [He Hv]. apply (mag_in_pos_le (Zv 0 0)).
      apply fsub_finite_bounds; try lia; try (unfold repr; lia).
      + apply Zv_repr_small; lia.
      + cbn [cond_Zopp]. rewrite Hc.
        pose proof (Zv_pos (Zpos m) e ltac:(lia) ltac:(lia)).
        rewrite (Zv_int 180). rewrite (Zv_int 90) in *. unfold Zv at 1.
        destruct s; cbn [cond_Zopp]; lia. }
  rewrite d380926_Zv.
  pose proof (fmul_const_pos_le 380926 34 180 (fsub d90 x) ltac:(lia) ltac:(lia) ltac:(lia)
                ltac:(lia) Ht) as Hu.
  change (380926 * 180) with 68566680 in Hu.
  change (- (34)) with (-34) in Hu.
  apply round_to_int; [lia | exact Hu].
Qed.

(** Line 264 on a clamped longitude. *)
Lemma long_scaled_bounds (x : float) :
  abs_le (Zv 180 0) x ->
  exists n, long_scaled x = Some n /\ 0 <= n <= 68566680.
Proof.
  intros Hx. unfold long_scaled.
  assert (Ht : pos_le (Zv 360 0) (fadd d180 x)).
  { rewrite d180_Zv.
    assert (Hc : Zv (Zpos (Z.to_pos (180 * 2 ^ 45))) (-45) = Zv 180 0)
      by (apply Zv_to_pos_const; lia).
    destruct x as [s | s | | s m e]; cbn [abs_le] in Hx; try contradiction.
    - cbn [fadd SFadd pos_le]. split; [lia | ]. rewrite Hc, (Zv_int 180), (Zv_int 360).
      pose proof (Zv_pos 1 0 ltac:(lia) ltac:(lia)). lia.
    - destruct Hx as [He Hv]. apply (mag_in_pos_le (Zv 0 0)).
      apply fadd_finite_bounds; try lia; try (unfold repr; lia).
      + apply Zv_repr_small; lia.
      + cbn [cond_Zopp]. rewrite Hc.
        pose proof (Zv_pos (Zpos m) e ltac:(lia) ltac:(lia)).
        rewrite (Zv_int 360). rewrite (Zv_int 180) in *. unfold Zv at 1.
        destruct s; cbn [cond_Zopp]; lia. }
  rewrite d190463_Zv.
  pose proof (fmul_const_pos_le 190463 35 360 (fadd d180 x) ltac:(lia) ltac:(lia) ltac:(lia)
                ltac:(lia) Ht) as Hu.
  change (190463 * 360) with 68566680 in Hu.
  change (- (35)) with (-35) in Hu.
  apply round_to_int; [lia | exact Hu].
Qed.

Lemma Zchar_char_of_int (n : Z) : 0 <= n < 256 -> Zchar (char_of_int n) = n.
Proof.
  intros H. unfold Zchar, char_of_int.
  rewrite Z.mod_small by lia.
  rewrite nat_ascii_embedding by lia. lia.
Qed.

Lemma base91_digits (y : Z) :
  0 <= y < 91 ^ 4 ->
  exists b0 b1 b2 b3,
    base91 y = [b0; b1; b2; b3] /\
    (0 <= Zchar b0 - 33 <= 90 /\ 0 <= Zchar b1 - 33 <= 90 /\
     0 <= Zchar b2 - 33 <= 90 /\ 0 <= Zchar b3 - 33 <= 90) /\
    (Zchar b0 - 33) * 91 ^ 3 + (Zchar b1 - 33) * 91 ^ 2
    + (Zchar b2 - 33) * 91 + (Zchar b3 - 33) = y.
Proof.
  intros Hy. unfold base91.
  change (91 * 91 * 91) with 753571. change (91 * 91) with 8281.
  change (91 ^ 4) with 68574961 in Hy. change (91 ^ 3) with 753571.
  change (91 ^ 2) with 8281.
  set (y0 := Z.quot y 753571).
  set (r0 := y - y0 * 753571).
  set (y1 := Z.quot r0 8281).
  set (r1 := r0 - y1 * 8281).
  set (y2 := Z.quot r1 91).
  set (r2 := r1 - y2 * 91).
  assert (H0 : 0 <= y0 <= 90 /\ 0 <= r0 < 753571).
  { unfold r0, y0. rewrite Z.quot_div_nonneg by lia.
    pose proof (Z.div_mod y 753571 ltac:(lia)).
    pose proof (Z.mod_pos_bound y 753571 ltac:(lia)). lia. }
  assert (H1 : 0 <= y1 <= 90 /\ 0 <= r1 < 8281).
  { unfold r1, y1. rewrite Z.quot_div_nonneg by lia.
    pose proof (Z.div_mod r0 8281 ltac:(lia)).
    pose proof (Z.mod_pos_bound r0 8281 ltac:(lia)). lia. }
  assert (H2 : 0 <= y2 <= 90 /\ 0 <= r2 < 91).
  { unfold r2, y2. rewrite Z.quot_div_nonneg by lia.
    pose proof (Z.div_mod r1 91 ltac:(lia)).
    pose proof (Z.mod_pos_bound r1 91 ltac:(lia)). lia. }
  eexists _, _, _, _. split; [reflexivity | ].
  rewrite !Zchar_char_of_int by lia.
  split; [lia | ]. unfold r2, r1, r0 in *. lia.
Qed.

Lemma d90_abs_le : forall x, is_double x -> is_nan x = false -> abs_le (Zv 90 0) (clamp d90 x).
Proof.
  intros x Hd Hn. rewrite d90_Zv.
  rewrite <- (Zv_to_pos_const 90 46) by lia.
  apply clamp_abs_le; try assumption; [apply d90_normal | lia].
Qed.

Lemma d180_abs_le : forall x, is_double x -> is_nan x = false -> abs_le (Zv 180 0) (clamp d180 x).
Proof.
  intros x Hd Hn. rewrite d180_Zv.
  rewrite <- (Zv_to_pos_const 180 45) by lia.
  apply clamp_abs_le; try assumption; [apply d180_normal | lia].
Qed.

(** [latitude_to_comp_str] on a double that is not a NaN. *)
Lemma latitude_to_comp_str_run (dlat : float) :
  is_double dlat -> is_nan dlat = false ->
  exists y, lat_scaled (clamp d90 dlat) = Some y /\ 0 <= y <= 68566680 /\
    forall log,
      latitude_to_comp_str dlat log
      = Some (base91 y,
              log ++ clamp_events "Latitude is less than -90.  Changing to -90.n"
                                  "Latitude is greater than 90.  Changing to 90.n"
                                  d90 dlat).
Proof.
  intros Hd Hn.
  destruct (lat_scaled_bounds (clamp d90 dlat) (d90_abs_le dlat Hd Hn)) as (y & Hy & Hb).
  exists y. split; [exact Hy | ]. split; [exact Hb | ].
  intros log. unfold latitude_to_comp_str. rewrite clamp_bind.
  unfold bind, lift. rewrite Hy. reflexivity.
Qed.

(** [longitude_to_comp_str] on a double that is not a NaN. *)
Lemma longitude_to_comp_str_run (dlong : float) :
  is_double dlong -> is_nan dlong = false ->
  exists x, long_scaled (clamp d180 dlong) = Some x /\ 0 <= x <= 68566680 /\
    forall log,
      longitude_to_comp_str dlong log
      = Some (base91 x,
              log ++ clamp_events "Longitude is less than -180.  Changing to -180.n"
                                  "Longitude is greater than 180.  Changing to 180.n"
                                  d180 dlong).
Proof.
  intros Hd Hn.
  destruct (long_scaled_bounds (clamp d180 dlong) (d180_abs_le dlong Hd Hn)) as (y & Hy & Hb).
  exists y. split; [exact Hy | ]. split; [exact Hb | ].
  intros log. unfold longitude_to_comp_str. rewrite clamp_bind.
  unfold bind, lift. rewrite Hy. reflexivity.
Qed.

(** * The decoders *)

Lemma c_index_0 (s : string) : c_index s 0 = Some (first_char s).
Proof. destruct s; reflexivity. Qed.

Lemma c_index_get (s : string) (i : nat) (c : ascii) :
  String.get i s = Some c -> c_index s i = Some c.
Proof. intros H. unfold c_index. rewrite H. reflexivity. Qed.

Lemma get_first_char (s : string) (c : ascii) : String.get 0 s = Some c -> first_char s = c.
Proof. destruct s; cbn; congruence. Qed.

Section Decoders.

Variable G_UNKNOWN : float.

Variable atof : string -> float.

(** A field that fails a structural check. *)
Lemma latitude_from_nmea_reject (pstr phemi : string) (log : list event) :
  isdigit (first_char pstr) = false \/
  (exists c4, c_index pstr 4 = Some c4 /\ c4 <> "."%char) ->
  latitude_from_nmea G_UNKNOWN atof pstr phemi log = Some (G_UNKNOWN, log).
Proof.
  intros H. unfold latitude_from_nmea, bind at 1, char_at, lift.
  rewrite c_index_0.
  destruct (isdigit (first_char pstr)) eqn:Hd; cbn [negb]; [ | reflexivity].
  destruct H as [H | (c4 & H4 & Hne)]; [discriminate | ].
  unfold bind at 1. rewrite H4.
  destruct (Ascii.eqb_spec c4 ".") as [E | E]; [contradiction | reflexivity].
Qed.

Lemma longitude_from_nmea_reject (pstr phemi : string) (log : list event) :
  isdigit (first_char pstr) = false \/
  (exists c5, c_index pstr 5 = Some c5 /\ c5 <> "."%char) ->
  longitude_from_nmea G_UNKNOWN atof pstr phemi log = Some (G_UNKNOWN, log).
Proof.
  intros H. unfold longitude_from_nmea, bind at 1, char_at, lift.
  rewrite c_index_0.
  destruct (isdigit (first_char pstr)) eqn:Hd; cbn [negb]; [ | reflexivity].
  destruct H as [H | (c4 & H4 & Hne)]; [discriminate | ].
  unfold bind at 1. rewrite H4.
  destruct (Ascii.eqb_spec c4 ".") as [E | E]; [contradiction | reflexivity].
Qed.

Lemma get_lt_length (s : string) (i : nat) (c : ascii) :
  String.get i s = Some c -> (i < length s)%nat.
Proof.
  revert i; induction s as [ | a s IH]; intros i H; [destruct i; discriminate | ].
  destruct i; cbn in *; [lia | ]. apply IH in H. lia.
Qed.

Lemma get_some (s : string) (i : nat) :
  (i < length s)%nat -> exists c, String.get i s = Some c.
Proof.
  revert i; induction s as [ | a s IH]; intros i H; [cbn in H; lia | ].
  destruct i; cbn in *; [eauto | ]. apply IH. lia.
Qed.

(** A field that passes both structural checks. *)
Lemma latitude_from_nmea_accept (pstr phemi : string) (c0 : ascii) (log : list event) :
  String.get 0 pstr = Some c0 -> isdigit c0 = true ->
  String.get 4 pstr = Some "."%char ->
  exists c1, String.get 1 pstr = Some c1 /\
    let v := lat_value atof c0 c1 (string_drop 2 pstr) in
    let h := first_char phemi in
    latitude_from_nmea G_UNKNOWN atof pstr phemi log
    = Some (if Ascii.eqb h "S" then fneg v else v,
            log ++ lat_range_events v ++ lat_hemi_events h).
Proof.
  intros H0 Hd H4.
  destruct (get_some pstr 1) as [c1 H1].
  { apply get_lt_length in H4. lia. }
  exists c1. split; [exact H1 | ]. intros v h.
  unfold latitude_from_nmea, bind at 1, char_at, lift.
  rewrite (c_index_get _ _ _ H0), Hd. cbn [negb].
  unfold bind at 1. rewrite (c_index_get _ _ _ H4). cbn [Ascii.eqb Bool.eqb negb].
  unfold bind at 1. rewrite (c_index_get _ _ _ H1).
  fold v. unfold lat_range_events, lat_hemi_events, warn.
  unfold bind, text_color_set, dw_printf, ret. rewrite c_index_0. fold h.
  destruct (flt v d0 || flt d90 v);
    destruct (negb (Ascii.eqb h "N") && negb (Ascii.eqb h "S") && negb (Ascii.eqb h NUL));
    cbn [app]; rewrite <- ?app_assoc, ?app_nil_r; reflexivity.
Qed.

Lemma longitude_from_nmea_accept (pstr phemi : string) (c0 : ascii) (log : list event) :
  String.get 0 pstr = Some c0 -> isdigit c0 = true ->
  String.get 5 pstr = Some "."%char ->
  exists c1 c2, String.get 1 pstr = Some c1 /\ String.get 2 pstr = Some c2 /\
    let v := long_value atof c0 c1 c2 (string_drop 3 pstr) in
    let h := first_char phemi in
    longitude_from_nmea G_UNKNOWN atof pstr phemi log
    = Some (if Ascii.eqb h "W" then fneg v else v,
            log ++ long_range_events v ++ long_hemi_events h).
Proof.
  intros H0 Hd H5.
  destruct (get_some pstr 1) as [c1 H1].
  { apply get_lt_length in H5. lia. }
  destruct (get_some pstr 2) as [c2 H2].
  { apply get_lt_length in H5. lia. }
  exists c1, c2. split; [exact H1 | ]. split; [exact H2 | ]. intros v h.
  unfold longitude_from_nmea, bind at 1, char_at, lift.
  rewrite (c_index_get _ _ _ H0), Hd. cbn [negb].
  unfold bind at 1. rewrite (c_index_get _ _ _ H5). cbn [Ascii.eqb Bool.eqb negb].
  unfold bind at 1. rewrite (c_index_get _ _ _ H1).
  unfold bind at 1. rewrite (c_index_get _ _ _ H2).
  fold v. unfold long_range_events, long_hemi_events, warn.
  unfold bind, text_color_set, dw_printf, ret. rewrite c_index_0. fold h.
  destruct (flt v d0 || flt d180 v);
    destruct (negb (Ascii.eqb h "E") && negb (Ascii.eqb h "W") && negb (Ascii.eqb h NUL));
    cbn [app]; rewrite <- ?app_assoc, ?app_nil_r; reflexivity.
Qed.

End Decoders.

(** * The carry and the layout *)

Lemma digit_char_eqb_6 (d : Z) : 0 <= d <= 9 -> Ascii.eqb (digit_char d) "6" = (d =? 6).
Proof.
  intros H.
  assert (C : d = 0 \/ d = 1 \/ d = 2 \/ d = 3 \/ d = 4 \/ d = 5 \/ d = 6 \/ d = 7 \/
              d = 8 \/ d = 9) by lia.
  repeat (destruct C as [-> | C]; [reflexivity | ]). subst d. reflexivity.
Qed.

Lemma carry_fixed (ip : Z) (rest : string) (ideg : Z) :
  0 <= ip <= 60 ->
  carry (fixed_width 2 ip ++ rest) ideg
  = if ip =? 60 then (String "0" (String "0" rest), ideg + 1)
    else ((fixed_width 2 ip ++ rest)%string, ideg).
Proof.
  intros H. cbn [fixed_width append carry].
  rewrite digit_char_eqb_6
    by (pose proof (Z.mod_pos_bound (ip / 10) 10 ltac:(lia)); lia).
  assert (H1 : 0 <= ip / 10 <= 6).
  { split; [apply Z.div_pos; lia | apply Z.div_le_upper_bound; lia]. }
  rewrite (Z.mod_small (ip / 10) 10) by lia.
  destruct (Z.eqb_spec ip 60) as [-> | Hne].
  - reflexivity.
  - destruct (Z.eqb_spec (ip / 10) 6) as [E | E]; [ | reflexivity].
    exfalso. pose proof (Z.div_mod ip 10 ltac:(lia)).
    pose proof (Z.mod_pos_bound ip 10 ltac:(lia)). lia.
Qed.

Lemma carry_render_5_2 (q ideg : Z) :
  0 <= q <= 6000 ->
  carry (render 5 2 q) ideg
  = if q =? 6000 then ("00.00"%string, ideg + 1) else (render 5 2 q, ideg).
Proof.
  intros H. unfold render. change (10 ^ Z.of_nat 2) with 100.
  change (5 - 2 - 1)%nat with 2%nat.
  assert (H1 : 0 <= q / 100 <= 60).
  { split; [apply Z.div_pos; lia | apply Z.div_le_upper_bound; lia]. }
  rewrite carry_fixed by exact H1.
  pose proof (Z.div_mod q 100 ltac:(lia)).
  pose proof (Z.mod_pos_bound q 100 ltac:(lia)).
  destruct (Z.eqb_spec q 6000) as [-> | Hne].
  - reflexivity.
  - destruct (Z.eqb_spec (q / 100) 60) as [E | E]; [exfalso; lia | reflexivity].
Qed.

Lemma carry_render_7_4 (q ideg : Z) :
  0 <= q <= 600000 ->
  carry (render 7 4 q) ideg
  = if q =? 600000 then ("00.0000"%string, ideg + 1) else (render 7 4 q, ideg).
Proof.
  intros H. unfold render. change (10 ^ Z.of_nat 4) with 10000.
  change (7 - 4 - 1)%nat with 2%nat.
  assert (H1 : 0 <= q / 10000 <= 60).
  { split; [apply Z.div_pos; lia | apply Z.div_le_upper_bound; lia]. }
  rewrite carry_fixed by exact H1.
  pose proof (Z.div_mod q 10000 ltac:(lia)).
  pose proof (Z.mod_pos_bound q 10000 ltac:(lia)).
  destruct (Z.eqb_spec q 600000) as [-> | Hne].
  - reflexivity.
  - destruct (Z.eqb_spec (q / 10000) 60) as [E | E]; [exfalso; lia | reflexivity].
Qed.








Lemma sprintf_0d_length (w : nat) (n : Z) :
  (1 <= w)%nat -> 0 <= n < 10 ^ Z.of_nat w -> length (sprintf_0d w n) = w.
Proof. intros Hw Hn. rewrite sprintf_0d_fixed_width by assumption. apply fixed_width_length. Qed.








Lemma blank_lat_0 (s : string) : blank_lat 0 s = s.
Proof. reflexivity. Qed.

Lemma blank_long_0 (s : string) : blank_long 0 s = s.
Proof. reflexivity. Qed.


Lemma blank_lat_places (ambiguity : Z) (s : string) :
  blank_lat ambiguity s = blank_at (map lat_index (blanked_places ambiguity)) s.
Proof.
  unfold blank_lat, blanked_places, blank_at.
  destruct (1 <=? ambiguity); [ | reflexivity].
  destruct (2 <=? ambiguity); [ | reflexivity].
  destruct (3 <=? ambiguity); [ | reflexivity].
  destruct (4 <=? ambiguity); reflexivity.
Qed.

Lemma blank_long_places (ambiguity : Z) (s : string) :
  blank_long ambiguity s = blank_at (map long_index (blanked_places ambiguity)) s.
Proof.
  unfold blank_long, blanked_places, blank_at.
  destruct (1 <=? ambiguity); [ | reflexivity].
  destruct (2 <=? ambiguity); [ | reflexivity].
  destruct (3 <=? ambiguity); [ | reflexivity].
  destruct (4 <=? ambiguity); reflexivity.
Qed.

Lemma digits_mod_100 (q : Z) :
  0 <= q ->
  (q mod 100) mod 10 = q mod 10 /\ (q mod 100 / 10) mod 10 = (q / 10) mod 10.
Proof.
  intros Hq.
  pose proof (Z.div_mod q 100 ltac:(lia)) as E1.
  pose proof (Z.mod_pos_bound q 100 ltac:(lia)) as B1.
  set (a := q / 100) in *. set (r := q mod 100) in *.
  pose proof (Z.div_mod r 10 ltac:(lia)) as E2.
  pose proof (Z.mod_pos_bound r 10 ltac:(lia)) as B2.
  set (b := r / 10) in *. set (c := r mod 10) in *.
  assert (Hb : 0 <= b < 10) by lia.
  assert (Hq10 : q / 10 = 10 * a + b) by (symmetry; apply Z.div_unique with c; lia).
  split.
  - apply Z.mod_unique with (10 * a + b); [left; lia | lia].
  - rewrite Hq10. rewrite (Z.mod_small b 10) by lia.
    apply Z.mod_unique with a; [left; lia | lia].
Qed.

Lemma render_5_2_places (A : string) (q : Z) (s : string) (n : nat) :
  length A = n -> 0 <= q < 6000 ->
  forall p, String.get (n + place_offset p) (A ++ render 5 2 q ++ s)
            = Some (digit_char (place_digit p q)).
Proof.
  intros HA Hq p. subst n.
  assert (Hskip : forall k t, String.get (length A + k) (A ++ t) = String.get k t).
  { intros k t. induction A as [ | c A IH]; [reflexivity | exact IH]. }
  rewrite Hskip. unfold render. change (10 ^ Z.of_nat 2) with 100.
  change (5 - 2 - 1)%nat with 2%nat. cbn [fixed_width append].
  pose proof (Z.div_mod q 100 ltac:(lia)).
  pose proof (Z.mod_pos_bound q 100 ltac:(lia)).
  destruct (digits_mod_100 q ltac:(lia)) as [D1 D2].
  destruct p; cbn [place_offset String.get place_digit]; do 2 f_equal.
  - rewrite Z.div_div by lia. reflexivity.
  - exact D2.
  - exact D1.
Qed.

Lemma neg_zero_inv (x : float) : neg_zero x = true -> x = S754_zero true.
Proof. destruct x as [[ | ] | | | ]; cbn; congruence. Qed.

(** The layout that [latitude_to_str] writes. *)
Lemma latitude_to_str_layout (x : float) :
  is_double x -> is_nan x = false ->
  exists D F h log,
    0 <= D <= 91 /\ (h = "N"%char \/ h = "S"%char) /\
    ((neg_zero x = true /\ D = 0 /\ h = "N"%char /\ F = "-0.00"%string) \/
     (0 <= shown_minutes d90 x < 6000 /\ F = render 5 2 (shown_minutes d90 x))) /\
    forall ambiguity,
      run (latitude_to_str x ambiguity)
      = Some (blank_at (map lat_index (blanked_places ambiguity))
                       (fixed_width 2 D ++ F ++ String h ""), log).
Proof.
  intros Hd Hn.
  destruct (latitude_to_str_run x Hd Hn) as (ideg & Hi & Hr & Hs & Hrun).
  cbv zeta in Hs, Hrun.
  set (smin := sprintf_0f 5 2 (minutes (magnitude (clamp d90 x)) ideg)) in *.
  pose proof (carry_deg smin ideg) as Hcd.
  exists (snd (carry smin ideg)), (fst (carry smin ideg)),
         (hemisphere "S" "N" (clamp d90 x)). eexists.
  split; [lia | ]. split.
  { unfold hemisphere. destruct (flt (clamp d90 x) d0); auto. }
  split.
  - destruct Hs as [[Hz Hm] | [Hq Hm]].
    + left. split; [exact Hz | ]. rewrite Hm.
      apply neg_zero_inv in Hz. subst x.
      change (double_to_int (magnitude (clamp d90 (S754_zero true)))) with (Some 0) in Hi.
      injection Hi as <-. repeat split; reflexivity.
    + right. rewrite Hm, carry_render_5_2 by exact Hq.
      unfold shown_minutes. rewrite Hi. cbv zeta.
      destruct (Z.eqb_spec (printed_scaled 2 (minutes (magnitude (clamp d90 x)) ideg)) 6000)
        as [E | E]; cbn [fst]; split; (lia || reflexivity).
  - intros ambiguity. unfold run. rewrite Hrun, blank_lat_places.
    rewrite sprintf_0d_fixed_width by (cbn; lia). reflexivity.
Qed.

(** The layout that [longitude_to_str] writes. *)
Lemma longitude_to_str_layout (x : float) :
  is_double x -> is_nan x = false ->
  exists D F h log,
    0 <= D <= 181 /\ (h = "E"%char \/ h = "W"%char) /\
    ((neg_zero x = true /\ D = 0 /\ h = "E"%char /\ F = "-0.00"%string) \/
     (0 <= shown_minutes d180 x < 6000 /\ F = render 5 2 (shown_minutes d180 x))) /\
    forall ambiguity,
      run (longitude_to_str x ambiguity)
      = Some (blank_at (map long_index (blanked_places ambiguity))
                       (fixed_width 3 D ++ F ++ String h ""), log).
Proof.
  intros Hd Hn.
  destruct (longitude_to_str_run x Hd Hn) as (ideg & Hi & Hr & Hs & Hrun).
  cbv zeta in Hs, Hrun.
  set (smin := sprintf_0f 5 2 (minutes (magnitude (clamp d180 x)) ideg)) in *.
  pose proof (carry_deg smin ideg) as Hcd.
  exists (snd (carry smin ideg)), (fst (carry smin ideg)),
         (hemisphere "W" "E" (clamp d180 x)). eexists.
  split; [lia | ]. split.
  { unfold hemisphere. destruct (flt (clamp d180 x) d0); auto. }
  split.
  - destruct Hs as [[Hz Hm] | [Hq Hm]].
    + left. split; [exact Hz | ]. rewrite Hm.
      apply neg_zero_inv in Hz. subst x.
      change (double_to_int (magnitude (clamp d180 (S754_zero true)))) with (Some 0) in Hi.
      injection Hi as <-. repeat split; reflexivity.
    + right. rewrite Hm, carry_render_5_2 by exact Hq.
      unfold shown_minutes. rewrite Hi. cbv zeta.
      destruct (Z.eqb_spec (printed_scaled 2 (minutes (magnitude (clamp d180 x)) ideg)) 6000)
        as [E | E]; cbn [fst]; split; (lia || reflexivity).
  - intros ambiguity. unfold run. rewrite Hrun, blank_long_places.
    rewrite sprintf_0d_fixed_width by (cbn; lia). reflexivity.
Qed.

Lemma get_string_set (s : string) (j : nat) (c : ascii) (i : nat) :
  (i < length s)%nat ->
  String.get i (string_set s j c) = if Nat.eqb i j then Some c else String.get i s.
Proof.
  revert i j; induction s as [ | a s IH]; intros i j Hi; [cbn in Hi; lia | ].
  destruct j as [ | j], i as [ | i]; cbn [string_set String.get Nat.eqb]; try reflexivity.
  apply IH. cbn in Hi. lia.
Qed.

Lemma blank_at_length (positions : list nat) (s : string) :
  length (blank_at positions s) = length s.
Proof.
  revert s; induction positions as [ | p ps IH]; intros s; [reflexivity | ].
  unfold blank_at in *. cbn [fold_left]. rewrite IH. apply string_set_length.
Qed.

Lemma blank_at_blanked (positions : list nat) (s0 : string) :
  blanked positions s0 (blank_at positions s0).
Proof.
  split; [apply blank_at_length | ].
  revert s0; induction positions as [ | p ps IH]; intros s0 i Hi; [reflexivity | ].
  unfold blank_at in *. cbn [fold_left existsb].
  rewrite IH by (rewrite string_set_length; exact Hi).
  rewrite get_string_set by exact Hi.
  destruct (Nat.eqb i p), (existsb (Nat.eqb i) ps); reflexivity.
Qed.

Lemma blanked_places_incl (k : Z) : incl (blanked_places k) (blanked_places (k + 1)).
Proof.
  unfold blanked_places.
  destruct (Z.leb_spec 1 k), (Z.leb_spec 2 k), (Z.leb_spec 3 k), (Z.leb_spec 4 k),
    (Z.leb_spec 1 (k + 1)), (Z.leb_spec 2 (k + 1)), (Z.leb_spec 3 (k + 1)),
    (Z.leb_spec 4 (k + 1)); try lia;
    intros p Hp; cbn in *; tauto.
Qed.

Lemma lat_blanked_avoid (k : Z) : ~ In 4%nat (lat_blanked k) /\ ~ In 7%nat (lat_blanked k).
Proof.
  unfold lat_blanked, blanked_places.
  destruct (1 <=? k), (2 <=? k), (3 <=? k), (4 <=? k); cbn; split; intros H;
    repeat (destruct H as [H | H]; [discriminate H | ]); exact H.
Qed.

Lemma long_blanked_avoid (k : Z) : ~ In 5%nat (long_blanked k) /\ ~ In 8%nat (long_blanked k).
Proof.
  unfold long_blanked, blanked_places.
  destruct (1 <=? k), (2 <=? k), (3 <=? k), (4 <=? k); cbn; split; intros H;
    repeat (destruct H as [H | H]; [discriminate H | ]); exact H.
Qed.

Lemma layout_point_hemi (A F : string) (h : ascii) (n : nat) :
  length A = n ->
  F = "-0.00"%string \/ (exists q, F = render 5 2 q) ->
  String.get (n + 2) (A ++ F ++ String h "") = Some "."%char /\
  String.get (n + 5) (A ++ F ++ String h "") = Some h.
Proof.
  intros HA HF. subst n.
  assert (Hskip : forall k t, String.get (length A + k) (A ++ t) = String.get k t).
  { intros k t. induction A as [ | c A IH]; [reflexivity | exact IH]. }
  rewrite !Hskip.
  destruct HF as [-> | (q & ->)]; split; reflexivity.
Qed.

(** A value that raises no range warning is not a sentinel below the range,
    and neither is its opposite. *)
Lemma in_range_not_below (mc : positive) (ec : Z) (g v : float) :
  flt g (S754_finite true mc ec) = true ->
  flt v d0 || flt (S754_finite false mc ec) v = false ->
  v <> g /\ fneg v <> g.
Proof.
  intros Hg Hv. apply orb_false_elim in Hv. destruct Hv as [Hv0 Hv1].
  split; intros E; subst g.
  - destruct v as [s | s | | s m e]; try discriminate.
    + destruct s; discriminate.
    + destruct s; discriminate.
  - destruct v as [s | s | | s m e]; try discriminate.
    + destruct s; discriminate.
    + destruct s; [discriminate | ].
      unfold flt, SFltb in *. cbn [fneg SFopp negb SFcompare] in *.
      rewrite (Z.compare_antisym e ec) in Hv1.
      destruct (e ?= ec); cbn [CompOpp] in *; try discriminate.
      change (Pos.compare_cont Eq mc m) with (Pos.compare_cont (CompOpp Eq) mc m) in Hv1.
      rewrite <- (Pos.compare_cont_antisym m mc Eq) in Hv1.
      destruct (Pos.compare_cont Eq m mc); cbn [CompOpp] in *; discriminate.
Qed.


(** * The claims *)



(** C2, as amended. For every double that is not a NaN and every level,
    [latitude_to_str] and [longitude_to_str] write the text of level 0 with
    blanks at the places [blanked_places level]: the hundredths of minutes
    at level 1, the tenths too at level 2, the units of minutes too at
    level 3, the tens of minutes too at level 4. The places are the same in
    both functions; the character positions are one further in a longitude
    ([lat_index], [long_index]). At level 0 these positions hold the digits
    of [shown_minutes], the minutes rounded to hundredths and put back to
    zero on a carry, unless the input is the negative zero, whose minutes
    print as "-0.00". *)
Theorem ambiguity_places (x : float) (level : Z) :
  is_double x -> is_nan x = false ->
  (exists s0 log,
      run (latitude_to_str x 0) = Some (s0, log) /\
      run (latitude_to_str x level)
      = Some (blank_at (map lat_index (blanked_places level)) s0, log) /\
      (minutes_at lat_index s0 (shown_minutes d90 x) \/
       (neg_zero x = true /\ s0 = "00-0.00N"%string))) /\
  (exists s0 log,
      run (longitude_to_str x 0) = Some (s0, log) /\
      run (longitude_to_str x level)
      = Some (blank_at (map long_index (blanked_places level)) s0, log) /\
      (minutes_at long_index s0 (shown_minutes d180 x) \/
       (neg_zero x = true /\ s0 = "000-0.00E"%string))) /\
  blanked_places 1 = [Hundredths] /\
  blanked_places 2 = [Hundredths; Tenths] /\
  blanked_places 3 = [Hundredths; Tenths; Units] /\
  blanked_places 4 = [Hundredths; Tenths; Units; Tens].
Proof.
  intros Hd Hn.
  destruct (latitude_to_str_layout x Hd Hn) as (D1 & F1 & h1 & log1 & HD1 & _ & HF1 & Hrun1).
  destruct (longitude_to_str_layout x Hd Hn) as (D2 & F2 & h2 & log2 & HD2 & _ & HF2 & Hrun2).
  split; [ | split; [ | repeat split]].
  - exists (fixed_width 2 D1 ++ F1 ++ String h1 "")%string, log1.
    split; [exact (Hrun1 0) | ]. split; [exact (Hrun1 level) | ].
    destruct HF1 as [(Hz & -> & -> & ->) | (Hq & ->)].
    + right. split; [exact Hz | reflexivity].
    + left. unfold minutes_at.
      apply render_5_2_places; [apply fixed_width_length | exact Hq].
  - exists (fixed_width 3 D2 ++ F2 ++ String h2 "")%string, log2.
    split; [exact (Hrun2 0) | ]. split; [exact (Hrun2 level) | ].
    destruct HF2 as [(Hz & -> & -> & ->) | (Hq & ->)].
    + right. split; [exact Hz | reflexivity].
    + left. unfold minutes_at.
      apply render_5_2_places; [apply fixed_width_length | exact Hq].
Qed.

(** C2 at 49.0583 degrees, level 3: "490 .  N". *)
Lemma ambiguity_places_witness :
  (is_double (strtod_c "49.0583") /\ is_nan (strtod_c "49.0583") = false) /\
  run (latitude_to_str (strtod_c "49.0583") 3) = Some ("490 .  N"%string, []) /\
  exists s0 log,
    run (latitude_to_str (strtod_c "49.0583") 0) = Some (s0, log) /\
    run (latitude_to_str (strtod_c "49.0583") 3)
    = Some (blank_at (map lat_index (blanked_places 3)) s0, log) /\
    (minutes_at lat_index s0 (shown_minutes d90 (strtod_c "49.0583")) \/
     (neg_zero (strtod_c "49.0583") = true /\ s0 = "00-0.00N"%string)).
Proof.
  assert (H : is_double (strtod_c "49.0583") /\ is_nan (strtod_c "49.0583") = false)
    by (split; vm_compute; reflexivity).
  split; [exact H | ]. split; [vm_compute; reflexivity | ].
  exact (proj1 (ambiguity_places (strtod_c "49.0583") 3 (proj1 H) (proj2 H))).
Defined.

(** C2 as the specification words it (the tens of minutes blanked at level
    3, the units only at level 4) fails: at level 3, 49.0583 degrees is
    written "490 .  N", units blanked and tens kept. *)
Lemma claimed_places_refuted :
  ~ (forall x level,
        is_double x -> is_nan x = false -> 1 <= level <= 4 ->
        exists s0 log,
          run (latitude_to_str x 0) = Some (s0, log) /\
          run (latitude_to_str x level)
          = Some (blank_at (map lat_index (claimed_places level)) s0, log)).
Proof.
  intros H.
  destruct (H (strtod_c "49.0583") 3) as (s0 & log & H0 & H3);
    [vm_compute; reflexivity | vm_compute; reflexivity | lia | ].
  assert (E0 : run (latitude_to_str (strtod_c "49.0583") 0) = Some ("4903.50N"%string, []))
    by (vm_compute; reflexivity).
  assert (E3 : run (latitude_to_str (strtod_c "49.0583") 3) = Some ("490 .  N"%string, []))
    by (vm_compute; reflexivity).
  rewrite E0 in H0. injection H0 as <- <-.
  rewrite E3 in H3. vm_compute in H3. discriminate H3.
Qed.

(** C3, as amended. For every double that is not a NaN, each compressed
    encoder writes four bytes that do not depend on the state of the sink,
    every one of them in [33, 123]. *)
Theorem compressed_bytes (x : float) :
  is_double x -> is_nan x = false ->
  (exists b0 b1 b2 b3,
      (forall log, exists log',
            latitude_to_comp_str x log = Some ([b0; b1; b2; b3], log')) /\
      Forall (fun b => 33 <= Zchar b <= 123) [b0; b1; b2; b3]) /\
  (exists b0 b1 b2 b3,
      (forall log, exists log',
            longitude_to_comp_str x log = Some ([b0; b1; b2; b3], log')) /\
      Forall (fun b => 33 <= Zchar b <= 123) [b0; b1; b2; b3]).
Proof.
  intros Hd Hn. split.
  - destruct (latitude_to_comp_str_run x Hd Hn) as (y & _ & Hy & Hrun).
    destruct (base91_digits y) as (b0 & b1 & b2 & b3 & Hb & (R0 & R1 & R2 & R3) & _).
    { change (91 ^ 4) with 68574961. lia. }
    exists b0, b1, b2, b3. split.
    + intros log. eexists. rewrite Hrun, Hb. reflexivity.
    + repeat (apply Forall_cons; [lia | ]). apply Forall_nil.
  - destruct (longitude_to_comp_str_run x Hd Hn) as (y & _ & Hy & Hrun).
    destruct (base91_digits y) as (b0 & b1 & b2 & b3 & Hb & (R0 & R1 & R2 & R3) & _).
    { change (91 ^ 4) with 68574961. lia. }
    exists b0, b1, b2, b3. split.
    + intros log. eexists. rewrite Hrun, Hb. reflexivity.
    + repeat (apply Forall_cons; [lia | ]). apply Forall_nil.
Qed.

(** C3 at latitude -90: the bytes are "{{!!", and "{" is 123. *)
Lemma compressed_bytes_witness :
  (is_double (fneg d90) /\ is_nan (fneg d90) = false) /\
  run (latitude_to_comp_str (fneg d90)) = Some (["{"; "{"; "!"; "!"]%char, []) /\
  exists b0 b1 b2 b3,
    (forall log, exists log',
          latitude_to_comp_str (fneg d90) log = Some ([b0; b1; b2; b3], log')) /\
    Forall (fun b => 33 <= Zchar b <= 123) [b0; b1; b2; b3].
Proof.
  assert (H : is_double (fneg d90) /\ is_nan (fneg d90) = false)
    by (split; vm_compute; reflexivity).
  split; [exact H | ]. split; [vm_compute; reflexivity | ].
  exact (proj1 (compressed_bytes (fneg d90) (proj1 H) (proj2 H))).
Defined.

(** C3 as stated fails: not every byte is at most 122, since latitude -90
    is written with the byte 123. *)
Lemma compressed_bytes_122_refuted :
  ~ (forall x bs log,
        is_double x -> is_nan x = false ->
        run (latitude_to_comp_str x) = Some (bs, log) ->
        Forall (fun b => 33 <= Zchar b <= 122) bs).
Proof.
  intros H.
  assert (E : run (latitude_to_comp_str (fneg d90)) = Some (["{"; "{"; "!"; "!"]%char, []))
    by (vm_compute; reflexivity).
  specialize (H (fneg d90) _ _ ltac:(vm_compute; reflexivity) ltac:(vm_compute; reflexivity) E).
  inversion H as [ | b bs Hb _]. vm_compute in Hb. destruct Hb as [_ Hb]. apply Hb. reflexivity.
Qed.

(** C4, as amended. Latitude 90 is scaled to 0 and latitude -90 to
    380926 * 180 = 68566680, which is 8280 short of 91^4 - 1; every clamped
    latitude that is not a NaN is scaled to an integer between the two. *)
Theorem compressed_endpoints :
  lat_scaled d90 = Some 0 /\
  lat_scaled (fneg d90) = Some (380926 * 180) /\
  91 ^ 4 - 1 - 380926 * 180 = 8280 /\
  forall x, is_double x -> is_nan x = false ->
            exists n, lat_scaled (clamp d90 x) = Some n /\ 0 <= n <= 380926 * 180.
Proof.
  split; [vm_compute; reflexivity | ].
  split; [vm_compute; reflexivity | ].
  split; [reflexivity | ].
  intros x Hd Hn. apply lat_scaled_bounds, d90_abs_le; assumption.
Qed.

(** C4 at latitude -91, clamped to -90. *)
Lemma compressed_endpoints_witness :
  (is_double (strtod_c "-91") /\ is_nan (strtod_c "-91") = false) /\
  exists n, lat_scaled (clamp d90 (strtod_c "-91")) = Some n /\ 0 <= n <= 380926 * 180.
Proof.
  assert (H : is_double (strtod_c "-91") /\ is_nan (strtod_c "-91") = false)
    by (split; vm_compute; reflexivity).
  split; [exact H | ].
  exact (proj2 (proj2 (proj2 compressed_endpoints)) (strtod_c "-91") (proj1 H) (proj2 H)).
Defined.

(** C4 as stated fails: the scaled integer of latitude -90 is not within
    one unit of 91^4 - 1. *)
Lemma compressed_south_pole_refuted :
  ~ (exists n, lat_scaled (fneg d90) = Some n /\ Z.abs (n - (91 ^ 4 - 1)) <= 1).
Proof.
  intros (n & Hn & Hb).
  assert (E : lat_scaled (fneg d90) = Some 68566680) by (vm_compute; reflexivity).
  rewrite E in Hn. injection Hn as <-. vm_compute in Hb. apply Hb. reflexivity.
Qed.

Section NMEA_claims.

Variable G_UNKNOWN : float.
Variable atof : string -> float.

(** C5, as amended. A field whose first character is not a digit, or whose
    character at index 4 (latitude) or 5 (longitude) is not a point, decodes
    to the sentinel and sends nothing to the sink. A field that passes both
    checks decodes to its computed value; for a sentinel below the range,
    that value is the sentinel only when it is out of range, and then the
    range warning has been sent. *)
Theorem nmea_decode_reject (pstr phemi : string) :
  (isdigit (first_char pstr) = false \/
   (exists c4, c_index pstr 4 = Some c4 /\ c4 <> "."%char) ->
   run (latitude_from_nmea G_UNKNOWN atof pstr phemi) = Some (G_UNKNOWN, [])) /\
  (isdigit (first_char pstr) = false \/
   (exists c5, c_index pstr 5 = Some c5 /\ c5 <> "."%char) ->
   run (longitude_from_nmea G_UNKNOWN atof pstr phemi) = Some (G_UNKNOWN, [])) /\
  (isdigit (first_char pstr) = true -> String.get 4 pstr = Some "."%char ->
   flt G_UNKNOWN (fneg d90) = true ->
   exists v log,
     run (latitude_from_nmea G_UNKNOWN atof pstr phemi) = Some (v, log) /\
     (v = G_UNKNOWN ->
      In (Dw_printf ("Error: Latitude not in range of 0 to 90." ++ LF)) log)) /\
  (isdigit (first_char pstr) = true -> String.get 5 pstr = Some "."%char ->
   flt G_UNKNOWN (fneg d180) = true ->
   exists v log,
     run (longitude_from_nmea G_UNKNOWN atof pstr phemi) = Some (v, log) /\
     (v = G_UNKNOWN ->
      In (Dw_printf ("Error: Longitude not in range of 0 to 180." ++ LF)) log)).
Proof.
  split; [intros H; apply latitude_from_nmea_reject; exact H | ].
  split; [intros H; apply longitude_from_nmea_reject; exact H | ].
  split.
  - intros Hd Hp Hg.
    destruct (get_some pstr 0) as [c0 H0]; [apply get_lt_length in Hp; lia | ].
    rewrite (get_first_char _ _ H0) in Hd.
    destruct (latitude_from_nmea_accept G_UNKNOWN atof pstr phemi c0 [] H0 Hd Hp)
      as (c1 & H1 & Hrun).
    cbv zeta in Hrun. eexists _, _. split; [exact Hrun | ].
    set (v := lat_value atof c0 c1 (string_drop 2 pstr)) in *.
    intros E. unfold lat_range_events.
    destruct (flt v d0 || flt d90 v) eqn:Hr.
    + apply in_or_app. right. apply in_or_app. left. unfold warn. right. left. reflexivity.
    + exfalso. rewrite d90_Zv in Hr, Hg.
      destruct (in_range_not_below _ _ G_UNKNOWN v Hg Hr) as [N1 N2].
      destruct (Ascii.eqb (first_char phemi) "S"); contradiction.
  - intros Hd Hp Hg.
    destruct (get_some pstr 0) as [c0 H0]; [apply get_lt_length in Hp; lia | ].
    rewrite (get_first_char _ _ H0) in Hd.
    destruct (longitude_from_nmea_accept G_UNKNOWN atof pstr phemi c0 [] H0 Hd Hp)
      as (c1 & c2 & H1 & H2 & Hrun).
    cbv zeta in Hrun. eexists _, _. split; [exact Hrun | ].
    set (v := long_value atof c0 c1 c2 (string_drop 3 pstr)) in *.
    intros E. unfold long_range_events.
    destruct (flt v d0 || flt d180 v) eqn:Hr.
    + apply in_or_app. right. apply in_or_app. left. unfold warn. right. left. reflexivity.
    + exfalso. rewrite d180_Zv in Hr, Hg.
      destruct (in_range_not_below _ _ G_UNKNOWN v Hg Hr) as [N1 N2].
      destruct (Ascii.eqb (first_char phemi) "W"); contradiction.
Qed.

(** C6. For an input equal to the sentinel, the NMEA encoders write two
    empty strings and send nothing to the sink. *)
Theorem nmea_unknown (x : float) :
  feq x G_UNKNOWN = true ->
  run (latitude_to_nmea G_UNKNOWN x) = Some ((""%string, ""%string), []) /\
  run (longitude_to_nmea G_UNKNOWN x) = Some ((""%string, ""%string), []).
Proof.
  intros H. unfold run, latitude_to_nmea, longitude_to_nmea. rewrite H. split; reflexivity.
Qed.

(** C7. For a field that passes the structural checks, the decoders return
    the value computed from the leading digits and [atof], negated exactly
    when the hemisphere character is S (latitude) or W (longitude), and for
    no other character, the empty hemisphere included. The range warning
    and the hemisphere warning go to the sink and leave the value as it
    is. *)
Theorem nmea_decode_value (pstr phemi : string) (c0 : ascii) :
  String.get 0 pstr = Some c0 -> isdigit c0 = true ->
  (String.get 4 pstr = Some "."%char ->
   exists c1, String.get 1 pstr = Some c1 /\
     let v := lat_value atof c0 c1 (string_drop 2 pstr) in
     let h := first_char phemi in
     run (latitude_from_nmea G_UNKNOWN atof pstr phemi)
     = Some (if Ascii.eqb h "S" then fneg v else v,
             lat_range_events v ++ lat_hemi_events h)) /\
  (String.get 5 pstr = Some "."%char ->
   exists c1 c2, String.get 1 pstr = Some c1 /\ String.get 2 pstr = Some c2 /\
     let v := long_value atof c0 c1 c2 (string_drop 3 pstr) in
     let h := first_char phemi in
     run (longitude_from_nmea G_UNKNOWN atof pstr phemi)
     = Some (if Ascii.eqb h "W" then fneg v else v,
             long_range_events v ++ long_hemi_events h)).
Proof.
  intros H0 Hd. split; intros Hp.
  - destruct (latitude_from_nmea_accept G_UNKNOWN atof pstr phemi c0 [] H0 Hd Hp)
      as (c1 & H1 & Hrun).
    exists c1. split; [exact H1 | exact Hrun].
  - destruct (longitude_from_nmea_accept G_UNKNOWN atof pstr phemi c0 [] H0 Hd Hp)
      as (c1 & c2 & H1 & H2 & Hrun).
    exists c1, c2. split; [exact H1 | ]. split; [exact H2 | exact Hrun].
Qed.

(** C8. For a field that passes the structural checks, decoding with S
    (latitude) or W (longitude) gives the opposite of decoding with N or
    E. *)
Theorem nmea_decode_negation (pstr : string) (c0 : ascii) :
  String.get 0 pstr = Some c0 -> isdigit c0 = true ->
  (String.get 4 pstr = Some "."%char ->
   exists v log log',
     run (latitude_from_nmea G_UNKNOWN atof pstr "N") = Some (v, log) /\
     run (latitude_from_nmea G_UNKNOWN atof pstr "S") = Some (fneg v, log')) /\
  (String.get 5 pstr = Some "."%char ->
   exists v log log',
     run (longitude_from_nmea G_UNKNOWN atof pstr "E") = Some (v, log) /\
     run (longitude_from_nmea G_UNKNOWN atof pstr "W") = Some (fneg v, log')).
Proof.
  intros H0 Hd. split; intros Hp.
  - destruct (latitude_from_nmea_accept G_UNKNOWN atof pstr "N" c0 [] H0 Hd Hp)
      as (c1 & H1 & HN).
    destruct (latitude_from_nmea_accept G_UNKNOWN atof pstr "S" c0 [] H0 Hd Hp)
      as (c1' & H1' & HS).
    assert (c1' = c1) by congruence. subst c1'.
    eexists _, _, _. split; [exact HN | exact HS].
  - destruct (longitude_from_nmea_accept G_UNKNOWN atof pstr "E" c0 [] H0 Hd Hp)
      as (c1 & c2 & H1 & H2 & HE).
    destruct (longitude_from_nmea_accept G_UNKNOWN atof pstr "W" c0 [] H0 Hd Hp)
      as (c1' & c2' & H1' & H2' & HW).
    assert (c1' = c1) by congruence. assert (c2' = c2) by congruence. subst c1' c2'.
    eexists _, _, _. split; [exact HE | exact HW].
Qed.

End NMEA_claims.

(** C5 at the fields "x903.5000" (no leading digit) and "07201,7500" (no
    point at index 5). *)
Lemma nmea_decode_reject_witness :
  (isdigit (first_char "x903.5000") = false /\
   run (latitude_from_nmea G_UNKNOWN_dw strtod_c "x903.5000" "N") = Some (G_UNKNOWN_dw, [])) /\
  ((exists c5, c_index "07201,7500" 5 = Some c5 /\ c5 <> "."%char) /\
   run (longitude_from_nmea G_UNKNOWN_dw strtod_c "07201,7500" "W") = Some (G_UNKNOWN_dw, [])).
Proof.
  pose proof (nmea_decode_reject G_UNKNOWN_dw strtod_c "x903.5000" "N") as T1.
  pose proof (nmea_decode_reject G_UNKNOWN_dw strtod_c "07201,7500" "W") as T2.
  assert (H2 : exists c5, c_index "07201,7500" 5 = Some c5 /\ c5 <> "."%char)
    by (exists ","%char; split; [reflexivity | discriminate]).
  split; split.
  - reflexivity.
  - exact (proj1 T1 (or_introl eq_refl)).
  - exact H2.
  - exact (proj1 (proj2 T2) (or_intror H2)).
Defined.

(** C5 as stated fails: the sentinel is not returned exactly when a
    structural check fails. With the sentinel -999999 of [direwolf.h] and
    the [strtod] of C, the field "01-6.e7" passes both checks and decodes to
    1 + (-6e7) / 60 = -999999. *)
Lemma nmea_sentinel_reached :
  ~ (forall pstr phemi v log,
        run (latitude_from_nmea G_UNKNOWN_dw strtod_c pstr phemi) = Some (v, log) ->
        (v = G_UNKNOWN_dw <->
         isdigit (first_char pstr) = false \/ c_index pstr 4 <> Some "."%char)).
Proof.
  intros H.
  assert (E : run (latitude_from_nmea G_UNKNOWN_dw strtod_c "01-6.e7" "N")
              = Some (G_UNKNOWN_dw, warn ("Error: Latitude not in range of 0 to 90." ++ LF)))
    by (vm_compute; reflexivity).
  destruct (proj1 (H _ _ _ _ E) eq_refl) as [C | C].
  - discriminate C.
  - apply C. reflexivity.
Qed.

(** C6 at the sentinel -999999. *)
Lemma nmea_unknown_witness :
  feq G_UNKNOWN_dw G_UNKNOWN_dw = true /\
  run (latitude_to_nmea G_UNKNOWN_dw G_UNKNOWN_dw) = Some ((""%string, ""%string), []) /\
  run (longitude_to_nmea G_UNKNOWN_dw G_UNKNOWN_dw) = Some ((""%string, ""%string), []).
Proof.
  split; [reflexivity | ].
  exact (nmea_unknown G_UNKNOWN_dw G_UNKNOWN_dw eq_refl).
Defined.

(** C7 at the field "4903.5000" with hemisphere "S". *)
Lemma nmea_decode_value_witness :
  (String.get 0 "4903.5000" = Some "4"%char /\ isdigit "4" = true /\
   String.get 4 "4903.5000" = Some "."%char) /\
  run (latitude_from_nmea G_UNKNOWN_dw strtod_c "4903.5000" "S")
  = Some (S754_finite true 6904346616231799 (-47), []) /\
  exists c1, String.get 1 "4903.5000" = Some c1 /\
    let v := lat_value strtod_c "4" c1 (string_drop 2 "4903.5000") in
    let h := first_char "S" in
    run (latitude_from_nmea G_UNKNOWN_dw strtod_c "4903.5000" "S")
    = Some (if Ascii.eqb h "S" then fneg v else v,
            lat_range_events v ++ lat_hemi_events h).
Proof.
  split; [repeat split; reflexivity | ].
  split; [vm_compute; reflexivity | ].
  exact (proj1 (nmea_decode_value G_UNKNOWN_dw strtod_c "4903.5000" "S" "4" eq_refl eq_refl)
               eq_refl).
Defined.

(** C8 at the field "07201.7500". *)
Lemma nmea_decode_negation_witness :
  (String.get 0 "07201.7500" = Some "0"%char /\ isdigit "0" = true /\
   String.get 5 "07201.7500" = Some "."%char) /\
  exists v log log',
    run (longitude_from_nmea G_UNKNOWN_dw strtod_c "07201.7500" "E") = Some (v, log) /\
    run (longitude_from_nmea G_UNKNOWN_dw strtod_c "07201.7500" "W") = Some (fneg v, log').
Proof.
  split; [repeat split; reflexivity | ].
  exact (proj2 (nmea_decode_negation G_UNKNOWN_dw strtod_c "07201.7500" "0" eq_refl eq_refl)
               eq_refl).
Defined.

(** C9. For every double that is not a NaN, the text at a level is the
    text of level 0 with blanks at the positions [lat_blanked level]
    ([long_blanked level]) and nowhere else. No position is blanked at level
    0, the positions of level [k] are among those of level [k + 1], and they
    never include the decimal point (index 4, or 5 in a longitude) nor the
    hemisphere letter (index 7, or 8). *)
Theorem ambiguity_monotone (x : float) (k : Z) :
  is_double x -> is_nan x = false ->
  (exists s0 h log,
      run (latitude_to_str x 0) = Some (s0, log) /\
      String.get 4 s0 = Some "."%char /\ String.get 7 s0 = Some h /\
      (h = "N"%char \/ h = "S"%char) /\
      forall level, exists s,
          run (latitude_to_str x level) = Some (s, log) /\
          blanked (lat_blanked level) s0 s) /\
  (exists s0 h log,
      run (longitude_to_str x 0) = Some (s0, log) /\
      String.get 5 s0 = Some "."%char /\ String.get 8 s0 = Some h /\
      (h = "E"%char \/ h = "W"%char) /\
      forall level, exists s,
          run (longitude_to_str x level) = Some (s, log) /\
          blanked (long_blanked level) s0 s) /\
  lat_blanked 0 = [] /\ long_blanked 0 = [] /\
  incl (lat_blanked k) (lat_blanked (k + 1)) /\
  incl (long_blanked k) (long_blanked (k + 1)) /\
  ~ In 4%nat (lat_blanked k) /\ ~ In 7%nat (lat_blanked k) /\
  ~ In 5%nat (long_blanked k) /\ ~ In 8%nat (long_blanked k).
Proof.
  intros Hd Hn.
  destruct (latitude_to_str_layout x Hd Hn) as (D1 & F1 & h1 & log1 & HD1 & Hh1 & HF1 & Hrun1).
  destruct (longitude_to_str_layout x Hd Hn) as (D2 & F2 & h2 & log2 & HD2 & Hh2 & HF2 & Hrun2).
  split; [ | split].
  - exists (fixed_width 2 D1 ++ F1 ++ String h1 "")%string, h1, log1.
    destruct (layout_point_hemi (fixed_width 2 D1) F1 h1 2 (fixed_width_length 2 D1))
      as [Hp Hh].
    { destruct HF1 as [(_ & _ & _ & ->) | (_ & ->)]; [left; reflexivity | right; eauto]. }
    split; [exact (Hrun1 0) | ]. split; [exact Hp | ]. split; [exact Hh | ].
    split; [exact Hh1 | ].
    intros level. eexists. split; [exact (Hrun1 level) | apply blank_at_blanked].
  - exists (fixed_width 3 D2 ++ F2 ++ String h2 "")%string, h2, log2.
    destruct (layout_point_hemi (fixed_width 3 D2) F2 h2 3 (fixed_width_length 3 D2))
      as [Hp Hh].
    { destruct HF2 as [(_ & _ & _ & ->) | (_ & ->)]; [left; reflexivity | right; eauto]. }
    split; [exact (Hrun2 0) | ]. split; [exact Hp | ]. split; [exact Hh | ].
    split; [exact Hh2 | ].
    intros level. eexists. split; [exact (Hrun2 level) | apply blank_at_blanked].
  - split; [reflexivity | ]. split; [reflexivity | ].
    split; [apply incl_map, blanked_places_incl | ].
    split; [apply incl_map, blanked_places_incl | ].
    destruct (lat_blanked_avoid k), (long_blanked_avoid k). tauto.
Qed.

(** C9 at -72.0292 degrees, level 2: "07201.  W". *)
Lemma ambiguity_monotone_witness :
  (is_double (strtod_c "-72.0292") /\ is_nan (strtod_c "-72.0292") = false) /\
  run (longitude_to_str (strtod_c "-72.0292") 2) = Some ("07201.  W"%string, []) /\
  incl (long_blanked 2) (long_blanked (2 + 1)).
Proof.
  assert (H : is_double (strtod_c "-72.0292") /\ is_nan (strtod_c "-72.0292") = false)
    by (split; vm_compute; reflexivity).
  split; [exact H | ]. split; [vm_compute; reflexivity | ].
  pose proof (ambiguity_monotone (strtod_c "-72.0292") 2 (proj1 H) (proj2 H)) as T.
  exact (proj1 (proj2 (proj2 (proj2 (proj2 (proj2 T)))))).
Defined.

(** * Further properties of the encoders *)

(** ** Comparisons with the limits *)

Lemma flt_above_not_below (mc : positive) (ec : Z) (x : float) :
  flt (S754_finite false mc ec) x = true -> flt x (S754_finite true mc ec) = false.
Proof. destruct x as [s | s | | s m e]; try destruct s; cbn; congruence. Qed.

Lemma flt_above_not_nan (y x : float) : flt y x = true -> is_nan x = false.
Proof. destruct x; [reflexivity | reflexivity | | reflexivity]. destruct y; cbn; discriminate. Qed.

Lemma flt_below_not_nan (x y : float) : flt x y = true -> is_nan x = false.
Proof. destruct x; [reflexivity | reflexivity | | reflexivity]. cbn; discriminate. Qed.

Lemma clamp_above (mc : positive) (ec : Z) (x : float) :
  flt (S754_finite false mc ec) x = true ->
  clamp (S754_finite false mc ec) x = S754_finite false mc ec.
Proof.
  intros H. unfold clamp. cbn [fneg SFopp negb].
  rewrite (flt_above_not_below mc ec x H), H. reflexivity.
Qed.

Lemma flt_pos_neg (s : bool) (mc : positive) (ec : Z) :
  flt (S754_finite false mc ec) (S754_finite true mc ec) = false.
Proof. reflexivity. Qed.

Lemma clamp_below (mc : positive) (ec : Z) (x : float) :
  flt x (S754_finite true mc ec) = true ->
  clamp (S754_finite false mc ec) x = S754_finite true mc ec.
Proof.
  intros H. unfold clamp. cbn [fneg SFopp negb]. rewrite H. reflexivity.
Qed.

Lemma clamp_events_above (lo hi : string) (mc : positive) (ec : Z) (x : float) :
  flt (S754_finite false mc ec) x = true ->
  clamp_events lo hi (S754_finite false mc ec) x = warn hi.
Proof.
  intros H. unfold clamp_events. cbn [fneg SFopp negb].
  rewrite (flt_above_not_below mc ec x H), H. reflexivity.
Qed.

Lemma clamp_events_below (lo hi : string) (mc : positive) (ec : Z) (x : float) :
  flt x (S754_finite true mc ec) = true ->
  clamp_events lo hi (S754_finite false mc ec) x = warn lo.
Proof.
  intros H. unfold clamp_events. cbn [fneg SFopp negb]. rewrite H.
  cbn. reflexivity.
Qed.

Lemma clamp_in_range (lim x : float) :
  flt x (fneg lim) = false -> flt lim x = false -> clamp lim x = x.
Proof. intros H1 H2. unfold clamp. rewrite H1, H2. reflexivity. Qed.

Lemma clamp_events_in_range (lo hi : string) (lim x : float) :
  flt x (fneg lim) = false -> flt lim x = false -> clamp_events lo hi lim x = [].
Proof. intros H1 H2. unfold clamp_events. rewrite H1, H2. reflexivity. Qed.

(** ** Out of range *)

Ltac compute_text :=
  match goal with
  | |- Some (?f ?a ?s, ?l) = Some (?f ?a ?t, ?l) =>
      let s' := eval vm_compute in s in change s with s'; reflexivity
  | |- Some (?s, ?l) = Some (?t, ?l) =>
      let s' := eval vm_compute in s in change s with s'; reflexivity
  end.

(** The text of an encoder at a limit, from its run lemma. *)
Ltac at_limit Hrun Hi Hc He :=
  rewrite Hc in Hi; try rewrite Hc in Hrun; vm_compute in Hi; injection Hi as <-;
  intros; unfold run; rewrite Hrun, He; cbn [app]; compute_text.

Section Out_of_range.

Variable G_UNKNOWN : float.

(** X1. A latitude above 90 is written as 90 north and one below -90 as
    90 south, however far it is (an infinity too). [latitude_to_str] writes
    "9000.00N" or "9000.00S" under the blanks of its level,
    [latitude_to_comp_str] the bytes "!!!!" or "{{!!", [latitude_to_nmea]
    (for what is not the sentinel) "9000.0000" with "N" or "S"; each logs
    one message, the one of the limit that was passed. *)
Theorem latitude_out_of_range (x : float) :
  is_double x ->
  (flt d90 x = true ->
   (forall ambiguity,
       run (latitude_to_str x ambiguity)
       = Some (blank_lat ambiguity "9000.00N",
               warn "Latitude is greater than 90.  Changing to 90.n")) /\
   run (latitude_to_comp_str x)
   = Some (["!"; "!"; "!"; "!"]%char,
           warn "Latitude is greater than 90.  Changing to 90.n") /\
   (feq x G_UNKNOWN = false ->
    run (latitude_to_nmea G_UNKNOWN x)
    = Some (("9000.0000", "N")%string,
            warn "Latitude is greater than 90.  Changing to 90.n"))) /\
  (flt x (fneg d90) = true ->
   (forall ambiguity,
       run (latitude_to_str x ambiguity)
       = Some (blank_lat ambiguity "9000.00S",
               warn "Latitude is less than -90.  Changing to -90.n")) /\
   run (latitude_to_comp_str x)
   = Some (["{"; "{"; "!"; "!"]%char,
           warn "Latitude is less than -90.  Changing to -90.n") /\
   (feq x G_UNKNOWN = false ->
    run (latitude_to_nmea G_UNKNOWN x)
    = Some (("9000.0000", "S")%string,
            warn "Latitude is less than -90.  Changing to -90.n"))).
Proof.
  intros Hd. split; intros Hx.
  - pose proof (flt_above_not_nan _ _ Hx) as Hn.
    pose proof (clamp_above _ _ x Hx : clamp d90 x = d90) as Hc.
    pose proof (fun lo hi => clamp_events_above lo hi _ _ x Hx
                             : clamp_events lo hi d90 x = warn hi) as He.
    split; [ | split].
    + destruct (latitude_to_str_run x Hd Hn) as (ideg & Hi & _ & _ & Hrun).
      at_limit Hrun Hi Hc He.
    + destruct (latitude_to_comp_str_run x Hd Hn) as (y & Hi & _ & Hrun).
      at_limit Hrun Hi Hc He.
    + intros Hg.
      destruct (latitude_to_nmea_run G_UNKNOWN x Hd Hn Hg) as (ideg & Hi & _ & _ & Hrun).
      at_limit Hrun Hi Hc He.
  - pose proof (flt_below_not_nan _ _ Hx) as Hn.
    pose proof (clamp_below _ _ x Hx : clamp d90 x = fneg d90) as Hc.
    pose proof (fun lo hi => clamp_events_below lo hi _ _ x Hx
                             : clamp_events lo hi d90 x = warn lo) as He.
    split; [ | split].
    + destruct (latitude_to_str_run x Hd Hn) as (ideg & Hi & _ & _ & Hrun).
      at_limit Hrun Hi Hc He.
    + destruct (latitude_to_comp_str_run x Hd Hn) as (y & Hi & _ & Hrun).
      at_limit Hrun Hi Hc He.
    + intros Hg.
      destruct (latitude_to_nmea_run G_UNKNOWN x Hd Hn Hg) as (ideg & Hi & _ & _ & Hrun).
      at_limit Hrun Hi Hc He.
Qed.

(** X2. A longitude above 180 is written as 180 east and one below -180
    as 180 west. [longitude_to_str] writes "18000.00E" or "18000.00W" under
    the blanks of its level, [longitude_to_comp_str] the bytes "{{!!" or
    "!!!!", [longitude_to_nmea] (for what is not the sentinel) "18000.0000"
    with "E" or "W"; each logs one message, the one of the limit that was
    passed, which [longitude_to_nmea] spells with a small initial. *)
Theorem longitude_out_of_range (x : float) :
  is_double x ->
  (flt d180 x = true ->
   (forall ambiguity,
       run (longitude_to_str x ambiguity)
       = Some (blank_long ambiguity "18000.00E",
               warn "Longitude is greater than 180.  Changing to 180.n")) /\
   run (longitude_to_comp_str x)
   = Some (["{"; "{"; "!"; "!"]%char,
           warn "Longitude is greater than 180.  Changing to 180.n") /\
   (feq x G_UNKNOWN = false ->
    run (longitude_to_nmea G_UNKNOWN x)
    = Some (("18000.0000", "E")%string,
            warn "longitude is greater than 180.  Changing to 180.n"))) /\
  (flt x (fneg d180) = true ->
   (forall ambiguity,
       run (longitude_to_str x ambiguity)
       = Some (blank_long ambiguity "18000.00W",
               warn "Longitude is less than -180.  Changing to -180.n")) /\
   run (longitude_to_comp_str x)
   = Some (["!"; "!"; "!"; "!"]%char,
           warn "Longitude is less than -180.  Changing to -180.n") /\
   (feq x G_UNKNOWN = false ->
    run (longitude_to_nmea G_UNKNOWN x)
    = Some (("18000.0000", "W")%string,
            warn "longitude is less than -180.  Changing to -180.n"))).
Proof.
  intros Hd. split; intros Hx.
  - pose proof (flt_above_not_nan _ _ Hx) as Hn.
    pose proof (clamp_above _ _ x Hx : clamp d180 x = d180) as Hc.
    pose proof (fun lo hi => clamp_events_above lo hi _ _ x Hx
                             : clamp_events lo hi d180 x = warn hi) as He.
    split; [ | split].
    + destruct (longitude_to_str_run x Hd Hn) as (ideg & Hi & _ & _ & Hrun).
      at_limit Hrun Hi Hc He.
    + destruct (longitude_to_comp_str_run x Hd Hn) as (y & Hi & _ & Hrun).
      at_limit Hrun Hi Hc He.
    + intros Hg.
      destruct (longitude_to_nmea_run G_UNKNOWN x Hd Hn Hg) as (ideg & Hi & _ & _ & Hrun).
      at_limit Hrun Hi Hc He.
  - pose proof (flt_below_not_nan _ _ Hx) as Hn.
    pose proof (clamp_below _ _ x Hx : clamp d180 x = fneg d180) as Hc.
    pose proof (fun lo hi => clamp_events_below lo hi _ _ x Hx
                             : clamp_events lo hi d180 x = warn lo) as He.
    split; [ | split].
    + destruct (longitude_to_str_run x Hd Hn) as (ideg & Hi & _ & _ & Hrun).
      at_limit Hrun Hi Hc He.
    + destruct (longitude_to_comp_str_run x Hd Hn) as (y & Hi & _ & Hrun).
      at_limit Hrun Hi Hc He.
    + intros Hg.
      destruct (longitude_to_nmea_run G_UNKNOWN x Hd Hn Hg) as (ideg & Hi & _ & _ & Hrun).
      at_limit Hrun Hi Hc He.
Qed.

(** ** In range *)

(** X3. For a double that is not a NaN and lies within the limits (-90
    to 90 for a latitude, -180 to 180 for a longitude), each encoder returns
    its text and leaves the log as it found it: nothing is reported. *)
Theorem encoders_silent_in_range (x : float) (log : list event) :
  is_double x -> is_nan x = false ->
  (flt x (fneg d90) = false -> flt d90 x = false ->
   (forall ambiguity, exists s, latitude_to_str x ambiguity log = Some (s, log)) /\
   (exists bs, latitude_to_comp_str x log = Some (bs, log)) /\
   (exists r, latitude_to_nmea G_UNKNOWN x log = Some (r, log))) /\
  (flt x (fneg d180) = false -> flt d180 x = false ->
   (forall ambiguity, exists s, longitude_to_str x ambiguity log = Some (s, log)) /\
   (exists bs, longitude_to_comp_str x log = Some (bs, log)) /\
   (exists r, longitude_to_nmea G_UNKNOWN x log = Some (r, log))).
Proof.
  intros Hd Hn. split; intros H1 H2.
  - pose proof (fun lo hi => clamp_events_in_range lo hi d90 x H1 H2) as He.
    split; [ | split].
    + destruct (latitude_to_str_run x Hd Hn) as (ideg & _ & _ & _ & Hrun).
      intros ambiguity. eexists. rewrite Hrun, He, app_nil_r. reflexivity.
    + destruct (latitude_to_comp_str_run x Hd Hn) as (y & _ & _ & Hrun).
      eexists. rewrite Hrun, He, app_nil_r. reflexivity.
    + destruct (feq x G_UNKNOWN) eqn:Hg.
      * eexists. unfold latitude_to_nmea. rewrite Hg. reflexivity.
      * destruct (latitude_to_nmea_run G_UNKNOWN x Hd Hn Hg) as (ideg & _ & _ & _ & Hrun).
        eexists. rewrite Hrun, He, app_nil_r. reflexivity.
  - pose proof (fun lo hi => clamp_events_in_range lo hi d180 x H1 H2) as He.
    split; [ | split].
    + destruct (longitude_to_str_run x Hd Hn) as (ideg & _ & _ & _ & Hrun).
      intros ambiguity. eexists. rewrite Hrun, He, app_nil_r. reflexivity.
    + destruct (longitude_to_comp_str_run x Hd Hn) as (y & _ & _ & Hrun).
      eexists. rewrite Hrun, He, app_nil_r. reflexivity.
    + destruct (feq x G_UNKNOWN) eqn:Hg.
      * eexists. unfold longitude_to_nmea. rewrite Hg. reflexivity.
      * destruct (longitude_to_nmea_run G_UNKNOWN x Hd Hn Hg) as (ideg & _ & _ & _ & Hrun).
        eexists. rewrite Hrun, He, app_nil_r. reflexivity.
Qed.

End Out_of_range.

(** X1 at 91 degrees, with two digits of ambiguity. *)
Lemma latitude_out_of_range_witness :
  let x := int_to_double 91 in
  (is_double x /\ flt d90 x = true /\ feq x G_UNKNOWN_dw = false) /\
  run (latitude_to_str x 2)
  = Some ("9000.  N"%string, warn "Latitude is greater than 90.  Changing to 90.n") /\
  run (latitude_to_comp_str x)
  = Some (["!"; "!"; "!"; "!"]%char, warn "Latitude is greater than 90.  Changing to 90.n") /\
  run (latitude_to_nmea G_UNKNOWN_dw x)
  = Some (("9000.0000", "N")%string, warn "Latitude is greater than 90.  Changing to 90.n").
Proof.
  intros x.
  assert (H : is_double x /\ flt d90 x = true /\ feq x G_UNKNOWN_dw = false)
    by (repeat split; vm_compute; reflexivity).
  split; [exact H | ]. destruct H as (H1 & H2 & H3).
  destruct (proj1 (latitude_out_of_range G_UNKNOWN_dw x H1) H2) as (A & B & C).
  split; [exact (A 2) | ]. split; [exact B | exact (C H3)].
Defined.

(** X2 at -181 degrees. *)
Lemma longitude_out_of_range_witness :
  let x := int_to_double (-181) in
  (is_double x /\ flt x (fneg d180) = true /\ feq x G_UNKNOWN_dw = false) /\
  run (longitude_to_str x 0)
  = Some ("18000.00W"%string, warn "Longitude is less than -180.  Changing to -180.n") /\
  run (longitude_to_comp_str x)
  = Some (["!"; "!"; "!"; "!"]%char, warn "Longitude is less than -180.  Changing to -180.n") /\
  run (longitude_to_nmea G_UNKNOWN_dw x)
  = Some (("18000.0000", "W")%string, warn "longitude is less than -180.  Changing to -180.n").
Proof.
  intros x.
  assert (H : is_double x /\ flt x (fneg d180) = true /\ feq x G_UNKNOWN_dw = false)
    by (repeat split; vm_compute; reflexivity).
  split; [exact H | ]. destruct H as (H1 & H2 & H3).
  destruct (proj2 (longitude_out_of_range G_UNKNOWN_dw x H1) H2) as (A & B & C).
  split; [exact (A 0) | ]. split; [exact B | exact (C H3)].
Defined.

(** X3 at 49.0583 degrees, with a log that is not empty. *)
Lemma encoders_silent_in_range_witness :
  let x := strtod_c "49.0583" in
  let log := warn "earlier" in
  (is_double x /\ is_nan x = false /\ flt x (fneg d90) = false /\ flt d90 x = false /\
   flt x (fneg d180) = false /\ flt d180 x = false) /\
  ((forall ambiguity, exists s, latitude_to_str x ambiguity log = Some (s, log)) /\
   (exists bs, latitude_to_comp_str x log = Some (bs, log)) /\
   (exists r, latitude_to_nmea G_UNKNOWN_dw x log = Some (r, log))) /\
  ((forall ambiguity, exists s, longitude_to_str x ambiguity log = Some (s, log)) /\
   (exists bs, longitude_to_comp_str x log = Some (bs, log)) /\
   (exists r, longitude_to_nmea G_UNKNOWN_dw x log = Some (r, log))).
Proof.
  intros x log.
  assert (H : is_double x /\ is_nan x = false /\ flt x (fneg d90) = false /\
              flt d90 x = false /\ flt x (fneg d180) = false /\ flt d180 x = false)
    by (repeat split; vm_compute; reflexivity).
  split; [exact H | ]. destruct H as (H1 & H2 & H3 & H4 & H5 & H6).
  destruct (encoders_silent_in_range G_UNKNOWN_dw x log H1 H2) as [A B].
  split; [exact (A H3 H4) | exact (B H5 H6)].
Defined.

(** ** Width and hemisphere *)

Lemma hemisphere_clamp (n p : ascii) (mc : positive) (ec : Z) (x : float) :
  hemisphere n p (clamp (S754_finite false mc ec) x) = hemisphere n p x.
Proof.
  unfold hemisphere, clamp. cbn [fneg SFopp negb].
  destruct (flt x (S754_finite true mc ec)) eqn:H1.
  - cbn. destruct x as [s | s | | s m e]; try destruct s; cbn in *; congruence.
  - destruct (flt (S754_finite false mc ec) x) eqn:H2; [ | reflexivity].
    destruct x as [s | s | | s m e]; try destruct s; cbn in *; congruence.
Qed.

Lemma string_set_app (s t : string) (i : nat) (c : ascii) :
  (i < length s)%nat -> string_set (s ++ t) i c = (string_set s i c ++ t)%string.
Proof.
  revert i. induction s as [ | a s IH]; intros i H; cbn in H; [lia | ].
  destruct i as [ | i]; cbn; [reflexivity | ]. rewrite IH by lia. reflexivity.
Qed.

Lemma blank_lat_app (ambiguity : Z) (s t : string) :
  (7 <= length s)%nat -> blank_lat ambiguity (s ++ t) = (blank_lat ambiguity s ++ t)%string.
Proof.
  intros H. unfold blank_lat.
  repeat match goal with
         | |- context [?k <=? ambiguity] => destruct (k <=? ambiguity)
         end;
    repeat (rewrite string_set_app by (rewrite ?string_set_length; lia)); reflexivity.
Qed.

Lemma blank_long_app (ambiguity : Z) (s t : string) :
  (8 <= length s)%nat -> blank_long ambiguity (s ++ t) = (blank_long ambiguity s ++ t)%string.
Proof.
  intros H. unfold blank_long.
  repeat match goal with
         | |- context [?k <=? ambiguity] => destruct (k <=? ambiguity)
         end;
    repeat (rewrite string_set_app by (rewrite ?string_set_length; lia)); reflexivity.
Qed.

Lemma blank_lat_length (ambiguity : Z) (s : string) : length (blank_lat ambiguity s) = length s.
Proof. rewrite blank_lat_places. apply blank_at_length. Qed.

Lemma blank_long_length (ambiguity : Z) (s : string) : length (blank_long ambiguity s) = length s.
Proof. rewrite blank_long_places. apply blank_at_length. Qed.

Lemma get_app_end (s : string) (c : ascii) :
  String.get (length s) (s ++ String c "") = Some c.
Proof. induction s as [ | a s IH]; [reflexivity | exact IH]. Qed.

(** The digits of a text encoder: the degrees on [dw] digits and the minutes
    field after the carry. *)
Lemma digits_length (dw w p : nat) (B N ideg : Z) (x : float) (smin z : string) :
  (1 <= dw)%nat -> (p + 2 <= w)%nat -> 0 <= ideg <= N -> N + 1 < 10 ^ Z.of_nat dw ->
  length z = w ->
  (smin = z \/ printed_as w p B x smin) ->
  length (sprintf_0d dw (snd (carry smin ideg)) ++ fst (carry smin ideg)) = (dw + w)%nat.
Proof.
  intros Hdw Hw Hi HN Hz Hs.
  pose proof (carry_deg smin ideg) as Hcd.
  rewrite append_length, carry_length, sprintf_0d_length by lia.
  destruct Hs as [-> | [_ ->]]; [rewrite Hz; reflexivity | ].
  rewrite render_length by lia. reflexivity.
Qed.

(** The human-readable encoders write the digits and then the letter. *)
Lemma latitude_to_str_body (x : float) :
  is_double x -> is_nan x = false ->
  exists ideg,
    double_to_int (magnitude (clamp d90 x)) = Some ideg /\
    let smin := sprintf_0f 5 2 (minutes (magnitude (clamp d90 x)) ideg) in
    let body := (sprintf_0d 2 (snd (carry smin ideg)) ++ fst (carry smin ideg))%string in
    length body = 7%nat /\
    forall ambiguity log,
      latitude_to_str x ambiguity log
      = Some ((blank_lat ambiguity body ++ String (hemisphere "S" "N" x) "")%string,
              log ++ clamp_events "Latitude is less than -90.  Changing to -90.n"
                                  "Latitude is greater than 90.  Changing to 90.n"
                                  d90 x).
Proof.
  intros Hd Hn.
  destruct (latitude_to_str_run x Hd Hn) as (ideg & Hi & Hr & Hs & Hrun).
  exists ideg. split; [exact Hi | ]. cbv zeta in *.
  assert (Hl : length (sprintf_0d 2 (snd (carry (sprintf_0f 5 2
                 (minutes (magnitude (clamp d90 x)) ideg)) ideg))
                       ++ fst (carry (sprintf_0f 5 2
                 (minutes (magnitude (clamp d90 x)) ideg)) ideg)) = 7%nat).
  { apply (digits_length 2 5 2 6000 90 ideg (minutes (magnitude (clamp d90 x)) ideg) _ "-0.00"); try lia; try reflexivity.
    destruct Hs as [[_ E] | E]; [left; exact E | right; exact E]. }
  split; [exact Hl | ].
  intros ambiguity log. rewrite Hrun.
  rewrite <- append_assoc, blank_lat_app by lia.
  rewrite (hemisphere_clamp "S" "N" _ _ x : hemisphere "S" "N" (clamp d90 x) = _).
  reflexivity.
Qed.

Lemma longitude_to_str_body (x : float) :
  is_double x -> is_nan x = false ->
  exists ideg,
    double_to_int (magnitude (clamp d180 x)) = Some ideg /\
    let smin := sprintf_0f 5 2 (minutes (magnitude (clamp d180 x)) ideg) in
    let body := (sprintf_0d 3 (snd (carry smin ideg)) ++ fst (carry smin ideg))%string in
    length body = 8%nat /\
    forall ambiguity log,
      longitude_to_str x ambiguity log
      = Some ((blank_long ambiguity body ++ String (hemisphere "W" "E" x) "")%string,
              log ++ clamp_events "Longitude is less than -180.  Changing to -180.n"
                                  "Longitude is greater than 180.  Changing to 180.n"
                                  d180 x).
Proof.
  intros Hd Hn.
  destruct (longitude_to_str_run x Hd Hn) as (ideg & Hi & Hr & Hs & Hrun).
  exists ideg. split; [exact Hi | ]. cbv zeta in *.
  assert (Hl : length (sprintf_0d 3 (snd (carry (sprintf_0f 5 2
                 (minutes (magnitude (clamp d180 x)) ideg)) ideg))
                       ++ fst (carry (sprintf_0f 5 2
                 (minutes (magnitude (clamp d180 x)) ideg)) ideg)) = 8%nat).
  { apply (digits_length 3 5 2 6000 180 ideg (minutes (magnitude (clamp d180 x)) ideg) _ "-0.00"); try lia; try reflexivity.
    destruct Hs as [[_ E] | E]; [left; exact E | right; exact E]. }
  split; [exact Hl | ].
  intros ambiguity log. rewrite Hrun.
  rewrite <- append_assoc, blank_long_app by lia.
  rewrite (hemisphere_clamp "W" "E" _ _ x : hemisphere "W" "E" (clamp d180 x) = _).
  reflexivity.
Qed.

Section Shape.

Variable G_UNKNOWN : float.

Lemma latitude_to_nmea_body (x : float) :
  is_double x -> is_nan x = false -> feq x G_UNKNOWN = false ->
  exists ideg,
    double_to_int (magnitude (clamp d90 x)) = Some ideg /\
    let smin := sprintf_0f 7 4 (minutes (magnitude (clamp d90 x)) ideg) in
    let body := (sprintf_0d 2 (snd (carry smin ideg)) ++ fst (carry smin ideg))%string in
    length body = 9%nat /\
    forall log,
      latitude_to_nmea G_UNKNOWN x log
      = Some ((body, String (hemisphere "S" "N" x) ""),
              log ++ clamp_events "Latitude is less than -90.  Changing to -90.n"
                                  "Latitude is greater than 90.  Changing to 90.n"
                                  d90 x).
Proof.
  intros Hd Hn Hg.
  destruct (latitude_to_nmea_run G_UNKNOWN x Hd Hn Hg) as (ideg & Hi & Hr & Hs & Hrun).
  exists ideg. split; [exact Hi | ]. cbv zeta in *.
  split.
  { apply (digits_length 2 7 4 600000 90 ideg (minutes (magnitude (clamp d90 x)) ideg) _ "-0.0000"); try lia; try reflexivity.
    destruct Hs as [[_ E] | E]; [left; exact E | right; exact E]. }
  intros log. rewrite Hrun.
  rewrite (hemisphere_clamp "S" "N" _ _ x : hemisphere "S" "N" (clamp d90 x) = _).
  reflexivity.
Qed.

Lemma longitude_to_nmea_body (x : float) :
  is_double x -> is_nan x = false -> feq x G_UNKNOWN = false ->
  exists ideg,
    double_to_int (magnitude (clamp d180 x)) = Some ideg /\
    let smin := sprintf_0f 7 4 (minutes (magnitude (clamp d180 x)) ideg) in
    let body := (sprintf_0d 3 (snd (carry smin ideg)) ++ fst (carry smin ideg))%string in
    length body = 10%nat /\
    forall log,
      longitude_to_nmea G_UNKNOWN x log
      = Some ((body, String (hemisphere "W" "E" x) ""),
              log ++ clamp_events "longitude is less than -180.  Changing to -180.n"
                                  "longitude is greater than 180.  Changing to 180.n"
                                  d180 x).
Proof.
  intros Hd Hn Hg.
  destruct (longitude_to_nmea_run G_UNKNOWN x Hd Hn Hg) as (ideg & Hi & Hr & Hs & Hrun).
  exists ideg. split; [exact Hi | ]. cbv zeta in *.
  split.
  { apply (digits_length 3 7 4 600000 180 ideg (minutes (magnitude (clamp d180 x)) ideg) _ "-0.0000"); try lia; try reflexivity.
    destruct Hs as [[_ E] | E]; [left; exact E | right; exact E]. }
  intros log. rewrite Hrun.
  rewrite (hemisphere_clamp "W" "E" _ _ x : hemisphere "W" "E" (clamp d180 x) = _).
  reflexivity.
Qed.

(** X4. For every double that is not a NaN and every level of ambiguity,
    [latitude_to_str] writes 8 characters and [longitude_to_str] 9; for what
    is not the sentinel, [latitude_to_nmea] writes 9 characters and
    [longitude_to_nmea] 10, each with a hemisphere of one letter. *)
Theorem text_field_widths (x : float) (ambiguity : Z) :
  is_double x -> is_nan x = false ->
  (exists s log, run (latitude_to_str x ambiguity) = Some (s, log) /\ length s = 8%nat) /\
  (exists s log, run (longitude_to_str x ambiguity) = Some (s, log) /\ length s = 9%nat) /\
  (feq x G_UNKNOWN = false ->
   exists s h log, run (latitude_to_nmea G_UNKNOWN x) = Some ((s, h), log) /\
                   length s = 9%nat /\ length h = 1%nat) /\
  (feq x G_UNKNOWN = false ->
   exists s h log, run (longitude_to_nmea G_UNKNOWN x) = Some ((s, h), log) /\
                   length s = 10%nat /\ length h = 1%nat).
Proof.
  intros Hd Hn. split; [ | split; [ | split]].
  - destruct (latitude_to_str_body x Hd Hn) as (ideg & _ & Hl & Hrun).
    eexists _, _. split; [apply Hrun | ].
    rewrite append_length, blank_lat_length, Hl. reflexivity.
  - destruct (longitude_to_str_body x Hd Hn) as (ideg & _ & Hl & Hrun).
    eexists _, _. split; [apply Hrun | ].
    rewrite append_length, blank_long_length, Hl. reflexivity.
  - intros Hg. destruct (latitude_to_nmea_body x Hd Hn Hg) as (ideg & _ & Hl & Hrun).
    eexists _, _, _. split; [apply Hrun | ]. split; [exact Hl | reflexivity].
  - intros Hg. destruct (longitude_to_nmea_body x Hd Hn Hg) as (ideg & _ & Hl & Hrun).
    eexists _, _, _. split; [apply Hrun | ]. split; [exact Hl | reflexivity].
Qed.

(** X5. The hemisphere is the last character of the human-readable text
    and, for an input other than the sentinel, the hemisphere string of the
    NMEA encoders. It is S (W for a longitude) when the input is less than
    zero and N (E) otherwise: for a zero of either sign too, and whether or
    not the input was clamped. *)
Theorem hemisphere_by_sign (x : float) (ambiguity : Z) :
  is_double x -> is_nan x = false ->
  (exists s log, run (latitude_to_str x ambiguity) = Some (s, log) /\
                 String.get 7 s = Some (if flt x d0 then "S" else "N")%char) /\
  (exists s log, run (longitude_to_str x ambiguity) = Some (s, log) /\
                 String.get 8 s = Some (if flt x d0 then "W" else "E")%char) /\
  (feq x G_UNKNOWN = false ->
   exists s log, run (latitude_to_nmea G_UNKNOWN x)
                 = Some ((s, if flt x d0 then "S" else "N")%string, log)) /\
  (feq x G_UNKNOWN = false ->
   exists s log, run (longitude_to_nmea G_UNKNOWN x)
                 = Some ((s, if flt x d0 then "W" else "E")%string, log)).
Proof.
  intros Hd Hn. split; [ | split; [ | split]].
  - destruct (latitude_to_str_body x Hd Hn) as (ideg & _ & Hl & Hrun).
    eexists _, _. split; [apply Hrun | ].
    rewrite <- (blank_lat_length ambiguity) in Hl. rewrite <- Hl at 1.
    rewrite get_app_end. unfold hemisphere. destruct (flt x d0); reflexivity.
  - destruct (longitude_to_str_body x Hd Hn) as (ideg & _ & Hl & Hrun).
    eexists _, _. split; [apply Hrun | ].
    rewrite <- (blank_long_length ambiguity) in Hl. rewrite <- Hl at 1.
    rewrite get_app_end. unfold hemisphere. destruct (flt x d0); reflexivity.
  - intros Hg. destruct (latitude_to_nmea_body x Hd Hn Hg) as (ideg & _ & Hl & Hrun).
    eexists _, _. unfold run. rewrite Hrun. unfold hemisphere.
    destruct (flt x d0); reflexivity.
  - intros Hg. destruct (longitude_to_nmea_body x Hd Hn Hg) as (ideg & _ & Hl & Hrun).
    eexists _, _. unfold run. rewrite Hrun. unfold hemisphere.
    destruct (flt x d0); reflexivity.
Qed.

End Shape.

(** X4 at 49.0583 degrees, with one digit of ambiguity. *)
Lemma text_field_widths_witness :
  let x := strtod_c "49.0583" in
  (is_double x /\ is_nan x = false /\ feq x G_UNKNOWN_dw = false) /\
  (exists s log, run (latitude_to_str x 1) = Some (s, log) /\ length s = 8%nat) /\
  (exists s log, run (longitude_to_str x 1) = Some (s, log) /\ length s = 9%nat) /\
  (exists s h log, run (latitude_to_nmea G_UNKNOWN_dw x) = Some ((s, h), log) /\
                   length s = 9%nat /\ length h = 1%nat) /\
  (exists s h log, run (longitude_to_nmea G_UNKNOWN_dw x) = Some ((s, h), log) /\
                   length s = 10%nat /\ length h = 1%nat).
Proof.
  intros x.
  assert (H : is_double x /\ is_nan x = false /\ feq x G_UNKNOWN_dw = false)
    by (repeat split; vm_compute; reflexivity).
  split; [exact H | ]. destruct H as (H1 & H2 & H3).
  destruct (text_field_widths G_UNKNOWN_dw x 1 H1 H2) as (A & B & C & D).
  split; [exact A | ]. split; [exact B | ]. split; [exact (C H3) | exact (D H3)].
Defined.

(** X5 at -72.03 degrees. *)
Lemma hemisphere_by_sign_witness :
  let x := strtod_c "-72.03" in
  (is_double x /\ is_nan x = false /\ feq x G_UNKNOWN_dw = false) /\
  flt x d0 = true /\
  (exists s log, run (latitude_to_str x 0) = Some (s, log) /\
                 String.get 7 s = Some (if flt x d0 then "S" else "N")%char) /\
  (exists s log, run (longitude_to_str x 0) = Some (s, log) /\
                 String.get 8 s = Some (if flt x d0 then "W" else "E")%char) /\
  (exists s log, run (latitude_to_nmea G_UNKNOWN_dw x)
                 = Some ((s, if flt x d0 then "S" else "N")%string, log)) /\
  (exists s log, run (longitude_to_nmea G_UNKNOWN_dw x)
                 = Some ((s, if flt x d0 then "W" else "E")%string, log)).
Proof.
  intros x.
  assert (H : is_double x /\ is_nan x = false /\ feq x G_UNKNOWN_dw = false)
    by (repeat split; vm_compute; reflexivity).
  split; [exact H | ]. destruct H as (H1 & H2 & H3).
  split; [vm_compute; reflexivity | ].
  destruct (hemisphere_by_sign G_UNKNOWN_dw x 0 H1 H2) as (A & B & C & D).
  split; [exact A | ]. split; [exact B | ]. split; [exact (C H3) | exact (D H3)].
Defined.

(** ** The two hemispheres *)

Lemma flt_fneg (x y : float) : flt (fneg x) (fneg y) = flt y x.
Proof.
  destruct x as [sx | sx | | sx mx ex], y as [sy | sy | | sy my ey];
    try destruct sx; try destruct sy; try reflexivity.
  - unfold flt, SFltb, fneg. cbn.
    rewrite (Z.compare_antisym ey ex).
    destruct (ey ?= ex) eqn:E; cbn; try reflexivity.
    pose proof (Pos.compare_cont_antisym my mx Eq
                : CompOpp (PosDef.Pos.compare_cont Eq my mx)
                  = PosDef.Pos.compare_cont Eq mx my) as H.
    rewrite <- H.
    destruct (PosDef.Pos.compare_cont Eq my mx); reflexivity.
  - unfold flt, SFltb, fneg. cbn.
    rewrite (Z.compare_antisym ey ex).
    destruct (ey ?= ex) eqn:E; cbn; try reflexivity.
    pose proof (Pos.compare_cont_antisym my mx Eq
                : CompOpp (PosDef.Pos.compare_cont Eq my mx)
                  = PosDef.Pos.compare_cont Eq mx my) as H.
    rewrite <- H.
    destruct (PosDef.Pos.compare_cont Eq my mx); reflexivity.
Qed.

Lemma fneg_fneg (x : float) : fneg (fneg x) = x.
Proof. destruct x as [s | s | | s m e]; try destruct s; reflexivity. Qed.

Lemma is_double_fneg (x : float) : is_double x -> is_double (fneg x).
Proof. destruct x; exact (fun H => H). Qed.

Lemma is_nan_fneg (x : float) : is_nan (fneg x) = is_nan x.
Proof. destruct x; reflexivity. Qed.

Lemma clamp_fneg (mc : positive) (ec : Z) (x : float) :
  clamp (S754_finite false mc ec) (fneg x) = fneg (clamp (S754_finite false mc ec) x).
Proof.
  unfold clamp.
  set (lim := S754_finite false mc ec). set (nlim := S754_finite true mc ec).
  change (fneg lim) with nlim. cbv zeta.
  assert (A : flt (fneg x) nlim = flt lim x) by (change nlim with (fneg lim); apply flt_fneg).
  assert (B : flt lim (fneg x) = flt x nlim) by (change lim with (fneg nlim); apply flt_fneg).
  rewrite A. destruct (flt lim x) eqn:H1.
  - pose proof (flt_above_not_below mc ec x H1 : flt x nlim = false) as H2.
    rewrite H2, H1. reflexivity.
  - rewrite B. destruct (flt x nlim) eqn:H2; [reflexivity | ].
    rewrite H1. reflexivity.
Qed.

Lemma magnitude_fneg (y : float) : flt d0 y = true -> magnitude (fneg y) = magnitude y.
Proof. destruct y as [s | s | | s m e]; try destruct s; cbn; congruence. Qed.

Lemma clamp_positive (mc : positive) (ec : Z) (x : float) :
  flt d0 x = true -> flt d0 (clamp (S754_finite false mc ec) x) = true.
Proof.
  intros H. unfold clamp. cbn [fneg SFopp negb].
  replace (flt x (S754_finite true mc ec)) with false
    by (destruct x as [s | s | | s m e]; try destruct s; cbn in *; congruence).
  destruct (flt (S754_finite false mc ec) x); [reflexivity | exact H].
Qed.

Lemma hemisphere_positive (n p : ascii) (x : float) :
  flt d0 x = true -> hemisphere n p x = p /\ hemisphere n p (fneg x) = n.
Proof.
  unfold hemisphere.
  destruct x as [s | s | | s m e]; try destruct s; cbn; try discriminate; auto.
Qed.

Lemma magnitude_clamp_fneg (mc : positive) (ec : Z) (x : float) :
  flt d0 x = true ->
  magnitude (clamp (S754_finite false mc ec) (fneg x))
  = magnitude (clamp (S754_finite false mc ec) x).
Proof.
  intros H. rewrite clamp_fneg. apply magnitude_fneg, clamp_positive, H.
Qed.

Section Mirror.

Variable G_UNKNOWN : float.

(** X6. For a double [x] above zero, the encoders write the same digits
    for [-x] as for [x], with the other hemisphere letter; for the NMEA
    encoders, when neither [x] nor [-x] is the sentinel. *)
Theorem hemisphere_mirror (x : float) (ambiguity : Z) :
  is_double x -> flt d0 x = true ->
  (exists digits log log',
      run (latitude_to_str x ambiguity) = Some ((digits ++ "N")%string, log) /\
      run (latitude_to_str (fneg x) ambiguity) = Some ((digits ++ "S")%string, log')) /\
  (exists digits log log',
      run (longitude_to_str x ambiguity) = Some ((digits ++ "E")%string, log) /\
      run (longitude_to_str (fneg x) ambiguity) = Some ((digits ++ "W")%string, log')) /\
  (feq x G_UNKNOWN = false -> feq (fneg x) G_UNKNOWN = false ->
   exists digits log log',
     run (latitude_to_nmea G_UNKNOWN x) = Some ((digits, "N"%string), log) /\
     run (latitude_to_nmea G_UNKNOWN (fneg x)) = Some ((digits, "S"%string), log')) /\
  (feq x G_UNKNOWN = false -> feq (fneg x) G_UNKNOWN = false ->
   exists digits log log',
     run (longitude_to_nmea G_UNKNOWN x) = Some ((digits, "E"%string), log) /\
     run (longitude_to_nmea G_UNKNOWN (fneg x)) = Some ((digits, "W"%string), log')).
Proof.
  intros Hd Hpos.
  pose proof (flt_above_not_nan _ _ Hpos) as Hn.
  pose proof (is_double_fneg x Hd) as Hd'.
  assert (Hn' : is_nan (fneg x) = false) by (rewrite is_nan_fneg; exact Hn).
  pose proof (magnitude_clamp_fneg _ _ x Hpos
              : magnitude (clamp d90 (fneg x)) = magnitude (clamp d90 x)) as M90.
  pose proof (magnitude_clamp_fneg _ _ x Hpos
              : magnitude (clamp d180 (fneg x)) = magnitude (clamp d180 x)) as M180.
  split; [ | split; [ | split]].
  - destruct (latitude_to_str_body x Hd Hn) as (ideg & Hi & _ & Hrun).
    destruct (latitude_to_str_body (fneg x) Hd' Hn') as (ideg' & Hi' & _ & Hrun').
    rewrite M90 in Hi', Hrun'. rewrite Hi in Hi'. injection Hi' as <-.
    destruct (hemisphere_positive "S" "N" x Hpos) as [E1 E2].
    rewrite E1 in Hrun. rewrite E2 in Hrun'.
    eexists _, _, _. split; [apply Hrun | apply Hrun'].
  - destruct (longitude_to_str_body x Hd Hn) as (ideg & Hi & _ & Hrun).
    destruct (longitude_to_str_body (fneg x) Hd' Hn') as (ideg' & Hi' & _ & Hrun').
    rewrite M180 in Hi', Hrun'. rewrite Hi in Hi'. injection Hi' as <-.
    destruct (hemisphere_positive "W" "E" x Hpos) as [E1 E2].
    rewrite E1 in Hrun. rewrite E2 in Hrun'.
    eexists _, _, _. split; [apply Hrun | apply Hrun'].
  - intros Hg Hg'.
    destruct (latitude_to_nmea_body G_UNKNOWN x Hd Hn Hg) as (ideg & Hi & _ & Hrun).
    destruct (latitude_to_nmea_body G_UNKNOWN (fneg x) Hd' Hn' Hg') as (ideg' & Hi' & _ & Hrun').
    rewrite M90 in Hi', Hrun'. rewrite Hi in Hi'. injection Hi' as <-.
    destruct (hemisphere_positive "S" "N" x Hpos) as [E1 E2].
    rewrite E1 in Hrun. rewrite E2 in Hrun'.
    eexists _, _, _. split; [apply Hrun | apply Hrun'].
  - intros Hg Hg'.
    destruct (longitude_to_nmea_body G_UNKNOWN x Hd Hn Hg) as (ideg & Hi & _ & Hrun).
    destruct (longitude_to_nmea_body G_UNKNOWN (fneg x) Hd' Hn' Hg') as (ideg' & Hi' & _ & Hrun').
    rewrite M180 in Hi', Hrun'. rewrite Hi in Hi'. injection Hi' as <-.
    destruct (hemisphere_positive "W" "E" x Hpos) as [E1 E2].
    rewrite E1 in Hrun. rewrite E2 in Hrun'.
    eexists _, _, _. split; [apply Hrun | apply Hrun'].
Qed.

(** ** Where the encoders are defined *)

(** X7. On a well-formed double, each of the six encoders lacks a defined
    result when the input is a NaN (its conversion to [int] is undefined in
    C), and only then: infinities and values of any size are encoded. *)
Theorem encoders_defined (x : float) :
  is_double x ->
  (forall ambiguity, run (latitude_to_str x ambiguity) = None <-> is_nan x = true) /\
  (forall ambiguity, run (longitude_to_str x ambiguity) = None <-> is_nan x = true) /\
  (run (latitude_to_comp_str x) = None <-> is_nan x = true) /\
  (run (longitude_to_comp_str x) = None <-> is_nan x = true) /\
  (run (latitude_to_nmea G_UNKNOWN x) = None <-> is_nan x = true) /\
  (run (longitude_to_nmea G_UNKNOWN x) = None <-> is_nan x = true).
Proof.
  intros Hd.
  destruct (is_nan x) eqn:Hn.
  - destruct x; try discriminate.
    repeat split; intros; reflexivity.
  - split; [ | split; [ | split; [ | split; [ | split]]]].
    + intros a. destruct (latitude_to_str_run x Hd Hn) as (ideg & _ & _ & _ & Hrun).
      unfold run. rewrite Hrun. split; discriminate.
    + intros a. destruct (longitude_to_str_run x Hd Hn) as (ideg & _ & _ & _ & Hrun).
      unfold run. rewrite Hrun. split; discriminate.
    + destruct (latitude_to_comp_str_run x Hd Hn) as (y & _ & _ & Hrun).
      unfold run. rewrite Hrun. split; discriminate.
    + destruct (longitude_to_comp_str_run x Hd Hn) as (y & _ & _ & Hrun).
      unfold run. rewrite Hrun. split; discriminate.
    + destruct (feq x G_UNKNOWN) eqn:Hg.
      * unfold run, latitude_to_nmea. rewrite Hg. split; discriminate.
      * destruct (latitude_to_nmea_run G_UNKNOWN x Hd Hn Hg) as (ideg & _ & _ & _ & Hrun).
        unfold run. rewrite Hrun. split; discriminate.
    + destruct (feq x G_UNKNOWN) eqn:Hg.
      * unfold run, longitude_to_nmea. rewrite Hg. split; discriminate.
      * destruct (longitude_to_nmea_run G_UNKNOWN x Hd Hn Hg) as (ideg & _ & _ & _ & Hrun).
        unfold run. rewrite Hrun. split; discriminate.
Qed.

End Mirror.

(** ** Levels outside 0..4 *)

(** X8. A level of ambiguity below 0 acts as 0 and one above 4 as 4:
    lines 101-112 and 175-186 test the level with [>=] only. *)
Theorem ambiguity_saturates (x : float) (ambiguity : Z) (log : list event) :
  latitude_to_str x ambiguity log = latitude_to_str x (Z.max 0 (Z.min ambiguity 4)) log /\
  longitude_to_str x ambiguity log = longitude_to_str x (Z.max 0 (Z.min ambiguity 4)) log.
Proof.
  assert (E1 : (1 <=? Z.max 0 (Z.min ambiguity 4)) = (1 <=? ambiguity))
    by (destruct (Z.leb_spec 1 ambiguity); [apply Z.leb_le | apply Z.leb_gt]; lia).
  assert (E2 : (2 <=? Z.max 0 (Z.min ambiguity 4)) = (2 <=? ambiguity))
    by (destruct (Z.leb_spec 2 ambiguity); [apply Z.leb_le | apply Z.leb_gt]; lia).
  assert (E3 : (3 <=? Z.max 0 (Z.min ambiguity 4)) = (3 <=? ambiguity))
    by (destruct (Z.leb_spec 3 ambiguity); [apply Z.leb_le | apply Z.leb_gt]; lia).
  assert (E4 : (4 <=? Z.max 0 (Z.min ambiguity 4)) = (4 <=? ambiguity))
    by (destruct (Z.leb_spec 4 ambiguity); [apply Z.leb_le | apply Z.leb_gt]; lia).
  unfold latitude_to_str, longitude_to_str.
  rewrite E1, E2, E3, E4. split; reflexivity.
Qed.

(** ** Where the decoders are defined *)

Section Decoder_bounds.

Variable G_UNKNOWN : float.
Variable atof : string -> float.

Lemma if_ret_some {A} (b : bool) (m : M unit) (k : M A) (log : list event) :
  (forall l, m l <> None) -> (forall l, k l <> None) ->
  bind (if b then m else ret tt) (fun _ => k) log <> None.
Proof.
  intros Hm Hk. unfold bind. destruct b.
  - specialize (Hm log). destruct (m log) as [[u l] | ]; [apply Hk | congruence].
  - cbn. apply Hk.
Qed.

Lemma warn_some (msg : string) (l : list event) :
  (text_color_set DW_COLOR_ERROR ;;; dw_printf msg) l <> None.
Proof. discriminate. Qed.

(** X9. The decoders test the character before the decimal point's place
    (index 4 of a latitude, 5 of a longitude) only after the first character
    was found a digit. So every read stays within the C string, its
    terminator included, exactly when the first character is not a digit or
    the string has at least 4 (respectively 5) characters; [atof] and the
    hemisphere play no part. *)
Theorem decoders_defined (pstr phemi : string) :
  (run (latitude_from_nmea G_UNKNOWN atof pstr phemi) <> None <->
   isdigit (first_char pstr) = false \/ (4 <= length pstr)%nat) /\
  (run (longitude_from_nmea G_UNKNOWN atof pstr phemi) <> None <->
   isdigit (first_char pstr) = false \/ (5 <= length pstr)%nat).
Proof.
  assert (Hh : forall (A : Type) (k : ascii -> M A) l,
             (forall h l', k h l' <> None) -> bind (char_at phemi 0) k l <> None).
  { intros A k l Hk. unfold bind, char_at, lift. rewrite c_index_0. apply Hk. }
  split.
  - unfold run, latitude_from_nmea.
    destruct pstr as [ | c0 [ | c1 [ | c2 [ | c3 [ | c4 rest]]]]];
      unfold bind at 1; unfold char_at at 1; unfold lift; cbn [c_index String.get first_char];
      cbn [Nat.eqb length].
    + change (isdigit NUL) with false. cbn. split; [auto | discriminate].
    + destruct (isdigit c0); cbn; (split; [intros H | intros [H | H]]);
        try congruence; try lia; auto; discriminate.
    + destruct (isdigit c0); cbn; (split; [intros H | intros [H | H]]);
        try congruence; try lia; auto; discriminate.
    + destruct (isdigit c0); cbn; (split; [intros H | intros [H | H]]);
        try congruence; try lia; auto; discriminate.
    + destruct (isdigit c0); cbn [negb]; [ | cbn; split; [auto | discriminate]].
      split; [intros _; right; lia | intros _].
      cbn. discriminate.
    + destruct (isdigit c0); cbn [negb]; [ | cbn; split; [auto | discriminate]].
      split; [intros _; right; cbn; lia | intros _].
      unfold bind at 1. unfold char_at at 1. unfold lift. cbn [c_index String.get].
      destruct (Ascii.eqb c4 "."); cbn [negb]; [ | discriminate].
      unfold bind at 1. unfold char_at at 1. unfold lift. cbn [c_index String.get].
      apply if_ret_some; [intros; apply warn_some | intros l].
      apply Hh. intros h l'.
      apply if_ret_some; [intros; apply warn_some | discriminate].
  - unfold run, longitude_from_nmea.
    destruct pstr as [ | c0 [ | c1 [ | c2 [ | c3 [ | c4 [ | c5 rest]]]]]];
      unfold bind at 1; unfold char_at at 1; unfold lift; cbn [c_index String.get first_char];
      cbn [Nat.eqb length].
    + change (isdigit NUL) with false. cbn. split; [auto | discriminate].
    + destruct (isdigit c0); cbn; (split; [intros H | intros [H | H]]);
        try congruence; try lia; auto; discriminate.
    + destruct (isdigit c0); cbn; (split; [intros H | intros [H | H]]);
        try congruence; try lia; auto; discriminate.
    + destruct (isdigit c0); cbn; (split; [intros H | intros [H | H]]);
        try congruence; try lia; auto; discriminate.
    + destruct (isdigit c0); cbn; (split; [intros H | intros [H | H]]);
        try congruence; try lia; auto; discriminate.
    + destruct (isdigit c0); cbn [negb]; [ | cbn; split; [auto | discriminate]].
      split; [intros _; right; lia | intros _].
      cbn. discriminate.
    + destruct (isdigit c0); cbn [negb]; [ | cbn; split; [auto | discriminate]].
      split; [intros _; right; cbn; lia | intros _].
      unfold bind at 1. unfold char_at at 1. unfold lift. cbn [c_index String.get].
      destruct (Ascii.eqb c5 "."); cbn [negb]; [ | discriminate].
      unfold bind at 1. unfold char_at at 1. unfold lift. cbn [c_index String.get].
      unfold bind at 1. unfold char_at at 1. unfold lift. cbn [c_index String.get].
      apply if_ret_some; [intros; apply warn_some | intros l].
      apply Hh. intros h l'.
      apply if_ret_some; [intros; apply warn_some | discriminate].
Qed.

End Decoder_bounds.

(** X6 at 49.0583 degrees. *)
Lemma hemisphere_mirror_witness :
  let x := strtod_c "49.0583" in
  (is_double x /\ flt d0 x = true /\ feq x G_UNKNOWN_dw = false /\
   feq (fneg x) G_UNKNOWN_dw = false) /\
  (exists digits log log',
      run (latitude_to_str x 0) = Some ((digits ++ "N")%string, log) /\
      run (latitude_to_str (fneg x) 0) = Some ((digits ++ "S")%string, log')) /\
  (exists digits log log',
      run (longitude_to_str x 0) = Some ((digits ++ "E")%string, log) /\
      run (longitude_to_str (fneg x) 0) = Some ((digits ++ "W")%string, log')) /\
  (exists digits log log',
     run (latitude_to_nmea G_UNKNOWN_dw x) = Some ((digits, "N"%string), log) /\
     run (latitude_to_nmea G_UNKNOWN_dw (fneg x)) = Some ((digits, "S"%string), log')) /\
  (exists digits log log',
     run (longitude_to_nmea G_UNKNOWN_dw x) = Some ((digits, "E"%string), log) /\
     run (longitude_to_nmea G_UNKNOWN_dw (fneg x)) = Some ((digits, "W"%string), log')).
Proof.
  intros x.
  assert (H : is_double x /\ flt d0 x = true /\ feq x G_UNKNOWN_dw = false /\
              feq (fneg x) G_UNKNOWN_dw = false)
    by (repeat split; vm_compute; reflexivity).
  split; [exact H | ]. destruct H as (H1 & H2 & H3 & H4).
  destruct (hemisphere_mirror G_UNKNOWN_dw x 0 H1 H2) as (A & B & C & D).
  split; [exact A | ]. split; [exact B | ]. split; [exact (C H3 H4) | exact (D H3 H4)].
Defined.

(** X7 at a NaN and at 49.0583 degrees. *)
Lemma encoders_defined_witness :
  (is_double S754_nan /\ run (latitude_to_comp_str S754_nan) = None) /\
  (is_double (strtod_c "49.0583") /\
   run (longitude_to_nmea G_UNKNOWN_dw (strtod_c "49.0583")) <> None).
Proof.
  split.
  - assert (H : is_double S754_nan) by reflexivity.
    split; [exact H | ].
    exact (proj2 (proj1 (proj2 (proj2 (encoders_defined G_UNKNOWN_dw S754_nan H)))) eq_refl).
  - assert (H : is_double (strtod_c "49.0583")) by (vm_compute; reflexivity).
    split; [exact H | ]. intros E.
    pose proof (proj1 (proj2 (proj2 (proj2 (proj2 (proj2
                  (encoders_defined G_UNKNOWN_dw (strtod_c "49.0583") H)))))) E) as N.
    vm_compute in N. discriminate N.
Defined.

(** * Accuracy

    The error of one rounding, from the enclosure of the exact value by two
    neighbours on a grid of the format. *)

Lemma one_pos : 0 < one.
Proof. apply Zv_pos; lia. Qed.

Lemma Zv_one (N : Z) : Zv N 0 = N * one.
Proof. apply Zv_int. Qed.

Lemma Zv_nonneg (m e : Z) : 0 <= m -> 0 <= Zv m e.
Proof. intros H. unfold Zv. apply Z.mul_nonneg_nonneg; [lia | apply Z.pow_nonneg; lia]. Qed.

(** Two neighbours of [V] on the grid of step [2^g]. *)
Lemma grid_enclosure (V g : Z) :
  -1074 <= g <= 900 -> 0 <= V < Zv 1 (g + 52) ->
  exists ML MH,
    repr ML g /\ repr MH g /\ Zv MH g < Zv 1 972 /\
    Zv ML g <= V <= Zv MH g /\ Zv MH g - Zv ML g <= Zv 1 g.
Proof.
  intros Hg [HV0 HV].
  set (P := 2 ^ (g + 2148)).
  assert (HP : 0 < P) by (apply pow2_pos; lia).
  assert (HV' : V < 2 ^ 52 * P).
  { unfold Zv in HV. rewrite Z.mul_1_l in HV.
    replace (g + 52 + 2148) with (52 + (g + 2148)) in HV by lia.
    rewrite Z.pow_add_r in HV by lia. exact HV. }
  assert (Hdm : V = P * (V / P) + V mod P) by (apply Z.div_mod; lia).
  assert (Hmb : 0 <= V mod P < P) by (apply Z.mod_pos_bound; lia).
  assert (Hq0 : 0 <= V / P) by (apply Z.div_pos; lia).
  assert (Hq1 : V / P < 2 ^ 52) by (apply Z.div_lt_upper_bound; lia).
  assert (H53 : 2 ^ 52 < 2 ^ 53) by (apply pow2_lt; lia).
  exists (V / P), (V / P + 1).
  split; [unfold repr; lia | ]. split; [unfold repr; lia | ].
  split.
  { apply Z.le_lt_trans with (Zv (2 ^ 52) g); [apply Zv_le_mono; lia | ].
    replace (Zv (2 ^ 52) g) with (Zv 1 (g + 52))
      by (rewrite Zv_shift by lia; f_equal; lia).
    assert (Zv 1 (g + 52) <= Zv 1 971) by (apply Zv_pow_le; lia).
    assert (Zv 1 971 < Zv 1 972).
    { replace 972 with (971 + 1) by lia. rewrite (Zv_shift 1 971 1) by lia.
      apply Zv_lt_mono; lia. }
    lia. }
  rewrite Zv_add. unfold Zv. fold P. split; [nia | lia].
Qed.

Lemma mag_in_fval (L H : Z) (x : float) :
  mag_in false L H x -> 0 <= H -> L <= fval x <= H.
Proof.
  destruct x as [s | s | | s m e]; cbn [mag_in fval]; try tauto.
  intros (-> & _ & Hv) _. cbn [cond_Zopp]. exact Hv.
Qed.

Lemma pos_le_fval (H : Z) (x : float) : pos_le H x -> 0 <= H -> 0 <= fval x <= H.
Proof.
  destruct x as [s | s | | s m e]; cbn [pos_le fval]; try tauto.
  - lia.
  - destruct s; [tauto | ]. intros [He Hv] _. cbn [cond_Zopp].
    pose proof (Zv_pos (Zpos m) e ltac:(lia) ltac:(lia)). lia.
Qed.

(** The product of two positive doubles, [V] being its exact value. *)
Lemma fmul_error (m : positive) (e : Z) (mc : positive) (ec V g : Z) :
  -1074 <= e -> -1074 <= ec -> -1074 <= g <= 900 ->
  V * one = Zv (Zpos m) e * Zv (Zpos mc) ec ->
  V < Zv 1 (g + 52) ->
  let r := fmul (S754_finite false m e) (S754_finite false mc ec) in
  pos_le (V + Zv 1 g) r /\ Z.abs (fval r - V) <= Zv 1 g.
Proof.
  intros He Hec Hg HV Hlt r.
  pose proof one_pos as H1.
  assert (HV0 : 0 <= V).
  { pose proof (Zv_pos (Zpos m) e ltac:(lia) ltac:(lia)).
    pose proof (Zv_pos (Zpos mc) ec ltac:(lia) ltac:(lia)). nia. }
  destruct (grid_enclosure V g Hg (conj HV0 Hlt)) as (ML & MH & HL & HH & Hs & [Hb1 Hb2] & Hd).
  assert (Hm : mag_in (xorb false false) (Zv ML g) (Zv MH g) r).
  { apply fmul_finite_bounds; try assumption.
    rewrite <- HV. fold one. split; apply Z.mul_le_mono_nonneg_r; lia. }
  cbn [xorb] in Hm.
  assert (0 <= Zv MH g) by (apply Zv_nonneg; destruct HH; lia).
  pose proof (mag_in_fval _ _ _ Hm ltac:(lia)) as Hf.
  split; [ | lia].
  apply mag_in_pos_le in Hm.
  destruct r as [s' | s' | | s' m' e']; cbn [pos_le] in *; try tauto.
  destruct s'; [tauto | ]. split; lia.
Qed.

(** The decimal conversion of printf is within half a unit of the last
    place. *)
Lemma round_decimal_error (p : Z) (m : positive) (e : Z) :
  0 <= p -> -1074 <= e ->
  2 * Z.abs (round_decimal p m e * one - 10 ^ p * Zv (Zpos m) e) <= one.
Proof.
  intros Hp He. unfold round_decimal, one.
  assert (H10 : 0 < 10 ^ p) by (apply Z.pow_pos_nonneg; lia).
  pose proof one_pos as H1. unfold one in H1.
  destruct (Z.leb_spec 0 e) as [Hpos | Hneg].
  - replace (Zv (Zpos m) e) with (Zv (Zpos m * 2 ^ e) 0)
      by (rewrite <- Zv_shift by lia; f_equal; lia).
    rewrite (Zv_int (Zpos m * 2 ^ e)).
    replace (Zpos m * 2 ^ e * 10 ^ p * Zv 1 0 - 10 ^ p * (Zpos m * 2 ^ e * Zv 1 0)) with 0
      by ring.
    cbn [Z.abs]. lia.
  - set (k := - e). assert (Hk : 0 < 2 ^ k) by (apply pow2_pos; lia).
    set (U := 2 ^ (e + 2148)).
    assert (HU : 0 < U) by (apply pow2_pos; lia).
    assert (Hone : Zv 1 0 = 2 ^ k * U).
    { unfold Zv, U, k. rewrite Z.mul_1_l, <- Z.pow_add_r by lia. f_equal. lia. }
    assert (Hz : Zv (Zpos m) e = Zpos m * U) by reflexivity.
    rewrite Hone, Hz.
    set (num := Zpos m * 10 ^ p).
    assert (Hdm : num = 2 ^ k * (num / 2 ^ k) + num mod 2 ^ k) by (apply Z.div_mod; lia).
    assert (Hmb : 0 <= num mod 2 ^ k < 2 ^ k) by (apply Z.mod_pos_bound; lia).
    set (q := num / 2 ^ k) in *. set (r := num mod 2 ^ k) in *.
    assert (Hd : forall n, n * (2 ^ k * U) - 10 ^ p * (Zpos m * U) = (n * 2 ^ k - num) * U)
      by (intros n; unfold num; ring).
    assert (Hab : forall d, 2 * Z.abs d <= 2 ^ k -> 2 * Z.abs (d * U) <= 2 ^ k * U).
    { intros d Hd'. rewrite Z.abs_mul, (Z.abs_eq U) by lia. nia. }
    destruct (Z.compare_spec (2 * r) (2 ^ k)) as [E | E | E].
    + destruct (Z.even q); rewrite Hd; apply Hab; lia.
    + rewrite Hd; apply Hab; lia.
    + rewrite Hd; apply Hab; lia.
Qed.

Lemma printed_scaled_error (p : nat) (H : Z) (x : float) :
  pos_le H x -> 2 * Z.abs (printed_scaled p x * one - 10 ^ Z.of_nat p * fval x) <= one.
Proof.
  pose proof one_pos.
  destruct x as [s | s | | s m e]; cbn [pos_le printed_scaled fval]; try tauto.
  - intros _. rewrite Z.mul_0_r. cbn. lia.
  - destruct s; [tauto | ]. intros [He _]. cbn [cond_Zopp].
    apply round_decimal_error; lia.
Qed.

(** ** The degrees and the minutes *)

Lemma is_double_clamp (lim x : float) :
  is_double lim -> is_double x -> is_double (clamp lim x).
Proof.
  intros Hl Hx. unfold clamp.
  destruct (flt x (fneg lim)).
  - destruct (flt lim (fneg lim)); [exact Hl | apply is_double_fneg, Hl].
  - destruct (flt lim x); assumption.
Qed.

Lemma is_double_magnitude (x : float) : is_double x -> is_double (magnitude x).
Proof. intros H. unfold magnitude. destruct (flt x d0); [apply is_double_fneg, H | exact H]. Qed.

Lemma double_to_int_finite (m : positive) (e ideg : Z) :
  double_to_int (S754_finite false m e) = Some ideg -> ideg = Z.shiftl (Zpos m) e.
Proof.
  unfold double_to_int. cbn [ftrunc cond_Zopp].
  destruct ((INT_MIN <=? Z.shiftl (Zpos m) e) && (Z.shiftl (Zpos m) e <=? INT_MAX));
    congruence.
Qed.

(** Line 90: the subtraction of the whole degrees is exact. *)
Lemma fsub_trunc_exact (N : Z) (a : float) (ideg : Z) :
  0 <= N < 2 ^ 31 - 1 -> is_double a -> pos_le (Zv N 0) a ->
  double_to_int a = Some ideg ->
  fval (fsub a (int_to_double ideg)) = fval a - ideg * one.
Proof.
  intros HN Hd Ha Hi.
  destruct a as [s | s | | s m e]; cbn [pos_le] in Ha; try contradiction.
  - cbn in Hi. injection Hi as <-. destruct s; reflexivity.
  - destruct s; [contradiction | ]. destruct Ha as [He Hv].
    apply double_to_int_finite in Hi.
    destruct (ftrunc_bounds m e He) as (Hn0 & Hn1 & Hn2).
    rewrite <- Hi in Hn0, Hn1, Hn2. cbv zeta in Hn0.
    destruct (bounded_inv m e Hd) as [Hm _].
    cbn [fval cond_Zopp]. rewrite <- Zv_one.
    assert (Hn : ideg <= N).
    { apply Z.lt_succ_r. apply (Zv_lt_cancel ideg (Z.succ N) 0); [lia | ].
      assert (Zv (N + 1) 0 = Zv N 0 + Zv 1 0) by apply Zv_add.
      pose proof (Zv_pos 1 0 ltac:(lia) ltac:(lia)).
      replace (Z.succ N) with (N + 1) by lia. lia. }
    destruct (Z.eq_dec ideg 0) as [Hz | Hnz].
    { rewrite Hz. change (int_to_double 0) with (S754_zero false).
      cbn [fsub SFsub fval cond_Zopp]. unfold Zv at 3. lia. }
    destruct (int_to_double_exact ideg) as (mi & ei & Hid & Hei & Hvi).
    { split; [lia | ]. assert (2 ^ 31 < 2 ^ 53) by (apply pow2_lt; lia). lia. }
    rewrite Hid.
    (* the exact difference is a double *)
    assert (Hex : exists M E, repr M E /\ Zv M E = Zv (Zpos m) e - Zv ideg 0).
    { destruct (Z.le_gt_cases 0 e) as [Hpos | Hneg].
      - exists 0, 0. split; [unfold repr; lia | ].
        replace (Zv (Zpos m) e) with (Zv (Zpos m * 2 ^ e) 0) in *
          by (rewrite <- Zv_shift by lia; f_equal; lia).
        assert (ideg <= Zpos m * 2 ^ e) by (apply (Zv_le_cancel _ _ 0); lia).
        assert (Zpos m * 2 ^ e < ideg + 1) by (apply (Zv_lt_cancel _ _ 0); lia).
        replace (Zpos m * 2 ^ e) with ideg by lia. unfold Zv at 1. lia.
      - set (k := - e). assert (Hk : 0 < 2 ^ k) by (apply pow2_pos; lia).
        assert (Hc : Zv ideg 0 = Zv (ideg * 2 ^ k) e).
        { replace 0 with (e + k) at 1 by (unfold k; lia). apply Zv_shift; lia. }
        exists (Zpos m - ideg * 2 ^ k), e.
        rewrite Zv_sub, <- Hc. split; [ | reflexivity].
        rewrite Hc in Hn1. apply Zv_le_cancel in Hn1; [ | lia].
        unfold repr. nia. }
    destruct Hex as (M & E & Hr & HV).
    assert (Hs : Zv M E < Zv 1 972).
    { rewrite HV.
      assert (Zv N 0 < Zv 1 972).
      { apply Zv_repr_small. assert (2 ^ 31 < 2 ^ 53) by (apply pow2_lt; lia). lia. }
      pose proof (Zv_nonneg ideg 0 Hn0). lia. }
    assert (Hmag : mag_in false (Zv M E) (Zv M E)
                          (fsub (S754_finite false m e) (S754_finite false mi ei))).
    { apply fsub_finite_bounds; try assumption.
      cbn [cond_Zopp]. rewrite Hvi. lia. }
    assert (0 <= Zv M E) by (apply Zv_nonneg; destruct Hr; lia).
    pose proof (mag_in_fval _ _ _ Hmag ltac:(lia)) as Hf. lia.
Qed.

(** Line 90: the product by 60 is within one step of a grid of 2^-46. *)
Lemma minutes_error (a : float) (ideg : Z) :
  pos_le (Zv 1 0) (fsub a (int_to_double ideg)) ->
  Z.abs (fval (minutes a ideg) - 60 * fval (fsub a (int_to_double ideg))) <= Zv 1 (-46).
Proof.
  unfold minutes.
  assert (Hg : 0 <= Zv 1 (-46)) by (apply Zv_nonneg; lia).
  destruct (fsub a (int_to_double ideg)) as [s | s | | s m e]; cbn [pos_le]; try contradiction.
  - intros _. rewrite d60_Zv. destruct s; cbn [fmul SFmul fval]; cbn; lia.
  - destruct s; [contradiction | ]. intros [He Hv].
    rewrite d60_Zv.
    assert (Hc : Zv (Zpos (Z.to_pos (60 * 2 ^ 47))) (-47) = 60 * one)
      by (rewrite Zv_to_pos_const by lia; apply Zv_one).
    pose proof one_pos as H1.
    assert (H64 : Zv 1 (-46 + 52) = 64 * one).
    { change (-46 + 52) with (0 + 6). rewrite Zv_shift by lia. rewrite Zv_one. reflexivity. }
    destruct (fmul_error m e (Z.to_pos (60 * 2 ^ 47)) (-47) (60 * Zv (Zpos m) e) (-46))
      as [_ Herr]; try lia.
    + rewrite H64. fold one in Hv. lia.
    + cbn [fval cond_Zopp]. exact Herr.
Qed.

Lemma printed_scaled_bounds (p : nat) (H : Z) (x : float) :
  0 <= H -> pos_le (Zv H 0) x -> 0 <= printed_scaled p x <= H * 10 ^ Z.of_nat p.
Proof.
  intros H0 Hx.
  assert (H10 : 0 < 10 ^ Z.of_nat p) by (apply Z.pow_pos_nonneg; lia).
  destruct x as [s | s | | s m e]; cbn [pos_le printed_scaled] in *; try contradiction.
  - nia.
  - destruct s; [contradiction | ]. destruct Hx as [He Hv].
    apply round_decimal_bounds; [lia | exact He | exact Hv].
Qed.

(** The degrees and the rounded minutes against the magnitude [a], counted
    in units of [10^-p] minutes. *)
Lemma minutes_field_error (N : Z) (p : nat) (a : float) (ideg : Z) :
  0 <= N < 2 ^ 31 - 1 -> is_double a -> pos_le (Zv N 0) a ->
  double_to_int a = Some ideg ->
  let qs := printed_scaled p (minutes a ideg) in
  let S := 60 * 10 ^ Z.of_nat p in
  0 <= ideg /\ 0 <= qs <= S /\ S * ideg + qs <= S * N /\
  2 * Z.abs ((S * ideg + qs) * one - S * fval a) <= one + 2 * 10 ^ Z.of_nat p * Zv 1 (-46).
Proof.
  intros HN Hd Ha Hi qs S.
  assert (H10 : 0 < 10 ^ Z.of_nat p) by (apply Z.pow_pos_nonneg; lia).
  pose proof one_pos as H1.
  destruct (degrees_fraction N a HN Ha) as (ideg' & Hi' & Hr & Hf & _).
  rewrite Hi in Hi'. injection Hi' as <-.
  pose proof (fsub_trunc_exact N a ideg HN Hd Ha Hi) as HF.
  destruct (minutes_pos_le a ideg Hf) as [Hm _].
  pose proof (printed_scaled_error p _ _ Hm) as E1. fold qs in E1.
  pose proof (minutes_error a ideg Hf) as E2.
  pose proof (printed_scaled_bounds p 60 _ ltac:(lia) Hm) as Hq. fold qs in Hq.
  split; [lia | ]. split; [unfold S; lia | ]. split.
  - destruct (Z.eq_dec ideg N) as [E | E]; [ | unfold S in *; nia].
    (* at the limit the fraction is zero *)
    pose proof (pos_le_fval _ _ Ha ltac:(apply Zv_nonneg; lia)) as Hav.
    pose proof (pos_le_fval _ _ Hf ltac:(apply Zv_nonneg; lia)) as Hfv.
    rewrite Zv_one in Hav.
    assert (Hz : fval (fsub a (int_to_double ideg)) = 0) by nia.
    assert (Hq0 : qs = 0).
    { unfold qs, minutes.
      destruct (fsub a (int_to_double ideg)) as [s | s | | s m e]; cbn [pos_le] in Hf;
        try contradiction.
      - rewrite d60_Zv. destruct s; reflexivity.
      - destruct s; [contradiction | ]. cbn [fval cond_Zopp] in Hz.
        pose proof (Zv_pos (Zpos m) e ltac:(lia) ltac:(lia)). lia. }
    rewrite Hq0, E. lia.
  - set (T := 10 ^ Z.of_nat p) in *.
    set (Mv := fval (minutes a ideg)) in *.
    set (F := fval (fsub a (int_to_double ideg))) in *.
    replace ((S * ideg + qs) * one - S * fval a)
      with ((qs * one - T * Mv) + T * (Mv - 60 * F)) by (unfold S; rewrite HF; ring).
    pose proof (Z.abs_triangle (qs * one - T * Mv) (T * (Mv - 60 * F))) as Htri.
    rewrite (Z.abs_mul T), (Z.abs_eq T) in Htri by lia.
    assert (T * Z.abs (Mv - 60 * F) <= T * Zv 1 (-46)) by (apply Z.mul_le_mono_nonneg_l; lia).
    lia.
Qed.

(** ** The text against the coordinate *)

Lemma carry_value_5_2 (qs ideg : Z) :
  0 <= qs <= 6000 ->
  exists D q, carry (render 5 2 qs) ideg = (render 5 2 q, D) /\
              0 <= q < 6000 /\ 6000 * D + q = 6000 * ideg + qs /\ ideg <= D <= ideg + 1.
Proof.
  intros H. rewrite carry_render_5_2 by exact H.
  destruct (Z.eqb_spec qs 6000) as [E | E].
  - exists (ideg + 1), 0. split; [reflexivity | lia].
  - exists ideg, qs. split; [reflexivity | lia].
Qed.

Lemma carry_value_7_4 (qs ideg : Z) :
  0 <= qs <= 600000 ->
  exists D q, carry (render 7 4 qs) ideg = (render 7 4 q, D) /\
              0 <= q < 600000 /\ 600000 * D + q = 600000 * ideg + qs /\
              ideg <= D <= ideg + 1.
Proof.
  intros H. rewrite carry_render_7_4 by exact H.
  destruct (Z.eqb_spec qs 600000) as [E | E].
  - exists (ideg + 1), 0. split; [reflexivity | lia].
  - exists ideg, qs. split; [reflexivity | lia].
Qed.

Lemma magnitude_clamp_d90 (x : float) :
  is_double x -> is_nan x = false ->
  is_double (magnitude (clamp d90 x)) /\ pos_le (Zv 90 0) (magnitude (clamp d90 x)).
Proof.
  intros Hd Hn. split.
  - apply is_double_magnitude, is_double_clamp; [reflexivity | exact Hd].
  - apply magnitude_pos_le, d90_abs_le; assumption.
Qed.

Lemma magnitude_clamp_d180 (x : float) :
  is_double x -> is_nan x = false ->
  is_double (magnitude (clamp d180 x)) /\ pos_le (Zv 180 0) (magnitude (clamp d180 x)).
Proof.
  intros Hd Hn. split.
  - apply is_double_magnitude, is_double_clamp; [reflexivity | exact Hd].
  - apply magnitude_pos_le, d180_abs_le; assumption.
Qed.

Lemma grid_38 : 2 * 10 ^ Z.of_nat 2 * Zv 1 (-46) <= Zv 1 (-38).
Proof.
  replace (-38) with (-46 + 8) by lia. rewrite Zv_shift by lia.
  change (2 * 10 ^ Z.of_nat 2) with 200. change (1 * 2 ^ 8) with 256.
  unfold Zv. assert (0 < 2 ^ (-46 + 2148)) by (apply pow2_pos; lia). lia.
Qed.

Lemma grid_31 : 2 * 10 ^ Z.of_nat 4 * Zv 1 (-46) <= Zv 1 (-31).
Proof.
  replace (-31) with (-46 + 15) by lia. rewrite Zv_shift by lia.
  change (2 * 10 ^ Z.of_nat 4) with 20000. change (1 * 2 ^ 15) with 32768.
  unfold Zv. assert (0 < 2 ^ (-46 + 2148)) by (apply pow2_pos; lia). lia.
Qed.

(** The digits that the human-readable encoders write at level 0, as
    numbers. *)
Lemma latitude_to_str_value (x : float) :
  is_double x -> is_nan x = false -> neg_zero x = false ->
  exists D q,
    0 <= D /\ 0 <= q < 6000 /\ 6000 * D + q <= 6000 * 90 /\
    2 * Z.abs ((6000 * D + q) * one - 6000 * fval (magnitude (clamp d90 x)))
    <= one + Zv 1 (-38) /\
    forall log,
      latitude_to_str x 0 log
      = Some ((fixed_width 2 D ++ render 5 2 q
               ++ String (hemisphere "S" "N" (clamp d90 x)) "")%string,
              log ++ clamp_events "Latitude is less than -90.  Changing to -90.n"
                                  "Latitude is greater than 90.  Changing to 90.n"
                                  d90 x).
Proof.
  intros Hd Hn Hz. pose proof grid_38 as G.
  destruct (latitude_to_str_run x Hd Hn) as (ideg & Hi & Hr & Hs & Hrun).
  destruct (magnitude_clamp_d90 x Hd Hn) as [Ha Hp].
  destruct (minutes_field_error 90 2 _ ideg ltac:(lia) Ha Hp Hi) as (H0 & Hq & Hcap & Herr).
  cbv zeta in Hs, Hrun, Hq, Hcap, Herr.
  destruct Hs as [[C _] | [_ Hsm]]; [congruence | ].
  rewrite Hsm in Hrun.
  change (60 * 10 ^ Z.of_nat 2) with 6000 in *.
  destruct (carry_value_5_2 _ ideg Hq) as (D & q & Hc & Hq' & Hv & HD).
  rewrite Hc in Hrun. cbn [fst snd] in Hrun.
  exists D, q. rewrite Hv.
  split; [lia | ]. split; [lia | ]. split; [lia | ]. split; [lia | ].
  intros log. rewrite Hrun, blank_lat_0.
  rewrite sprintf_0d_fixed_width by (cbn; lia). reflexivity.
Qed.

Lemma longitude_to_str_value (x : float) :
  is_double x -> is_nan x = false -> neg_zero x = false ->
  exists D q,
    0 <= D /\ 0 <= q < 6000 /\ 6000 * D + q <= 6000 * 180 /\
    2 * Z.abs ((6000 * D + q) * one - 6000 * fval (magnitude (clamp d180 x)))
    <= one + Zv 1 (-38) /\
    forall log,
      longitude_to_str x 0 log
      = Some ((fixed_width 3 D ++ render 5 2 q
               ++ String (hemisphere "W" "E" (clamp d180 x)) "")%string,
              log ++ clamp_events "Longitude is less than -180.  Changing to -180.n"
                                  "Longitude is greater than 180.  Changing to 180.n"
                                  d180 x).
Proof.
  intros Hd Hn Hz. pose proof grid_38 as G.
  destruct (longitude_to_str_run x Hd Hn) as (ideg & Hi & Hr & Hs & Hrun).
  destruct (magnitude_clamp_d180 x Hd Hn) as [Ha Hp].
  destruct (minutes_field_error 180 2 _ ideg ltac:(lia) Ha Hp Hi) as (H0 & Hq & Hcap & Herr).
  cbv zeta in Hs, Hrun, Hq, Hcap, Herr.
  destruct Hs as [[C _] | [_ Hsm]]; [congruence | ].
  rewrite Hsm in Hrun.
  change (60 * 10 ^ Z.of_nat 2) with 6000 in *.
  destruct (carry_value_5_2 _ ideg Hq) as (D & q & Hc & Hq' & Hv & HD).
  rewrite Hc in Hrun. cbn [fst snd] in Hrun.
  exists D, q. rewrite Hv.
  split; [lia | ]. split; [lia | ]. split; [lia | ]. split; [lia | ].
  intros log. rewrite Hrun, blank_long_0.
  rewrite sprintf_0d_fixed_width by (cbn; lia). reflexivity.
Qed.

(** X10. At level 0 and for a double that is neither a NaN nor the negative
    zero, [latitude_to_str] writes the degrees [D] on two digits (three for
    [longitude_to_str]), the minutes [q], counted in hundredths, as mm.mm,
    and the hemisphere. The minutes are below 60, the position written is at
    most the limit, and it differs from the magnitude of the clamped input
    by at most (1 + 2^-38) / 2 hundredths of a minute: half a unit of the
    last digit, and a little for the roundings of the arithmetic on
    doubles. *)
Theorem text_accuracy (x : float) :
  is_double x -> is_nan x = false -> neg_zero x = false ->
  (exists D q h log,
      run (latitude_to_str x 0)
      = Some ((fixed_width 2 D ++ render 5 2 q ++ String h "")%string, log) /\
      0 <= D /\ 0 <= q < 6000 /\ 6000 * D + q <= 6000 * 90 /\
      2 * Z.abs ((6000 * D + q) * one - 6000 * fval (magnitude (clamp d90 x)))
      <= one + Zv 1 (-38)) /\
  (exists D q h log,
      run (longitude_to_str x 0)
      = Some ((fixed_width 3 D ++ render 5 2 q ++ String h "")%string, log) /\
      0 <= D /\ 0 <= q < 6000 /\ 6000 * D + q <= 6000 * 180 /\
      2 * Z.abs ((6000 * D + q) * one - 6000 * fval (magnitude (clamp d180 x)))
      <= one + Zv 1 (-38)).
Proof.
  intros Hd Hn Hz. split.
  - destruct (latitude_to_str_value x Hd Hn Hz) as (D & q & H0 & Hq & Hcap & Herr & Hrun).
    eexists D, q, _, _. split; [apply Hrun | auto].
  - destruct (longitude_to_str_value x Hd Hn Hz) as (D & q & H0 & Hq & Hcap & Herr & Hrun).
    eexists D, q, _, _. split; [apply Hrun | auto].
Qed.

Section NMEA_accuracy.

Variable G_UNKNOWN : float.

(** The digits that the NMEA encoders write, as numbers. *)
Lemma latitude_to_nmea_value (x : float) :
  is_double x -> is_nan x = false -> neg_zero x = false -> feq x G_UNKNOWN = false ->
  exists D q,
    0 <= D /\ 0 <= q < 600000 /\ 600000 * D + q <= 600000 * 90 /\
    2 * Z.abs ((600000 * D + q) * one - 600000 * fval (magnitude (clamp d90 x)))
    <= one + Zv 1 (-31) /\
    forall log,
      latitude_to_nmea G_UNKNOWN x log
      = Some (((fixed_width 2 D ++ render 7 4 q)%string,
               String (hemisphere "S" "N" (clamp d90 x)) ""),
              log ++ clamp_events "Latitude is less than -90.  Changing to -90.n"
                                  "Latitude is greater than 90.  Changing to 90.n"
                                  d90 x).
Proof.
  intros Hd Hn Hz Hg. pose proof grid_31 as G.
  destruct (latitude_to_nmea_run G_UNKNOWN x Hd Hn Hg) as (ideg & Hi & Hr & Hs & Hrun).
  destruct (magnitude_clamp_d90 x Hd Hn) as [Ha Hp].
  destruct (minutes_field_error 90 4 _ ideg ltac:(lia) Ha Hp Hi) as (H0 & Hq & Hcap & Herr).
  cbv zeta in Hs, Hrun, Hq, Hcap, Herr.
  destruct Hs as [[C _] | [_ Hsm]]; [congruence | ].
  rewrite Hsm in Hrun.
  change (60 * 10 ^ Z.of_nat 4) with 600000 in *.
  destruct (carry_value_7_4 _ ideg Hq) as (D & q & Hc & Hq' & Hv & HD).
  rewrite Hc in Hrun. cbn [fst snd] in Hrun.
  exists D, q. rewrite Hv.
  split; [lia | ]. split; [lia | ]. split; [lia | ]. split; [lia | ].
  intros log. rewrite Hrun.
  rewrite sprintf_0d_fixed_width by (cbn; lia). reflexivity.
Qed.

Lemma longitude_to_nmea_value (x : float) :
  is_double x -> is_nan x = false -> neg_zero x = false -> feq x G_UNKNOWN = false ->
  exists D q,
    0 <= D /\ 0 <= q < 600000 /\ 600000 * D + q <= 600000 * 180 /\
    2 * Z.abs ((600000 * D + q) * one - 600000 * fval (magnitude (clamp d180 x)))
    <= one + Zv 1 (-31) /\
    forall log,
      longitude_to_nmea G_UNKNOWN x log
      = Some (((fixed_width 3 D ++ render 7 4 q)%string,
               String (hemisphere "W" "E" (clamp d180 x)) ""),
              log ++ clamp_events "longitude is less than -180.  Changing to -180.n"
                                  "longitude is greater than 180.  Changing to 180.n"
                                  d180 x).
Proof.
  intros Hd Hn Hz Hg. pose proof grid_31 as G.
  destruct (longitude_to_nmea_run G_UNKNOWN x Hd Hn Hg) as (ideg & Hi & Hr & Hs & Hrun).
  destruct (magnitude_clamp_d180 x Hd Hn) as [Ha Hp].
  destruct (minutes_field_error 180 4 _ ideg ltac:(lia) Ha Hp Hi) as (H0 & Hq & Hcap & Herr).
  cbv zeta in Hs, Hrun, Hq, Hcap, Herr.
  destruct Hs as [[C _] | [_ Hsm]]; [congruence | ].
  rewrite Hsm in Hrun.
  change (60 * 10 ^ Z.of_nat 4) with 600000 in *.
  destruct (carry_value_7_4 _ ideg Hq) as (D & q & Hc & Hq' & Hv & HD).
  rewrite Hc in Hrun. cbn [fst snd] in Hrun.
  exists D, q. rewrite Hv.
  split; [lia | ]. split; [lia | ]. split; [lia | ]. split; [lia | ].
  intros log. rewrite Hrun.
  rewrite sprintf_0d_fixed_width by (cbn; lia). reflexivity.
Qed.

(** X11. For a double that is neither a NaN, nor the negative zero, nor
    the sentinel, [latitude_to_nmea] writes the degrees [D] on two digits
    (three for [longitude_to_nmea]) and the minutes [q], counted in
    ten-thousandths, as mm.mmmm. The minutes are below 60, the position
    written is at most the limit, and it differs from the magnitude of the
    clamped input by at most (1 + 2^-31) / 2 ten-thousandths of a minute. *)
Theorem nmea_text_accuracy (x : float) :
  is_double x -> is_nan x = false -> neg_zero x = false -> feq x G_UNKNOWN = false ->
  (exists D q hemi log,
      run (latitude_to_nmea G_UNKNOWN x)
      = Some (((fixed_width 2 D ++ render 7 4 q)%string, hemi), log) /\
      0 <= D /\ 0 <= q < 600000 /\ 600000 * D + q <= 600000 * 90 /\
      2 * Z.abs ((600000 * D + q) * one - 600000 * fval (magnitude (clamp d90 x)))
      <= one + Zv 1 (-31)) /\
  (exists D q hemi log,
      run (longitude_to_nmea G_UNKNOWN x)
      = Some (((fixed_width 3 D ++ render 7 4 q)%string, hemi), log) /\
      0 <= D /\ 0 <= q < 600000 /\ 600000 * D + q <= 600000 * 180 /\
      2 * Z.abs ((600000 * D + q) * one - 600000 * fval (magnitude (clamp d180 x)))
      <= one + Zv 1 (-31)).
Proof.
  intros Hd Hn Hz Hg. split.
  - destruct (latitude_to_nmea_value x Hd Hn Hz Hg) as (D & q & H0 & Hq & Hcap & Herr & Hrun).
    eexists D, q, _, _. split; [apply Hrun | auto].
  - destruct (longitude_to_nmea_value x Hd Hn Hz Hg) as (D & q & H0 & Hq & Hcap & Herr & Hrun).
    eexists D, q, _, _. split; [apply Hrun | auto].
Qed.

End NMEA_accuracy.

(** X10 at 49.0583 degrees. *)
Lemma text_accuracy_witness :
  let x := strtod_c "49.0583" in
  (is_double x /\ is_nan x = false /\ neg_zero x = false) /\
  (exists D q h log,
      run (latitude_to_str x 0)
      = Some ((fixed_width 2 D ++ render 5 2 q ++ String h "")%string, log) /\
      0 <= D /\ 0 <= q < 6000 /\ 6000 * D + q <= 6000 * 90 /\
      2 * Z.abs ((6000 * D + q) * one - 6000 * fval (magnitude (clamp d90 x)))
      <= one + Zv 1 (-38)) /\
  (exists D q h log,
      run (longitude_to_str x 0)
      = Some ((fixed_width 3 D ++ render 5 2 q ++ String h "")%string, log) /\
      0 <= D /\ 0 <= q < 6000 /\ 6000 * D + q <= 6000 * 180 /\
      2 * Z.abs ((6000 * D + q) * one - 6000 * fval (magnitude (clamp d180 x)))
      <= one + Zv 1 (-38)).
Proof.
  intros x.
  assert (H : is_double x /\ is_nan x = false /\ neg_zero x = false)
    by (repeat split; vm_compute; reflexivity).
  split; [exact H | ]. destruct H as (H1 & H2 & H3).
  exact (text_accuracy x H1 H2 H3).
Defined.

(** X11 at 49.0583 degrees. *)
Lemma nmea_text_accuracy_witness :
  let x := strtod_c "49.0583" in
  (is_double x /\ is_nan x = false /\ neg_zero x = false /\ feq x G_UNKNOWN_dw = false) /\
  (exists D q hemi log,
      run (latitude_to_nmea G_UNKNOWN_dw x)
      = Some (((fixed_width 2 D ++ render 7 4 q)%string, hemi), log) /\
      0 <= D /\ 0 <= q < 600000 /\ 600000 * D + q <= 600000 * 90 /\
      2 * Z.abs ((600000 * D + q) * one - 600000 * fval (magnitude (clamp d90 x)))
      <= one + Zv 1 (-31)) /\
  (exists D q hemi log,
      run (longitude_to_nmea G_UNKNOWN_dw x)
      = Some (((fixed_width 3 D ++ render 7 4 q)%string, hemi), log) /\
      0 <= D /\ 0 <= q < 600000 /\ 600000 * D + q <= 600000 * 180 /\
      2 * Z.abs ((600000 * D + q) * one - 600000 * fval (magnitude (clamp d180 x)))
      <= one + Zv 1 (-31)).
Proof.
  intros x.
  assert (H : is_double x /\ is_nan x = false /\ neg_zero x = false /\
              feq x G_UNKNOWN_dw = false)
    by (repeat split; vm_compute; reflexivity).
  split; [exact H | ]. destruct H as (H1 & H2 & H3 & H4).
  exact (nmea_text_accuracy G_UNKNOWN_dw x H1 H2 H3 H4).
Defined.

(** ** The compressed integer against the coordinate *)

Lemma pos_le_of_mag_in (L H H' : Z) (x : float) :
  mag_in false L H x -> H <= H' -> pos_le H' x.
Proof.
  intros Hm Hle. apply mag_in_pos_le in Hm.
  destruct x as [s | s | | s m e]; cbn [pos_le] in *; try tauto.
  destruct s; [tauto | ]. split; lia.
Qed.

(** A difference and a sum of doubles, [V] being the exact value. *)
Lemma fsub_error (sx : bool) (mx : positive) (ex : Z) (sy : bool) (my : positive)
      (ey V g : Z) :
  -1074 <= ex -> -1074 <= ey -> -1074 <= g <= 900 ->
  V = cond_Zopp sx (Zv (Zpos mx) ex) - cond_Zopp sy (Zv (Zpos my) ey) ->
  0 <= V < Zv 1 (g + 52) ->
  let r := fsub (S754_finite sx mx ex) (S754_finite sy my ey) in
  pos_le (V + Zv 1 g) r /\ Z.abs (fval r - V) <= Zv 1 g.
Proof.
  intros Hex Hey Hg HV Hb r.
  destruct (grid_enclosure V g Hg Hb) as (ML & MH & HL & HH & Hs & [Hb1 Hb2] & Hd).
  assert (Hm : mag_in false (Zv ML g) (Zv MH g) r).
  { apply fsub_finite_bounds; try assumption. rewrite <- HV. lia. }
  assert (0 <= Zv MH g) by (apply Zv_nonneg; destruct HH; lia).
  pose proof (mag_in_fval _ _ _ Hm ltac:(lia)) as Hf.
  split; [apply (pos_le_of_mag_in _ _ _ _ Hm); lia | lia].
Qed.

Lemma fadd_error (sx : bool) (mx : positive) (ex : Z) (sy : bool) (my : positive)
      (ey V g : Z) :
  -1074 <= ex -> -1074 <= ey -> -1074 <= g <= 900 ->
  V = cond_Zopp sx (Zv (Zpos mx) ex) + cond_Zopp sy (Zv (Zpos my) ey) ->
  0 <= V < Zv 1 (g + 52) ->
  let r := fadd (S754_finite sx mx ex) (S754_finite sy my ey) in
  pos_le (V + Zv 1 g) r /\ Z.abs (fval r - V) <= Zv 1 g.
Proof.
  intros Hex Hey Hg HV Hb r.
  destruct (grid_enclosure V g Hg Hb) as (ML & MH & HL & HH & Hs & [Hb1 Hb2] & Hd).
  assert (Hm : mag_in false (Zv ML g) (Zv MH g) r).
  { apply fadd_finite_bounds; try assumption. rewrite <- HV. lia. }
  assert (0 <= Zv MH g) by (apply Zv_nonneg; destruct HH; lia).
  pose proof (mag_in_fval _ _ _ Hm ltac:(lia)) as Hf.
  split; [apply (pos_le_of_mag_in _ _ _ _ Hm); lia | lia].
Qed.

(** A product by a positive integer constant [C]. *)
Lemma fmul_const_error (C k B g : Z) (t : float) :
  0 < C -> 0 <= k <= 1074 -> -1074 <= g <= 900 ->
  pos_le B t -> C * B < Zv 1 (g + 52) ->
  Z.abs (fval (fmul (S754_finite false (Z.to_pos (C * 2 ^ k)) (- k)) t) - C * fval t)
  <= Zv 1 g.
Proof.
  intros HC Hk Hg Ht Hfit.
  assert (Hg0 : 0 <= Zv 1 g) by (apply Zv_nonneg; lia).
  destruct t as [s | s | | s m e]; cbn [pos_le] in Ht; try contradiction.
  - cbn [fmul SFmul fval]. rewrite Z.mul_0_r, Z.sub_diag. exact Hg0.
  - destruct s; [contradiction | ]. destruct Ht as [He Hv].
    assert (Hc : Zv (Zpos (Z.to_pos (C * 2 ^ k))) (- k) = C * one)
      by (rewrite Zv_to_pos_const by lia; apply Zv_one).
    destruct (fmul_error (Z.to_pos (C * 2 ^ k)) (- k) m e (C * Zv (Zpos m) e) g)
      as [_ Herr]; try lia.
    + pose proof (Zv_pos (Zpos m) e ltac:(lia) ltac:(lia)). nia.
    + cbn [fval cond_Zopp]. exact Herr.
Qed.

(** [(int)round(u)] is within a half of [u]. *)
Lemma round_to_int_error (H : Z) (u : float) :
  0 <= H < 2 ^ 31 - 1 -> pos_le (Zv H 0) u ->
  exists n, double_to_int (c_round u) = Some n /\ 0 <= n <= H /\
            2 * Z.abs (n * one - fval u) <= one.
Proof.
  intros HH Hu. pose proof one_pos as H1.
  assert (Hint : forall n, 0 <= n <= H ->
                   (if (INT_MIN <=? n) && (n <=? INT_MAX) then Some n else None) = Some n).
  { intros n Hn.
    replace (INT_MIN <=? n) with true by (symmetry; apply Z.leb_le; unfold INT_MIN; lia).
    replace (n <=? INT_MAX) with true by (symmetry; apply Z.leb_le; unfold INT_MAX; lia).
    reflexivity. }
  destruct u as [s | s | | s m e]; cbn [pos_le] in Hu; try contradiction.
  - exists 0. split; [reflexivity | ]. split; [lia | ]. cbn [fval]. cbn. lia.
  - destruct s; [contradiction | ]. destruct Hu as [He Hv].
    cbn [c_round fval cond_Zopp]. destruct (Z.leb_spec 0 e) as [Hpos | Hneg].
    + destruct (ftrunc_bounds m e He) as (Hn0 & Hn1 & _).
      set (n := Z.shiftl (Zpos m) e) in *.
      assert (n <= H) by (apply (Zv_le_cancel n H 0); lia).
      exists n. split; [ | split; [lia | ]].
      * unfold double_to_int. cbn [ftrunc cond_Zopp]. fold n. apply Hint. lia.
      * unfold n. rewrite Z.shiftl_mul_pow2 by lia.
        replace (Zv (Zpos m) e) with (Zv (Zpos m * 2 ^ e) 0)
          by (rewrite <- Zv_shift by lia; f_equal; lia).
        rewrite Zv_one, Z.sub_diag. cbn. lia.
    + set (d := 2 ^ (- e)). assert (Hd : 0 < d) by (apply pow2_pos; lia).
      replace (Zv H 0) with (Zv (H * d) e) in Hv
        by (unfold d; rewrite <- Zv_shift by lia; f_equal; lia).
      apply Zv_le_cancel in Hv; [ | lia].
      assert (Hdm : Zpos m = d * (Zpos m / d) + Zpos m mod d) by (apply Z.div_mod; lia).
      assert (Hmb : 0 <= Zpos m mod d < d) by (apply Z.mod_pos_bound; lia).
      assert (Hq : 0 <= Zpos m / d) by (apply Z.div_pos; lia).
      assert (Hq' : Zpos m / d <= H) by nia.
      set (n := if d <=? 2 * (Zpos m mod d) then Zpos m / d + 1 else Zpos m / d).
      assert (Hn : 0 <= n <= H).
      { unfold n. destruct (Z.leb_spec d (2 * (Zpos m mod d))); [ | lia].
        split; [lia | ]. destruct (Z.eq_dec (Zpos m / d) H); [nia | lia]. }
      assert (Herr : 2 * Z.abs (n * one - Zv (Zpos m) e) <= one).
      { set (U := 2 ^ (e + 2148)).
        assert (HU : 0 < U) by (apply pow2_pos; lia).
        assert (Hone : one = d * U).
        { unfold one, Zv, U, d. rewrite Z.mul_1_l, <- Z.pow_add_r by lia. f_equal. lia. }
        replace (n * one - Zv (Zpos m) e) with ((n * d - Zpos m) * U)
          by (rewrite Hone; unfold Zv; fold U; ring).
        rewrite Hone, Z.abs_mul, (Z.abs_eq U) by lia.
        assert (2 * Z.abs (n * d - Zpos m) <= d).
        { unfold n. destruct (Z.leb_spec d (2 * (Zpos m mod d))); lia. }
        nia. }
      exists n. split; [ | split; [exact Hn | exact Herr]].
      destruct (Z.eqb_spec n 0) as [Hz | Hnz].
      * rewrite Hz. reflexivity.
      * cbn [cond_Zopp].
        destruct (int_to_double_exact n) as (mi & ei & Hi & Hei & Hvi).
        { split; [lia | ]. assert (2 ^ 31 < 2 ^ 53) by (apply pow2_lt; lia). lia. }
        unfold int_to_double in Hi. rewrite Hi.
        destruct (ftrunc_bounds mi ei Hei) as (Hn0 & Hn1 & Hn2).
        set (n' := Z.shiftl (Zpos mi) ei) in *.
        rewrite Hvi in Hn1, Hn2.
        apply Zv_le_cancel in Hn1; [ | lia]. apply Zv_lt_cancel in Hn2; [ | lia].
        unfold double_to_int. cbn [ftrunc cond_Zopp]. fold n'.
        replace n' with n by lia. apply Hint. exact Hn.
Qed.

Lemma Zv_pow_mul (k g : Z) : 0 <= k -> -2148 <= g -> Zv 1 (g + k) = 2 ^ k * Zv 1 g.
Proof. intros Hk Hg. rewrite Zv_shift by lia. unfold Zv. ring. Qed.

(** Line 218 for a clamped latitude [c]. *)
Lemma lat_scaled_error (c : float) :
  abs_le (Zv 90 0) c ->
  exists y, lat_scaled c = Some y /\
            2 * Z.abs (y * one - 380926 * (90 * one - fval c)) <= one + Zv 1 (-23).
Proof.
  intros Hc. unfold lat_scaled. pose proof one_pos as H1.
  assert (G44 : 0 <= Zv 1 (-44)) by (apply Zv_nonneg; lia).
  assert (G8 : Zv 1 (-44 + 52) = 256 * one) by (apply (Zv_pow_mul 8 0); lia).
  assert (G27 : Zv 1 (-25 + 52) = 2 ^ 27 * one) by (apply (Zv_pow_mul 27 0); lia).
  assert (G24 : Zv 1 (-24) = 2 ^ 20 * Zv 1 (-44)) by (apply (Zv_pow_mul 20 (-44)); lia).
  assert (G25 : Zv 1 (-24) = 2 * Zv 1 (-25)) by (apply (Zv_pow_mul 1 (-25)); lia).
  assert (G23 : Zv 1 (-23) = 2 * Zv 1 (-24)) by (apply (Zv_pow_mul 1 (-24)); lia).
  assert (G1 : Zv 1 (-44) <= one).
  { unfold one. apply Zv_pow_le. lia. }
  (* the difference *)
  assert (Ht : pos_le (181 * one) (fsub d90 c) /\
               Z.abs (fval (fsub d90 c) - (90 * one - fval c)) <= Zv 1 (-44)).
  { rewrite d90_Zv.
    assert (Hk : Zv (Zpos (Z.to_pos (90 * 2 ^ 46))) (-46) = 90 * one)
      by (rewrite Zv_to_pos_const by lia; apply Zv_one).
    destruct c as [s | s | | s m e]; cbn [abs_le] in Hc; try contradiction.
    - cbn [fsub SFsub pos_le fval cond_Zopp]. rewrite Hk.
      split; [split; lia | ]. rewrite Z.sub_0_r, Z.sub_diag. cbn. lia.
    - destruct Hc as [He Hv]. rewrite Zv_one in Hv.
      pose proof (Zv_pos (Zpos m) e ltac:(lia) ltac:(lia)) as Hp.
      destruct (fsub_error false (Z.to_pos (90 * 2 ^ 46)) (-46) s m e
                           (90 * one - fval (S754_finite s m e)) (-44))
        as [Hpl Herr]; try lia.
      + cbn [cond_Zopp fval]. rewrite Hk. reflexivity.
      + rewrite G8. cbn [fval]. destruct s; cbn [cond_Zopp]; lia.
      + split; [ | exact Herr].
        cbn [fval] in Hpl.
        destruct (fsub (S754_finite false (Z.to_pos (90 * 2 ^ 46)) (-46))
                       (S754_finite s m e)) as [s' | s' | | s' m' e'];
          cbn [pos_le] in *; try tauto.
        destruct s'; [tauto | ]. split; [tauto | ].
        destruct s; cbn [cond_Zopp] in Hpl; lia. }
  destruct Ht as [Htp Hte].
  (* the product *)
  rewrite d380926_Zv.
  pose proof (fmul_const_error 380926 34 (181 * one) (-25) (fsub d90 c)
                ltac:(lia) ltac:(lia) ltac:(lia) Htp ltac:(rewrite G27; lia)) as Hue.
  assert (Hup : pos_le (Zv 68566680 0)
                       (fmul (S754_finite false (Z.to_pos (380926 * 2 ^ 34)) (- (34)))
                             (fsub d90 c))).
  { assert (Hd : pos_le (Zv 180 0) (fsub d90 c)).
    { rewrite d90_Zv.
      assert (Hk : Zv (Zpos (Z.to_pos (90 * 2 ^ 46))) (-46) = Zv 90 0)
        by (apply Zv_to_pos_const; lia).
      destruct c as [s | s | | s m e]; cbn [abs_le] in Hc; try contradiction.
      - cbn [fsub SFsub pos_le]. split; [lia | ]. rewrite Hk, (Zv_int 90), (Zv_int 180).
        fold one. lia.
      - destruct Hc as [He Hv]. apply (mag_in_pos_le (Zv 0 0)).
        apply fsub_finite_bounds; try lia; try (unfold repr; lia).
        + apply Zv_repr_small; lia.
        + cbn [cond_Zopp]. rewrite Hk.
          pose proof (Zv_pos (Zpos m) e ltac:(lia) ltac:(lia)).
          rewrite (Zv_int 180). rewrite (Zv_int 90) in *. unfold Zv at 1.
          destruct s; cbn [cond_Zopp]; lia. }
    exact (fmul_const_pos_le 380926 34 180 (fsub d90 c) ltac:(lia) ltac:(lia) ltac:(lia)
             ltac:(lia) Hd). }
  change (- (34)) with (-34) in *.
  destruct (round_to_int_error 68566680 _ ltac:(lia) Hup) as (y & Hy & _ & Hye).
  exists y. split; [exact Hy | ].
  set (u := fval (fmul (S754_finite false (Z.to_pos (380926 * 2 ^ 34)) (-34)) (fsub d90 c))) in *.
  set (t := fval (fsub d90 c)) in *.
  set (T := 90 * one - fval c) in *.
  replace (y * one - 380926 * T) with ((y * one - u) + ((u - 380926 * t) + 380926 * (t - T)))
    by ring.
  pose proof (Z.abs_triangle (y * one - u) ((u - 380926 * t) + 380926 * (t - T))) as T1.
  pose proof (Z.abs_triangle (u - 380926 * t) (380926 * (t - T))) as T2.
  rewrite (Z.abs_mul 380926), (Z.abs_eq 380926) in T2 by lia.
  lia.
Qed.

(** Line 264 for a clamped longitude [c]. *)
Lemma long_scaled_error (c : float) :
  abs_le (Zv 180 0) c ->
  exists n, long_scaled c = Some n /\
            2 * Z.abs (n * one - 190463 * (180 * one + fval c)) <= one + Zv 1 (-23).
Proof.
  intros Hc. unfold long_scaled. pose proof one_pos as H1.
  assert (G43 : 0 <= Zv 1 (-43)) by (apply Zv_nonneg; lia).
  assert (G9 : Zv 1 (-43 + 52) = 512 * one) by (apply (Zv_pow_mul 9 0); lia).
  assert (G27 : Zv 1 (-25 + 52) = 2 ^ 27 * one) by (apply (Zv_pow_mul 27 0); lia).
  assert (G24 : Zv 1 (-24) = 2 ^ 19 * Zv 1 (-43)) by (apply (Zv_pow_mul 19 (-43)); lia).
  assert (G25 : Zv 1 (-24) = 2 * Zv 1 (-25)) by (apply (Zv_pow_mul 1 (-25)); lia).
  assert (G23 : Zv 1 (-23) = 2 * Zv 1 (-24)) by (apply (Zv_pow_mul 1 (-24)); lia).
  assert (G1 : Zv 1 (-43) <= one).
  { unfold one. apply Zv_pow_le. lia. }
  (* the sum *)
  assert (Ht : pos_le (361 * one) (fadd d180 c) /\
               Z.abs (fval (fadd d180 c) - (180 * one + fval c)) <= Zv 1 (-43)).
  { rewrite d180_Zv.
    assert (Hk : Zv (Zpos (Z.to_pos (180 * 2 ^ 45))) (-45) = 180 * one)
      by (rewrite Zv_to_pos_const by lia; apply Zv_one).
    destruct c as [s | s | | s m e]; cbn [abs_le] in Hc; try contradiction.
    - cbn [fadd SFadd pos_le fval cond_Zopp]. rewrite Hk.
      split; [split; lia | ]. rewrite Z.add_0_r, Z.sub_diag. cbn. lia.
    - destruct Hc as [He Hv]. rewrite Zv_one in Hv.
      pose proof (Zv_pos (Zpos m) e ltac:(lia) ltac:(lia)) as Hp.
      destruct (fadd_error false (Z.to_pos (180 * 2 ^ 45)) (-45) s m e
                           (180 * one + fval (S754_finite s m e)) (-43))
        as [Hpl Herr]; try lia.
      + cbn [cond_Zopp fval]. rewrite Hk. reflexivity.
      + rewrite G9. cbn [fval]. destruct s; cbn [cond_Zopp]; lia.
      + split; [ | exact Herr].
        cbn [fval] in Hpl.
        destruct (fadd (S754_finite false (Z.to_pos (180 * 2 ^ 45)) (-45))
                       (S754_finite s m e)) as [s' | s' | | s' m' e'];
          cbn [pos_le] in *; try tauto.
        destruct s'; [tauto | ]. split; [tauto | ].
        destruct s; cbn [cond_Zopp] in Hpl; lia. }
  destruct Ht as [Htp Hte].
  (* the product *)
  rewrite d190463_Zv.
  pose proof (fmul_const_error 190463 35 (361 * one) (-25) (fadd d180 c)
                ltac:(lia) ltac:(lia) ltac:(lia) Htp ltac:(rewrite G27; lia)) as Hue.
  assert (Hup : pos_le (Zv 68566680 0)
                       (fmul (S754_finite false (Z.to_pos (190463 * 2 ^ 35)) (- (35)))
                             (fadd d180 c))).
  { assert (Hd : pos_le (Zv 360 0) (fadd d180 c)).
    { rewrite d180_Zv.
      assert (Hk : Zv (Zpos (Z.to_pos (180 * 2 ^ 45))) (-45) = Zv 180 0)
        by (apply Zv_to_pos_const; lia).
      destruct c as [s | s | | s m e]; cbn [abs_le] in Hc; try contradiction.
      - cbn [fadd SFadd pos_le]. split; [lia | ]. rewrite Hk, (Zv_int 180), (Zv_int 360).
        fold one. lia.
      - destruct Hc as [He Hv]. apply (mag_in_pos_le (Zv 0 0)).
        apply fadd_finite_bounds; try lia; try (unfold repr; lia).
        + apply Zv_repr_small; lia.
        + cbn [cond_Zopp]. rewrite Hk.
          pose proof (Zv_pos (Zpos m) e ltac:(lia) ltac:(lia)).
          rewrite (Zv_int 360). rewrite (Zv_int 180) in *. unfold Zv at 1.
          destruct s; cbn [cond_Zopp]; lia. }
    exact (fmul_const_pos_le 190463 35 360 (fadd d180 c) ltac:(lia) ltac:(lia) ltac:(lia)
             ltac:(lia) Hd). }
  change (- (35)) with (-35) in *.
  destruct (round_to_int_error 68566680 _ ltac:(lia) Hup) as (y & Hy & _ & Hye).
  exists y. split; [exact Hy | ].
  set (u := fval (fmul (S754_finite false (Z.to_pos (190463 * 2 ^ 35)) (-35)) (fadd d180 c))) in *.
  set (t := fval (fadd d180 c)) in *.
  set (T := 180 * one + fval c) in *.
  replace (y * one - 190463 * T) with ((y * one - u) + ((u - 190463 * t) + 190463 * (t - T)))
    by ring.
  pose proof (Z.abs_triangle (y * one - u) ((u - 190463 * t) + 190463 * (t - T))) as T1.
  pose proof (Z.abs_triangle (u - 190463 * t) (190463 * (t - T))) as T2.
  rewrite (Z.abs_mul 190463), (Z.abs_eq 190463) in T2 by lia.
  lia.
Qed.

(** X12. For a double that is not a NaN, the integer whose base 91 digits
    [latitude_to_comp_str] writes is 380926 * (90 - lat) for the clamped
    latitude, within (1 + 2^-23) / 2; the one of [longitude_to_comp_str] is
    190463 * (180 + lon) for the clamped longitude, within the same. *)
Theorem compressed_accuracy (x : float) :
  is_double x -> is_nan x = false ->
  (exists y log,
      run (latitude_to_comp_str x) = Some (base91 y, log) /\
      2 * Z.abs (y * one - 380926 * (90 * one - fval (clamp d90 x))) <= one + Zv 1 (-23)) /\
  (exists n log,
      run (longitude_to_comp_str x) = Some (base91 n, log) /\
      2 * Z.abs (n * one - 190463 * (180 * one + fval (clamp d180 x))) <= one + Zv 1 (-23)).
Proof.
  intros Hd Hn. split.
  - destruct (latitude_to_comp_str_run x Hd Hn) as (y & Hy & _ & Hrun).
    destruct (lat_scaled_error _ (d90_abs_le x Hd Hn)) as (y' & Hy' & Herr).
    rewrite Hy in Hy'. injection Hy' as <-.
    eexists y, _. split; [apply Hrun | exact Herr].
  - destruct (longitude_to_comp_str_run x Hd Hn) as (y & Hy & _ & Hrun).
    destruct (long_scaled_error _ (d180_abs_le x Hd Hn)) as (y' & Hy' & Herr).
    rewrite Hy in Hy'. injection Hy' as <-.
    eexists y, _. split; [apply Hrun | exact Herr].
Qed.

(** X12 at -72.03 degrees. *)
Lemma compressed_accuracy_witness :
  let x := strtod_c "-72.03" in
  (is_double x /\ is_nan x = false) /\
  (exists y log,
      run (latitude_to_comp_str x) = Some (base91 y, log) /\
      2 * Z.abs (y * one - 380926 * (90 * one - fval (clamp d90 x))) <= one + Zv 1 (-23)) /\
  (exists n log,
      run (longitude_to_comp_str x) = Some (base91 n, log) /\
      2 * Z.abs (n * one - 190463 * (180 * one + fval (clamp d180 x))) <= one + Zv 1 (-23)).
Proof.
  intros x.
  assert (H : is_double x /\ is_nan x = false) by (repeat split; vm_compute; reflexivity).
  split; [exact H | ]. destruct H as (H1 & H2).
  exact (compressed_accuracy x H1 H2).
Defined.

(** ** The digits of the compressed integer *)

Lemma abs_le_fval (H : Z) (c : float) : 0 <= H -> abs_le H c -> - H <= fval c <= H.
Proof.
  intros HH Hc. destruct c as [s | s | | s m e]; cbn [abs_le] in Hc; try contradiction.
  - cbn [fval]. lia.
  - destruct Hc as [He Hv].
    pose proof (Zv_pos (Zpos m) e ltac:(lia) ltac:(lia)) as Hp.
    cbn [fval]. destruct s; cbn [cond_Zopp]; lia.
Qed.

(** An integer within a half and a little of [V] is at most one away from
    the nearest integer to [V]. *)
Lemma round_exact_near (n V : Z) :
  0 <= V -> 2 * Z.abs (n * one - V) <= one + Zv 1 (-23) ->
  Z.abs (n - round_exact V) <= 1.
Proof.
  intros HV Hn. pose proof one_pos as H1.
  assert (G : Zv 1 (-23) < one).
  { assert (P : 0 < Zv 1 (-23)) by (apply Zv_pos; lia).
    assert (E : one = 2 ^ 23 * Zv 1 (-23)) by (apply (Zv_pow_mul 23 (-23)); lia).
    change (2 ^ 23) with 8388608 in E. lia. }
  unfold round_exact. replace (V <? 0) with false by (symmetry; apply Z.ltb_ge; exact HV).
  set (r := (2 * V + one) / (2 * one)).
  pose proof (Z.div_mod (2 * V + one) (2 * one) ltac:(lia)) as Hdm.
  pose proof (Z.mod_pos_bound (2 * V + one) (2 * one) ltac:(lia)) as Hmb.
  fold r in Hdm.
  set (d := n - r). replace n with (r + d) in Hn by (unfold d; ring).
  destruct (Z_le_gt_dec (Z.abs d) 1) as [Hd | Hd]; [exact Hd | exfalso].
  assert (Hc : 2 <= d \/ d <= -2) by lia.
  destruct Hc as [Hc | Hc].
  - assert (2 * one <= d * one) by (apply Z.mul_le_mono_nonneg_r; lia).
    replace ((r + d) * one) with (r * one + d * one) in Hn by ring. lia.
  - assert (d * one <= -2 * one) by (apply Z.mul_le_mono_nonneg_r; lia).
    replace ((r + d) * one) with (r * one + d * one) in Hn by ring. lia.
Qed.

(** C10, as amended. For every double that is not a NaN, the four bytes of
    a compressed encoder are the base-91 digits, most significant first and
    each plus 33, of the integer [n] that line 218 (line 264) computes in
    binary64 from the clamped coordinate: the digits are in [0, 90] and
    recombine to [n]. This [n] is within (1 + 2^-23) / 2 of 380926 * (90 -
    lat) (of 190463 * (180 + lon)), and so at most one away from the nearest
    integer to that product. *)
Theorem compressed_base91 (x : float) :
  is_double x -> is_nan x = false ->
  (exists n b0 b1 b2 b3 log,
      lat_scaled (clamp d90 x) = Some n /\
      run (latitude_to_comp_str x) = Some ([b0; b1; b2; b3], log) /\
      (Zchar b0 - 33) * 91 ^ 3 + (Zchar b1 - 33) * 91 ^ 2
      + (Zchar b2 - 33) * 91 + (Zchar b3 - 33) = n /\
      Forall (fun b => 0 <= Zchar b - 33 <= 90) [b0; b1; b2; b3] /\
      2 * Z.abs (n * one - 380926 * (90 * one - fval (clamp d90 x))) <= one + Zv 1 (-23) /\
      Z.abs (n - lat_scaled_exact (clamp d90 x)) <= 1) /\
  (exists n b0 b1 b2 b3 log,
      long_scaled (clamp d180 x) = Some n /\
      run (longitude_to_comp_str x) = Some ([b0; b1; b2; b3], log) /\
      (Zchar b0 - 33) * 91 ^ 3 + (Zchar b1 - 33) * 91 ^ 2
      + (Zchar b2 - 33) * 91 + (Zchar b3 - 33) = n /\
      Forall (fun b => 0 <= Zchar b - 33 <= 90) [b0; b1; b2; b3] /\
      2 * Z.abs (n * one - 190463 * (180 * one + fval (clamp d180 x))) <= one + Zv 1 (-23) /\
      Z.abs (n - long_scaled_exact (clamp d180 x)) <= 1).
Proof.
  intros Hd Hn. pose proof one_pos as H1. split.
  - destruct (latitude_to_comp_str_run x Hd Hn) as (y & Hs & Hy & Hrun).
    destruct (base91_digits y) as (b0 & b1 & b2 & b3 & Hb & (R0 & R1 & R2 & R3) & Hsum).
    { change (91 ^ 4) with 68574961. lia. }
    pose proof (d90_abs_le x Hd Hn) as Hc.
    destruct (lat_scaled_error _ Hc) as (y' & Hy' & Herr).
    rewrite Hs in Hy'. injection Hy' as <-.
    pose proof (abs_le_fval (Zv 90 0) _ (Zv_nonneg 90 0 ltac:(lia)) Hc) as Hf.
    rewrite Zv_one in Hf.
    exists y, b0, b1, b2, b3. eexists. split; [exact Hs | ].
    split; [unfold run; rewrite Hrun, Hb; reflexivity | ].
    split; [exact Hsum | ].
    split; [repeat (apply Forall_cons; [assumption | ]); apply Forall_nil | ].
    split; [exact Herr | ].
    apply round_exact_near; [lia | exact Herr].
  - destruct (longitude_to_comp_str_run x Hd Hn) as (y & Hs & Hy & Hrun).
    destruct (base91_digits y) as (b0 & b1 & b2 & b3 & Hb & (R0 & R1 & R2 & R3) & Hsum).
    { change (91 ^ 4) with 68574961. lia. }
    pose proof (d180_abs_le x Hd Hn) as Hc.
    destruct (long_scaled_error _ Hc) as (y' & Hy' & Herr).
    rewrite Hs in Hy'. injection Hy' as <-.
    pose proof (abs_le_fval (Zv 180 0) _ (Zv_nonneg 180 0 ltac:(lia)) Hc) as Hf.
    rewrite Zv_one in Hf.
    exists y, b0, b1, b2, b3. eexists. split; [exact Hs | ].
    split; [unfold run; rewrite Hrun, Hb; reflexivity | ].
    split; [exact Hsum | ].
    split; [repeat (apply Forall_cons; [assumption | ]); apply Forall_nil | ].
    split; [exact Herr | ].
    apply round_exact_near; [lia | exact Herr].
Qed.

(** C10 at 49.5 degrees: 15427503 is written "5L!!". *)
Lemma compressed_base91_witness :
  let x := strtod_c "49.5" in
  (is_double x /\ is_nan x = false) /\
  lat_scaled (clamp d90 x) = Some 15427503 /\
  lat_scaled_exact (clamp d90 x) = 15427503 /\
  run (latitude_to_comp_str x) = Some (["5"; "L"; "!"; "!"]%char, []) /\
  exists n b0 b1 b2 b3 log,
    lat_scaled (clamp d90 x) = Some n /\
    run (latitude_to_comp_str x) = Some ([b0; b1; b2; b3], log) /\
    (Zchar b0 - 33) * 91 ^ 3 + (Zchar b1 - 33) * 91 ^ 2
    + (Zchar b2 - 33) * 91 + (Zchar b3 - 33) = n /\
    Forall (fun b => 0 <= Zchar b - 33 <= 90) [b0; b1; b2; b3] /\
    2 * Z.abs (n * one - 380926 * (90 * one - fval (clamp d90 x))) <= one + Zv 1 (-23) /\
    Z.abs (n - lat_scaled_exact (clamp d90 x)) <= 1.
Proof.
  intros x.
  assert (H : is_double x /\ is_nan x = false) by (split; vm_compute; reflexivity).
  split; [exact H | ]. split; [vm_compute; reflexivity | ].
  split; [vm_compute; reflexivity | ].
  split; [vm_compute; reflexivity | ].
  exact (proj1 (compressed_base91 x (proj1 H) (proj2 H))).
Defined.

(** C10 as stated fails: at the latitude 25.811374125158167 the bytes are
    "AI^W", the digits of 24451117, and the nearest integer to
    380926 * (90 - lat) is 24451116. *)
Lemma compressed_round_refuted :
  ~ (forall x, is_double x -> is_nan x = false ->
       exists b0 b1 b2 b3 log,
         run (latitude_to_comp_str x) = Some ([b0; b1; b2; b3], log) /\
         (Zchar b0 - 33) * 91 ^ 3 + (Zchar b1 - 33) * 91 ^ 2
         + (Zchar b2 - 33) * 91 + (Zchar b3 - 33)
         = lat_scaled_exact (clamp d90 x)).
Proof.
  intros C.
  destruct (C (strtod_c "25.811374125158167"))
    as (b0 & b1 & b2 & b3 & log & Hrun & Hsum);
    [vm_compute; reflexivity | reflexivity | ].
  assert (E : run (latitude_to_comp_str (strtod_c "25.811374125158167"))
              = Some (["A"; "I"; "^"; "W"]%char, [])) by (vm_compute; reflexivity).
  assert (X : lat_scaled_exact (clamp d90 (strtod_c "25.811374125158167")) = 24451116)
    by (vm_compute; reflexivity).
  rewrite E in Hrun. injection Hrun as <- <- <- <- _.
  rewrite X in Hsum. vm_compute in Hsum. discriminate Hsum.
Qed.

(** * Division

    [binary_round_aux] on a truncated mantissa with the location of what was
    cut, as [SFdiv] calls it. *)

Lemma shr_m_of_loc (m : Z) (l : location) : shr_m (shr_record_of_loc m l) = m.
Proof. destruct l as [ | [ | | ]]; reflexivity. Qed.

Lemma inexact_of_loc (m : Z) (l : location) :
  inexact (shr_record_of_loc m l) = match l with loc_Exact => false | _ => true end.
Proof. destruct l as [ | [ | | ]]; reflexivity. Qed.

Lemma shr_fexp_loc (m e : Z) (l : location) :
  0 <= m ->
  let k := fexp prec emax (Zdigits2 m + e) - e in
  let r := shr_fexp prec emax m e l in
  (k <= 0 -> r = (shr_record_of_loc m l, e)) /\
  (0 < k -> snd r = e + k /\ shr_m (fst r) = m / 2 ^ k /\
            inexact (fst r)
            = match l with loc_Exact => false | _ => true end || negb (m mod 2 ^ k =? 0)).
Proof.
  intros Hm k r. unfold r, shr_fexp. fold k. unfold shr.
  destruct k as [ | p | p ] eqn:Ek.
  - split; [reflexivity | lia].
  - split; [lia | intros _].
    cbn [fst snd].
    destruct (iter_pos_shr_1 p (shr_record_of_loc m l)) as [Ha Hb];
      [rewrite shr_m_of_loc; exact Hm | ].
    rewrite shr_m_of_loc in Ha, Hb. rewrite inexact_of_loc in Hb. auto.
  - split; [reflexivity | lia].
Qed.

Lemma Zdigits2_unique (m n : Z) : 0 < m -> 2 ^ (n - 1) <= m < 2 ^ n -> Zdigits2 m = n.
Proof.
  intros Hm [H1 H2].
  destruct (Zdigits2_bounds m Hm) as [B1 B2].
  pose proof (Zdigits2_pos m Hm) as Hp.
  assert (Hn : 0 < n).
  { destruct (Z.lt_ge_cases 0 n) as [ | C]; [assumption | exfalso].
    assert (2 ^ n <= 2 ^ 0) by (destruct (Z.lt_ge_cases n 0);
      [rewrite Z.pow_neg_r by lia; cbn; lia | apply pow2_le; lia]).
    cbn in *. lia. }
  destruct (Z.lt_trichotomy (Zdigits2 m) n) as [C | [C | C]]; [exfalso | exact C | exfalso].
  - assert (2 ^ Zdigits2 m <= 2 ^ (n - 1)) by (apply pow2_le; lia). lia.
  - assert (2 ^ n <= 2 ^ (Zdigits2 m - 1)) by (apply pow2_le; lia). lia.
Qed.

(** What [binary_round_aux] returns when the mantissa is long enough for
    the format. *)
Lemma binary_round_aux_loc_cases (s : bool) (m e : Z) (l : location) :
  0 <= m ->
  let e1 := fexp prec emax (Zdigits2 m + e) in
  e <= e1 ->
  let k := e1 - e in
  let r := binary_round_aux prec emax s m e l in
  exists m1 : Z,
    m / 2 ^ k <= m1 <= m / 2 ^ k + 1 /\
    (l = loc_Exact -> m mod 2 ^ k = 0 -> m1 = m / 2 ^ k) /\
    ((m1 = 0 /\ r = S754_zero s) \/
     (0 < m1 < 2 ^ 53 /\
      r = if e1 <=? 971 then S754_finite s (Z.to_pos m1) e1 else S754_infinity s) \/
     (m1 = 2 ^ 53 /\
      r = if e1 + 1 <=? 971 then S754_finite s (Z.to_pos (2 ^ 52)) (e1 + 1)
          else S754_infinity s)).
Proof.
  intros Hm e1 Hk k r.
  destruct (shr_fexp_loc m e l Hm) as [Hk0 Hk1].
  fold e1 in Hk0, Hk1. fold k in Hk0, Hk1. cbv zeta in Hk0, Hk1.
  assert (E1 : -1074 <= e1) by (unfold e1; rewrite fexp_eq; lia).
  assert (Hp : 0 < 2 ^ k) by (apply pow2_pos; unfold k; lia).
  assert (Hq : 0 <= m / 2 ^ k) by (apply Z.div_pos; lia).
  assert (Hlt : m / 2 ^ k < 2 ^ 53).
  { apply Z.div_lt_upper_bound; [lia | ].
    destruct (Z.eq_dec m 0) as [-> | Hnz]; [apply Z.mul_pos_pos; [lia | apply pow2_pos; lia] | ].
    destruct (Zdigits2_bounds m ltac:(lia)) as [_ Hd].
    assert (Zdigits2 m <= k + 53) by (unfold k, e1; rewrite fexp_eq; lia).
    assert (2 ^ Zdigits2 m <= 2 ^ (k + 53))
      by (apply pow2_le; pose proof (Zdigits2_pos m ltac:(lia)); lia).
    rewrite Z.pow_add_r in * by (unfold k; lia). lia. }
  (* the first shift and the rounding *)
  assert (Hfirst : exists mrs,
             shr_fexp prec emax m e l = (mrs, e1) /\ shr_m mrs = m / 2 ^ k /\
             (l = loc_Exact -> m mod 2 ^ k = 0 -> inexact mrs = false)).
  { destruct (Z.le_gt_cases k 0) as [Hz | Hpos].
    - assert (k = 0) by (unfold k in *; lia).
      exists (shr_record_of_loc m l). rewrite (Hk0 Hz).
      split; [f_equal; unfold k in *; lia | ].
      rewrite shr_m_of_loc, inexact_of_loc. replace k with 0 by lia.
      split; [rewrite Z.div_1_r; reflexivity | ].
      intros -> _. reflexivity.
    - destruct (Hk1 Hpos) as (He & Hmm & Hi).
      destruct (shr_fexp prec emax m e l) as [mrs e']. cbn [fst snd] in *.
      exists mrs. split; [f_equal; unfold k in *; lia | ]. split; [exact Hmm | ].
      intros -> H0. rewrite Hi, H0. reflexivity. }
  destruct Hfirst as (mrs & Hs & Hmm & Hex).
  unfold r, binary_round_aux. rewrite Hs.
  destruct (round_nearest_even_faithful mrs) as [Hb Hx].
  set (m1 := round_nearest_even (shr_m mrs) (loc_of_shr_record mrs)) in *.
  cbv zeta in Hb, Hx. rewrite Hmm in Hb, Hx.
  exists m1. split; [exact Hb | ]. split.
  { intros Hl H0. apply Hx, Hex; assumption. }
  destruct (shr_fexp_exact m1 e1 ltac:(lia)) as [Hk0' Hk1'].
  cbv zeta in Hk0', Hk1'.
  destruct (Z.eq_dec m1 0) as [Hz | Hnz];
    [ | destruct (Z.eq_dec m1 (2 ^ 53)) as [Hbig | Hsmall] ].
  - left. split; [exact Hz | ].
    rewrite Hk0'; [ rewrite Hz; reflexivity | ].
    rewrite Hz. cbn [Zdigits2]. rewrite fexp_eq. lia.
  - right; right. split; [exact Hbig | ].
    assert (Hd54 : Zdigits2 m1 = 54) by (rewrite Hbig; reflexivity).
    assert (Hk2 : fexp prec emax (Zdigits2 m1 + e1) - e1 = 1)
      by (rewrite Hd54, fexp_eq; lia).
    rewrite Hk2 in Hk1'. destruct (Hk1' ltac:(lia)) as (He2 & Hm2 & _).
    destruct (shr_fexp prec emax m1 e1 loc_Exact) as [mrs2 e2].
    cbn [fst snd] in He2, Hm2. rewrite Hm2, He2, Hbig.
    change (2 ^ 53 / 2 ^ 1) with (Zpos (Z.to_pos (2 ^ 52))).
    reflexivity.
  - right; left. split; [lia | ].
    assert (Hd : Zdigits2 m1 <= 53) by (apply Zdigits2_le; lia).
    rewrite Hk0' by (rewrite fexp_eq; lia).
    cbn [shr_m]. destruct m1; try lia. reflexivity.
Qed.

Lemma binary_round_aux_loc_valid (s : bool) (m e : Z) (l : location) :
  0 <= m -> e <= fexp prec emax (Zdigits2 m + e) ->
  is_double (binary_round_aux prec emax s m e l).
Proof.
  intros Hm Hk.
  destruct (binary_round_aux_loc_cases s m e l Hm Hk) as (m1 & [Hlo Hhi] & _ & Hres).
  set (d := Zdigits2 m) in *.
  set (e1 := fexp prec emax (d + e)) in *.
  set (k := e1 - e) in *.
  assert (E1 : -1074 <= e1) by (unfold e1; rewrite fexp_eq; lia).
  assert (Hp : 0 < 2 ^ k) by (apply pow2_pos; unfold k; lia).
  unfold is_double.
  destruct Hres as [[Hz Hr] | [[Hm1 Hr] | [Hm1 Hr]]]; rewrite Hr.
  - reflexivity.
  - destruct (Z.leb_spec e1 971) as [Hle | Hgt]; [ | reflexivity].
    cbn [valid_binary]. unfold bounded, canonical_mantissa.
    apply andb_true_intro. split; [ | apply Z.leb_le; exact Hle].
    apply Z.eqb_eq.
    change (Zpos (digits2_pos (Z.to_pos m1))) with (Zdigits2 (Zpos (Z.to_pos m1))).
    rewrite Z2Pos.id by lia.
    destruct (Z.eq_dec e1 (-1074)) as [Hsub | Hnorm].
    + assert (Zdigits2 m1 <= 53) by (apply Zdigits2_le; lia).
      rewrite fexp_eq. lia.
    + assert (He1 : e1 = d + e - 53) by (unfold e1 in *; rewrite fexp_eq in *; lia).
      assert (Hmpos : 0 < m).
      { destruct (Z.eq_dec m 0) as [Hz | ]; [ | lia].
        unfold d in He1. rewrite Hz in He1. cbn [Zdigits2] in He1. lia. }
      destruct (Zdigits2_bounds m Hmpos) as [Hd1 _]. fold d in Hd1.
      assert (Hk53 : k = d - 53) by (unfold k; lia).
      assert (2 ^ 52 <= m / 2 ^ k).
      { apply Z.div_le_lower_bound; [lia | ].
        rewrite <- Z.pow_add_r by lia.
        replace (k + 52) with (d - 1) by lia. lia. }
      rewrite (Zdigits2_unique m1 53) by (change (53 - 1) with 52; lia).
      rewrite fexp_eq. lia.
  - destruct (Z.leb_spec (e1 + 1) 971) as [Hle | Hgt]; [ | reflexivity].
    cbn [valid_binary]. unfold bounded, canonical_mantissa.
    apply andb_true_intro. split; [ | apply Z.leb_le; exact Hle].
    apply Z.eqb_eq.
    change (Zpos (digits2_pos (Z.to_pos (2 ^ 52)))) with 53.
    rewrite fexp_eq. lia.
Qed.

Lemma binary_round_aux_loc_bounds (s : bool) (m e : Z) (l : location)
        (ML EL MH EH : Z) :
  0 <= m -> -2148 <= e -> e <= fexp prec emax (Zdigits2 m + e) ->
  repr ML EL -> repr MH EH ->
  Zv MH EH < Zv 1 972 ->
  Zv ML EL < Zv (m + 1) e ->
  Zv m e <= Zv MH EH -> (l <> loc_Exact -> Zv m e < Zv MH EH) ->
  mag_in s (Zv ML EL) (Zv MH EH) (binary_round_aux prec emax s m e l).
Proof.
  intros Hm Hex Hk0 [HML HEL] [HMH HEH] Hsmall HL HH HHs.
  destruct (binary_round_aux_loc_cases s m e l Hm Hk0) as (m1 & [Hlo Hhi] & Hexact & Hres).
  set (d := Zdigits2 m) in *.
  set (e1 := fexp prec emax (d + e)) in *.
  set (k := e1 - e) in *.
  assert (E1 : -1074 <= e1) by (unfold e1; rewrite fexp_eq; lia).
  assert (E1' : d + e - 53 <= e1) by (unfold e1; rewrite fexp_eq; lia).
  assert (Hk : 0 <= k) by (unfold k; lia).
  assert (Hp : 0 < 2 ^ k) by (apply pow2_pos; lia).
  assert (Hdm : m = 2 ^ k * (m / 2 ^ k) + m mod 2 ^ k) by (apply Z.div_mod; lia).
  assert (Hmb : 0 <= m mod 2 ^ k < 2 ^ k) by (apply Z.mod_pos_bound; lia).
  assert (Hq0 : 0 <= m / 2 ^ k) by (apply Z.div_pos; lia).
  assert (Hval : Zv m1 e1 = Zv (m1 * 2 ^ k) e).
  { replace e1 with (e + k) by (unfold k; lia). apply Zv_shift; lia. }
  (* a normal result has a full mantissa *)
  assert (Hnormal : -1074 < e1 -> 0 < m /\ k = d - 53 /\ 2 ^ 52 <= m / 2 ^ k /\
                                  Zv 1 (e + (d - 1)) <= Zv m e).
  { intros Hn.
    assert (He1 : e1 = d + e - 53) by (unfold e1 in *; rewrite fexp_eq in *; lia).
    assert (Hmpos : 0 < m).
    { destruct (Z.eq_dec m 0) as [Hz | ]; [ | lia].
      unfold d in He1. rewrite Hz in He1. cbn [Zdigits2] in He1. lia. }
    destruct (Zdigits2_bounds m Hmpos) as [Hd1 _]. fold d in Hd1.
    assert (Hk53 : k = d - 53) by (unfold k; lia).
    split; [exact Hmpos | ]. split; [exact Hk53 | ]. split.
    - apply Z.div_le_lower_bound; [lia | ].
      rewrite <- Z.pow_add_r by lia.
      replace (k + 52) with (d - 1) by lia. lia.
    - rewrite Zv_shift by lia. apply Zv_le_mono; lia. }
  (* the upper bound *)
  assert (UP : Zv m1 e1 <= Zv MH EH).
  { destruct (Z.le_gt_cases e1 EH) as [Hge | Hlt].
    - set (N := MH * 2 ^ (EH - e1)).
      assert (HN : Zv MH EH = Zv (N * 2 ^ k) e).
      { unfold N. replace EH with (e + (k + (EH - e1))) at 1 by (unfold k; lia).
        rewrite Zv_shift by lia. f_equal.
        rewrite Z.pow_add_r by lia. ring. }
      rewrite HN in HH, HHs |- *. rewrite Hval.
      apply Zv_le_mono; [lia | ].
      apply Zv_le_cancel in HH; [ | lia].
      destruct l as [ | c].
      + destruct (Z.eq_dec (m mod 2 ^ k) 0) as [Hz | Hnz].
        * rewrite (Hexact eq_refl Hz). nia.
        * assert (m / 2 ^ k < N) by nia. nia.
      + assert (Hs : m < N * 2 ^ k).
        { apply (Zv_lt_cancel _ _ e); [lia | ]. apply HHs. discriminate. }
        assert (m / 2 ^ k < N) by nia. nia.
    - exfalso.
      destruct (Hnormal ltac:(lia)) as (_ & Hk53 & _ & Hbig).
      assert (Zv MH EH < Zv 1 (EH + 53)) by (apply Zv_lt_pow; lia).
      assert (Zv 1 (EH + 53) <= Zv 1 (e + (d - 1))) by (apply Zv_pow_le; lia).
      lia. }
  (* the lower bound *)
  assert (LO : Zv ML EL <= Zv m1 e1).
  { destruct (Z.le_gt_cases e1 EL) as [Hge | Hlt].
    - set (N := ML * 2 ^ (EL - e1)).
      assert (HN : Zv ML EL = Zv (N * 2 ^ k) e).
      { unfold N. replace EL with (e + (k + (EL - e1))) at 1 by (unfold k; lia).
        rewrite Zv_shift by lia. f_equal.
        rewrite Z.pow_add_r by lia. ring. }
      rewrite HN in HL |- *. rewrite Hval.
      apply Zv_le_mono; [lia | ].
      apply Zv_lt_cancel in HL; [ | lia].
      assert (N <= m / 2 ^ k) by nia. nia.
    - destruct (Hnormal ltac:(lia)) as (_ & Hk53 & H52 & _).
      assert (Zv ML EL < Zv 1 (EL + 53)) by (apply Zv_lt_pow; lia).
      assert (Zv 1 (EL + 53) <= Zv 1 (e1 + 52)) by (apply Zv_pow_le; lia).
      assert (Zv 1 (e1 + 52) <= Zv m1 e1).
      { rewrite Zv_shift by lia. apply Zv_le_mono; lia. }
      lia. }
  assert (Hz1 : 0 < m1 -> Zv 1 e1 <= Zv m1 e1) by (intros; apply Zv_le_mono; lia).
  destruct Hres as [[Hz Hr] | [[Hm1 Hr] | [Hm1 Hr]]]; rewrite Hr.
  + cbn [mag_in]. rewrite Hz in LO. unfold Zv at 2 in LO. split; [reflexivity | lia].
  + specialize (Hz1 ltac:(lia)).
    assert (e1 < 972) by (apply Zv_pow_lt_inv; lia).
    replace (e1 <=? 971) with true by (symmetry; apply Z.leb_le; lia).
    cbn [mag_in]. rewrite Z2Pos.id by lia. repeat split; lia.
  + assert (Hv2 : Zv (2 ^ 52) (e1 + 1) = Zv m1 e1).
    { rewrite Zv_shift by lia. f_equal. rewrite Hm1. reflexivity. }
    assert (Zv 1 (e1 + 53) = Zv m1 e1).
    { rewrite Zv_shift by lia. f_equal. rewrite Hm1. lia. }
    assert (e1 + 53 < 972) by (apply Zv_pow_lt_inv; lia).
    replace (e1 + 1 <=? 971) with true by (symmetry; apply Z.leb_le; lia).
    cbn [mag_in]. rewrite Z2Pos.id by (apply pow2_pos; lia).
    rewrite Hv2. repeat split; lia.
Qed.

Lemma new_location_spec (n r : Z) :
  (r = 0 -> new_location n r = loc_Exact) /\ (r <> 0 -> new_location n r <> loc_Exact).
Proof.
  unfold new_location, new_location_even, new_location_odd.
  destruct (Z.even n); destruct (Z.eqb_spec r 0) as [E | E]; split; intros H;
    first [reflexivity | discriminate | contradiction].
Qed.

(** The quotient that [SFdiv] hands to the rounding: long enough for the
    format, with the location of the remainder. *)
Lemma SFdiv_core_spec (m1 e1 m2 e2 : Z) :
  0 < m1 -> 0 < m2 ->
  exists q e' r,
    SFdiv_core_binary prec emax m1 e1 m2 e2 = (q, e', new_location m2 r) /\
    0 <= q /\ 0 <= r < m2 /\ e' <= e1 - e2 /\
    m1 * 2 ^ (e1 - e2 - e') = q * m2 + r /\
    Z.min (-1074) (e1 - e2) <= e' /\
    e' <= fexp prec emax (Zdigits2 q + e').
Proof.
  intros H1 H2. unfold SFdiv_core_binary.
  set (d1 := Zdigits2 m1). set (d2 := Zdigits2 m2).
  set (z := d1 + e1 - (d2 + e2)).
  set (e' := Z.min (fexp prec emax z) (e1 - e2)).
  set (s := e1 - e2 - e').
  assert (Hs : 0 <= s) by (unfold s, e'; lia).
  set (m' := match s with 0 => m1 | Zpos _ => Z.shiftl m1 s | Zneg _ => 0 end).
  assert (Hm' : m' = m1 * 2 ^ s).
  { unfold m'. destruct s as [ | p | p] eqn:Es; [cbn; lia | | lia].
    rewrite Z.shiftl_mul_pow2 by lia. reflexivity. }
  pose proof (Z.div_mod m' m2 ltac:(lia)) as Hdm.
  pose proof (Z.mod_pos_bound m' m2 H2) as Hmb.
  unfold Z.div, Z.modulo in Hdm, Hmb.
  change (IntDef.Z.div_eucl m' m2) with (Z.div_eucl m' m2).
  destruct (Z.div_eucl m' m2) as [q r].
  assert (Hp : 0 < 2 ^ s) by (apply pow2_pos; lia).
  assert (Hq : 0 <= q) by nia.
  exists q, e', r.
  split; [reflexivity | ]. split; [exact Hq | ]. split; [exact Hmb | ].
  split; [unfold e'; lia | ]. split; [fold s; lia | ].
  split; [unfold e'; rewrite fexp_eq; lia | ].
  rewrite fexp_eq.
  destruct (Z.le_gt_cases e' (-1074)) as [Hsub | Hnorm]; [lia | ].
  assert (Hz : e' + 53 <= z) by (unfold e' in *; rewrite fexp_eq in *; lia).
  destruct (Zdigits2_bounds m1 H1) as [B1 _]. fold d1 in B1.
  destruct (Zdigits2_bounds m2 H2) as [_ B2]. fold d2 in B2.
  pose proof (Zdigits2_pos m1 H1) as P1. pose proof (Zdigits2_pos m2 H2) as P2.
  fold d1 in P1. fold d2 in P2.
  assert (H52 : 2 ^ 52 <= q).
  { assert (2 ^ 52 * 2 ^ d2 <= m').
    { rewrite Hm'.
      assert (Hpw : 2 ^ 52 * 2 ^ d2 <= 2 ^ (d1 - 1) * 2 ^ s).
      { rewrite <- !Z.pow_add_r by lia. apply pow2_le. unfold s, z in *. lia. }
      assert (0 < 2 ^ (d1 - 1)) by (apply pow2_pos; lia).
      nia. }
    assert (0 < 2 ^ 52) by (apply pow2_pos; lia).
    nia. }
  assert (53 <= Zdigits2 q).
  { destruct (Zdigits2_bounds q ltac:(lia)) as [_ Bq].
    destruct (Z.lt_ge_cases (Zdigits2 q) 53) as [C | ]; [exfalso | lia].
    assert (2 ^ Zdigits2 q <= 2 ^ 52)
      by (apply pow2_le; pose proof (Zdigits2_pos q ltac:(lia)); lia).
    lia. }
  lia.
Qed.

(** Quotients of finite doubles. *)
Lemma fdiv_finite_bounds (sx : bool) (mx : positive) (ex : Z)
      (sy : bool) (my : positive) (ey ML EL MH EH : Z) :
  -1074 <= ex <= 1074 -> -1074 <= ey <= 1074 -> repr ML EL -> repr MH EH ->
  Zv MH EH < Zv 1 972 ->
  Zv ML EL * Zv (Zpos my) ey <= Zv (Zpos mx) ex * one <= Zv MH EH * Zv (Zpos my) ey ->
  mag_in (xorb sx sy) (Zv ML EL) (Zv MH EH)
         (fdiv (S754_finite sx mx ex) (S754_finite sy my ey)) /\
  is_double (fdiv (S754_finite sx mx ex) (S754_finite sy my ey)).
Proof.
  intros Hex Hey HL HH Hs [Hb1 Hb2]. unfold fdiv, SFdiv.
  destruct (SFdiv_core_spec (Zpos mx) ex (Zpos my) ey ltac:(lia) ltac:(lia))
    as (q & e' & r & Hcore & Hq & Hr & He' & Hdiv & Hlow & Hfexp).
  rewrite Hcore.
  split; [ | apply binary_round_aux_loc_valid; assumption].
  set (Y := Zv (Zpos my) ey) in *.
  assert (HY : 0 < Y) by (apply Zv_pos; lia).
  set (W := 2 ^ (e' + 2148) * 2 ^ (ey + 2148)).
  assert (HW : 0 < W) by (apply Z.mul_pos_pos; apply pow2_pos; lia).
  assert (HX : Zv (Zpos mx) ex * one = (q * Zpos my + r) * W).
  { rewrite <- Hdiv. unfold one, Zv, W. rewrite Z.mul_1_l.
    assert (Hpw : 2 ^ (ex + 2148) * 2 ^ (0 + 2148)
                  = 2 ^ (ex - ey - e') * (2 ^ (e' + 2148) * 2 ^ (ey + 2148))).
    { rewrite <- !Z.pow_add_r by lia. f_equal. lia. }
    rewrite <- Z.mul_assoc, Hpw. ring. }
  assert (HQ : forall n, Zv n e' * Y = n * Zpos my * W).
  { intros n. unfold Y, W, Zv. ring. }
  destruct (new_location_spec (Zpos my) r) as [Lz Lnz].
  apply binary_round_aux_loc_bounds; try assumption; try lia.
  - (* the lower neighbour *)
    apply (Z.mul_lt_mono_pos_r Y); [exact HY | ].
    rewrite HQ. apply Z.le_lt_trans with (Zv (Zpos mx) ex * one); [exact Hb1 | ].
    rewrite HX. nia.
  - apply (Z.mul_le_mono_pos_r _ _ Y); [exact HY | ].
    rewrite HQ. apply Z.le_trans with (Zv (Zpos mx) ex * one); [ | exact Hb2].
    rewrite HX. nia.
  - intros Hl.
    assert (Hrn : r <> 0) by (intros E; apply Hl, Lz, E).
    apply (Z.mul_lt_mono_pos_r Y); [exact HY | ].
    rewrite HQ. apply Z.lt_le_trans with (Zv (Zpos mx) ex * one); [ | exact Hb2].
    rewrite HX. nia.
Qed.

(** The quotient of two positive doubles, within one step of a grid. *)
Lemma fdiv_error (mx : positive) (ex : Z) (my : positive) (ey g : Z) :
  -1074 <= ex <= 1074 -> -1074 <= ey <= 1074 -> -1074 <= g <= 900 ->
  Zv (Zpos mx) ex * one < Zv 1 (g + 52) * Zv (Zpos my) ey ->
  let r := fdiv (S754_finite false mx ex) (S754_finite false my ey) in
  is_double r /\ pos_le (Zv 1 (g + 52)) r /\
  Z.abs (fval r * Zv (Zpos my) ey - Zv (Zpos mx) ex * one) <= Zv 1 g * Zv (Zpos my) ey.
Proof.
  intros Hex Hey Hg Hlt r.
  set (X := Zv (Zpos mx) ex) in *. set (Y := Zv (Zpos my) ey) in *.
  assert (HX : 0 < X) by (apply Zv_pos; lia).
  assert (HY : 0 < Y) by (apply Zv_pos; lia).
  pose proof one_pos as H1.
  set (P := Zv 1 g).
  assert (HP : 0 < P) by (apply Zv_pos; lia).
  assert (H52 : Zv 1 (g + 52) = 2 ^ 52 * P) by (apply Zv_pow_mul; lia).
  assert (HD : 0 < Y * P) by (apply Z.mul_pos_pos; assumption).
  set (N := X * one) in *.
  assert (HN : 0 < N) by (apply Z.mul_pos_pos; assumption).
  pose proof (Z.div_mod N (Y * P) ltac:(lia)) as Hdm.
  pose proof (Z.mod_pos_bound N (Y * P) HD) as Hmb.
  set (ML := N / (Y * P)) in *.
  assert (HML0 : 0 <= ML) by (apply Z.div_pos; lia).
  assert (HML1 : ML < 2 ^ 52).
  { apply Z.div_lt_upper_bound; [exact HD | ]. rewrite H52 in Hlt. lia. }
  assert (H53 : 2 ^ 52 < 2 ^ 53) by (apply pow2_lt; lia).
  assert (HZ : forall n, Zv n g = n * P) by (intros n; unfold P, Zv; ring).
  assert (Hs : Zv (ML + 1) g < Zv 1 972).
  { apply Z.le_lt_trans with (Zv 1 (g + 52)).
    - rewrite H52, HZ. apply Z.mul_le_mono_nonneg_r; lia.
    - assert (Zv 1 (g + 52) <= Zv 1 971) by (apply Zv_pow_le; lia).
      assert (Zv 1 971 < Zv 1 972).
      { replace 972 with (971 + 1) by lia. rewrite (Zv_shift 1 971 1) by lia.
        apply Zv_lt_mono; lia. }
      lia. }
  destruct (fdiv_finite_bounds false mx ex false my ey ML g (ML + 1) g)
    as [Hm Hv]; try assumption; try (unfold repr; lia).
  { fold X Y N. rewrite !HZ. split; nia. }
  fold r in Hm, Hv. cbn [xorb] in Hm.
  assert (0 <= Zv (ML + 1) g) by (rewrite HZ; nia).
  pose proof (mag_in_fval _ _ _ Hm ltac:(lia)) as Hf.
  rewrite !HZ in Hf.
  split; [exact Hv | ]. split.
  - apply (pos_le_of_mag_in _ _ _ _ Hm). rewrite H52, HZ.
    apply Z.mul_le_mono_nonneg_r; lia.
  - apply Z.abs_le. split; nia.
Qed.

(** ** Canonical results *)

Lemma Zdigits2_shift (m j : Z) : 0 < m -> 0 <= j -> Zdigits2 (m * 2 ^ j) = Zdigits2 m + j.
Proof.
  intros Hm Hj.
  destruct (Zdigits2_bounds m Hm) as [B1 B2].
  pose proof (Zdigits2_pos m Hm) as Hp.
  assert (0 < 2 ^ j) by (apply pow2_pos; lia).
  apply Zdigits2_unique; [nia | ].
  replace (Zdigits2 m + j - 1) with ((Zdigits2 m - 1) + j) by lia.
  rewrite !Z.pow_add_r by lia. nia.
Qed.

Lemma binary_round_valid (s : bool) (mx : positive) (ex : Z) :
  is_double (binary_round prec emax s mx ex).
Proof.
  unfold binary_round.
  set (e' := fexp prec emax (Zpos (digits2_pos mx) + ex)).
  destruct (shl_align_spec mx ex e') as [He Hm].
  destruct (shl_align mx ex e') as [mz ez]. cbn [fst snd] in *.
  apply binary_round_aux_loc_valid; [lia | ].
  rewrite Hm, Zdigits2_shift by lia.
  replace (Zdigits2 (Zpos mx) + (ex - Z.min ex e') + ez) with (Zdigits2 (Zpos mx) + ex) by lia.
  change (Zdigits2 (Zpos mx)) with (Zpos (digits2_pos mx)). fold e'. lia.
Qed.

Lemma fadd_valid (x y : float) : is_double x -> is_double y -> is_double (fadd x y).
Proof.
  intros Hx Hy.
  destruct x as [sx | sx | | sx mx ex], y as [sy | sy | | sy my ey];
    try destruct sx; try destruct sy; try exact Hx; try exact Hy; try reflexivity.
  all: unfold fadd, SFadd;
    match goal with
    | |- is_double (binary_normalize _ _ ?z _ _) =>
        destruct z as [ | p | p]; cbn [binary_normalize];
        [reflexivity | apply binary_round_valid | apply binary_round_valid]
    end.
Qed.

(** A canonical double that is zero or positive, against a normal limit. *)
Lemma flt_limit_false (mc : positive) (ec : Z) (v : float) :
  2 ^ 52 <= Zpos mc < 2 ^ 53 -> -1074 <= ec ->
  is_double v -> pos_le (Zv (Zpos mc) ec) v ->
  flt (S754_finite false mc ec) v = false.
Proof.
  intros Hmc Hec Hv Hp.
  destruct v as [s | s | | s m e]; cbn [pos_le] in Hp; try contradiction.
  - reflexivity.
  - destruct s; [contradiction | ]. destruct Hp as [He Hle].
    unfold is_double in Hv. cbn [valid_binary] in Hv.
    destruct (bounded_inv m e Hv) as [Hm53 He'].
    unfold bounded, canonical_mantissa in Hv.
    apply andb_prop in Hv. destruct Hv as [Hc _]. apply Z.eqb_eq in Hc.
    rewrite fexp_eq in Hc.
    destruct (digits2_pos_bounds m) as [Hd1 Hd2].
    unfold flt, SFltb, SFcompare.
    destruct (Z.compare_spec ec e) as [E | E | E]; [ | exfalso | reflexivity].
    + subst e. apply Zv_le_cancel in Hle; [ | lia].
      change (PosDef.Pos.compare_cont Eq mc m) with (Pos.compare_cont Eq mc m).
      rewrite Pos.compare_cont_spec. cbn [Pos.switch_Eq].
      destruct (Pos.compare_spec mc m) as [C | C | C]; try reflexivity. lia.
    + assert (Hdig : Zpos (digits2_pos m) = 53) by lia.
      rewrite Hdig in Hd1. change (53 - 1) with 52 in Hd1.
      assert (Zv (Zpos mc) ec < Zv 1 (ec + 53)) by (apply Zv_lt_pow; lia).
      assert (Zv 1 (ec + 53) <= Zv 1 (e + 52)) by (apply Zv_pow_le; lia).
      assert (Zv 1 (e + 52) <= Zv (Zpos m) e).
      { rewrite Zv_shift by lia. apply Zv_le_mono; lia. }
      lia.
Qed.

(** * Reading back the text of the NMEA encoders *)

Lemma isdigit_cases (c : ascii) :
  isdigit c = true ->
  c = "0"%char \/ c = "1"%char \/ c = "2"%char \/ c = "3"%char \/ c = "4"%char \/
  c = "5"%char \/ c = "6"%char \/ c = "7"%char \/ c = "8"%char \/ c = "9"%char.
Proof.
  intros H.
  destruct c as [[ | ] [ | ] [ | ] [ | ] [ | ] [ | ] [ | ] [ | ]];
    try (vm_compute in H; discriminate H);
    repeat (first [left; reflexivity | right]); reflexivity.
Qed.

Lemma Zchar_digit_char (d : Z) : 0 <= d <= 9 -> Zchar (digit_char d) = 48 + d.
Proof. intros H. unfold digit_char. apply Zchar_char_of_int. lia. Qed.

Lemma isdigit_digit_char (d : Z) : 0 <= d <= 9 -> isdigit (digit_char d) = true.
Proof.
  intros H. unfold isdigit. fold (Zchar (digit_char d)). rewrite Zchar_digit_char by exact H.
  apply andb_true_intro. split; apply Z.leb_le; lia.
Qed.

Lemma dec_val_digit_char (d : Z) : 0 <= d <= 9 -> dec_val (digit_char d) = Some d.
Proof.
  intros H. unfold dec_val. rewrite isdigit_digit_char, Zchar_digit_char by exact H.
  f_equal. lia.
Qed.

Lemma int_of_char_digit_char (d : Z) : 0 <= d <= 9 -> int_of_char (digit_char d) = 48 + d.
Proof.
  intros H. unfold int_of_char. fold (Zchar (digit_char d)).
  rewrite Zchar_digit_char by exact H.
  replace (48 + d <? 128) with true by (symmetry; apply Z.ltb_lt; lia). reflexivity.
Qed.

(** Reading the digits that [fixed_width] wrote. *)
Lemma read_digits_fixed_width (n : nat) : forall (r : Z) (rest : string) (acc k : Z),
  0 <= r ->
  read_digits dec_val 10 (fixed_width n r ++ rest) acc k
  = read_digits dec_val 10 rest (acc * 10 ^ Z.of_nat n + r mod 10 ^ Z.of_nat n)
                (k + Z.of_nat n).
Proof.
  induction n as [ | n IH]; intros r rest acc k Hr.
  - cbn [fixed_width append]. change (10 ^ Z.of_nat 0) with 1.
    rewrite Z.mod_1_r. f_equal; lia.
  - cbn [fixed_width]. rewrite append_assoc. cbn [append].
    rewrite IH by (apply Z.div_pos; lia).
    cbn [read_digits].
    rewrite dec_val_digit_char by (pose proof (Z.mod_pos_bound r 10 ltac:(lia)); lia).
    assert (H10 : 0 < 10 ^ Z.of_nat n) by (apply Z.pow_pos_nonneg; lia).
    rewrite Nat2Z.inj_succ, Z.pow_succ_r by lia.
    rewrite (Z.rem_mul_r r 10 (10 ^ Z.of_nat n)) by lia.
    f_equal; lia.
Qed.

(** [strtod] on two digits and a point: the decimal branch. *)
Lemma strtod_c_point (c0 c1 : ascii) (frac : string) :
  isdigit c0 = true -> isdigit c1 = true ->
  strtod_c (String c0 (String c1 (String "." frac)))
  = (let '(m, nf, s3) :=
       read_digits dec_val 10 frac ((Zchar c0 - 48) * 10 + (Zchar c1 - 48)) 0 in
     if 2 + nf =? 0 then S754_zero false
     else
       let e :=
         match s3 with
         | String p s' => if Ascii.eqb (tolower p) "e" then read_exponent s' else 0
         | EmptyString => 0
         end in
       let e10 := e - nf in
       if 0 <=? e10 then ratio_to_double false (m * 10 ^ e10) 1
       else ratio_to_double false m (10 ^ (- e10))).
Proof.
  intros H0 H1.
  destruct (isdigit_cases c0 H0) as [-> | [-> | [-> | [-> | [-> | [-> | [-> | [-> | [-> | ->]]]]]]]]];
    destruct (isdigit_cases c1 H1)
      as [-> | [-> | [-> | [-> | [-> | [-> | [-> | [-> | [-> | ->]]]]]]]]];
    reflexivity.
Qed.

Lemma digit_bounds (n : Z) : 0 <= n mod 10 <= 9.
Proof. pose proof (Z.mod_pos_bound n 10 ltac:(lia)). lia. Qed.

Lemma render_chars (p : nat) (q : Z) :
  render (p + 3) p q
  = String (digit_char (q / 10 ^ Z.of_nat p / 10 mod 10))
      (String (digit_char (q / 10 ^ Z.of_nat p mod 10))
         (String "." (fixed_width p (q mod 10 ^ Z.of_nat p)))).
Proof. unfold render. replace (p + 3 - p - 1)%nat with 2%nat by lia. reflexivity. Qed.

(** [atof] of a minutes field: two digits, a point and [p] digits. *)
Lemma strtod_c_render (p : nat) (q : Z) :
  0 <= q < 100 * 10 ^ Z.of_nat p ->
  strtod_c (render (p + 3) p q) = ratio_to_double false q (10 ^ Z.of_nat p).
Proof.
  intros Hq. rewrite render_chars.
  set (T := 10 ^ Z.of_nat p) in *.
  assert (HT : 0 < T) by (apply Z.pow_pos_nonneg; lia).
  assert (Hi : 0 <= q / T < 100).
  { split; [apply Z.div_pos; lia | apply Z.div_lt_upper_bound; lia]. }
  pose proof (digit_bounds (q / T / 10)) as Ha.
  pose proof (digit_bounds (q / T)) as Hb.
  pose proof (Z.mod_pos_bound q T HT) as Hf.
  rewrite strtod_c_point by (apply isdigit_digit_char; assumption).
  rewrite !Zchar_digit_char by assumption.
  rewrite <- (append_nil_r (fixed_width p (q mod T))).
  rewrite read_digits_fixed_width by lia.
  cbn [read_digits]. fold T.
  rewrite Z.mod_mod by lia.
  assert (Hm : (48 + q / T / 10 mod 10 - 48) * 10 + (48 + q / T mod 10 - 48) = q / T).
  { rewrite (Z.mod_small (q / T / 10)).
    - pose proof (Z.div_mod (q / T) 10 ltac:(lia)). lia.
    - split; [apply Z.div_pos; lia | apply Z.div_lt_upper_bound; lia]. }
  rewrite Hm.
  replace (q / T * T + q mod T) with q by (pose proof (Z.div_mod q T ltac:(lia)); lia).
  replace (2 + (0 + Z.of_nat p) =? 0) with false by (symmetry; apply Z.eqb_neq; lia).
  cbv zeta.
  destruct p as [ | p'].
  - change (0 <=? 0 - (0 + Z.of_nat 0)) with true. cbv iota.
    change (10 ^ (0 - (0 + Z.of_nat 0))) with 1. unfold T. change (10 ^ Z.of_nat 0) with 1.
    rewrite Z.mul_1_r; reflexivity.
  - replace (0 <=? 0 - (0 + Z.of_nat (S p'))) with false by (symmetry; apply Z.leb_gt; lia).
    cbv iota. unfold T. replace (- (0 - (0 + Z.of_nat (S p')))) with (Z.of_nat (S p')) by lia.
    reflexivity.
Qed.

(** ** The value that the decoders compute from such a text *)

Lemma abs_cancel (a c u : Z) : 0 < u -> Z.abs (a * u) <= c * u -> Z.abs a <= c.
Proof.
  intros Hu H. rewrite Z.abs_mul, (Z.abs_eq u) in H by lia.
  apply (Z.mul_le_mono_pos_r _ _ u); assumption.
Qed.

Lemma int_to_double_valid (n : Z) : is_double (int_to_double n).
Proof.
  unfold int_to_double, binary_normalize.
  destruct n; [reflexivity | apply binary_round_valid | apply binary_round_valid].
Qed.

Lemma is_double_finite (s : bool) (m : positive) (e : Z) :
  is_double (S754_finite s m e) -> -1074 <= e <= 971.
Proof. intros H. apply (bounded_inv m e). exact H. Qed.

(** Lines 444 and 506: [atof] of the minutes, [q] units of [10^-p], divided
    by 60. *)
Lemma minutes_back (p : nat) (q : Z) :
  0 < q < 100 * 10 ^ Z.of_nat p ->
  let t2 := fdiv (ratio_to_double false q (10 ^ Z.of_nat p)) d60 in
  is_double t2 /\ pos_le (2 * one) t2 /\
  Z.abs (60 * 10 ^ Z.of_nat p * fval t2 - q * one)
  <= 10 ^ Z.of_nat p * (60 * Zv 1 (-51) + Zv 1 (-45)) /\
  forall B, 0 <= B < 2 ^ 40 -> q <= 60 * 10 ^ Z.of_nat p * B -> pos_le (Zv B 0) t2.
Proof.
  intros Hq. cbv zeta. pose proof one_pos as H1.
  remember (10 ^ Z.of_nat p) as T eqn:ET0.
  assert (HT : 0 < T) by (subst T; apply Z.pow_pos_nonneg; lia).
  clear ET0.
  destruct q as [ | q0 | q0]; try lia.
  assert (ET : exists tp, T = Zpos tp) by (destruct T; try lia; eauto).
  destruct ET as [tp ET].
  assert (HX : Zv (Zpos q0) 0 = Zpos q0 * one) by apply Zv_one.
  assert (HY : Zv (Zpos tp) 0 = T * one) by (rewrite ET; apply Zv_one).
  assert (G7 : Zv 1 (-45 + 52) = 128 * one) by (apply (Zv_pow_mul 7 0); lia).
  assert (G1 : Zv 1 (-51 + 52) = 2 * one) by (apply (Zv_pow_mul 1 0); lia).
  assert (P45 : 0 < Zv 1 (-45)) by (apply Zv_pos; lia).
  assert (P51 : 0 < Zv 1 (-51)) by (apply Zv_pos; lia).
  assert (L45 : Zv 1 (-45) <= one) by (unfold one; apply Zv_pow_le; lia).
  assert (H40 : 2 ^ 40 = 1099511627776) by reflexivity.
  assert (H53 : 2 ^ 53 = 9007199254740992) by reflexivity.
  assert (Hfl : fdiv (ratio_to_double false (Zpos q0) T) d60
                = fdiv (fdiv (S754_finite false q0 0) (S754_finite false tp 0)) d60)
    by (rewrite ET; reflexivity).
  rewrite Hfl. clear Hfl.
  (* atof *)
  destruct (fdiv_error q0 0 tp 0 (-45)) as (V1 & P1 & E1); try lia.
  { rewrite HX, HY, G7. nia. }
  set (t1 := fdiv (S754_finite false q0 0) (S754_finite false tp 0)) in *.
  rewrite HX, HY in E1.
  assert (E1' : Z.abs (T * fval t1 - Zpos q0 * one) <= T * Zv 1 (-45)).
  { apply (abs_cancel _ _ one H1).
    replace ((T * fval t1 - Zpos q0 * one) * one)
      with (fval t1 * (T * one) - Zpos q0 * one * one) by ring.
    replace (T * Zv 1 (-45) * one) with (Zv 1 (-45) * (T * one)) by ring.
    exact E1. }
  assert (B1 : forall B, 0 <= B < 2 ^ 40 -> Zpos q0 <= 60 * T * B -> fval t1 <= 60 * B * one).
  { intros B HB HqB.
    destruct (fdiv_finite_bounds false q0 0 false tp 0 0 0 (60 * B) 0) as [Hm _];
      try lia; try (unfold repr; lia).
    - apply Zv_repr_small. clear - HB H40 H53. lia.
    - rewrite HX, HY, (Zv_one (60 * B)), (Zv_one 0). nia.
    - fold t1 in Hm. cbn [xorb] in Hm.
      pose proof (mag_in_fval _ _ _ Hm ltac:(rewrite Zv_one; nia)) as F.
      rewrite (Zv_one (60 * B)) in F. lia. }
  assert (F1 : 0 <= fval t1 < 101 * one).
  { pose proof (pos_le_fval _ _ P1 ltac:(rewrite G7; lia)) as F.
    split; [lia | ].
    apply Z.abs_le in E1'.
    assert (T * fval t1 < T * (101 * one)) by nia.
    apply (Z.mul_lt_mono_pos_l T); assumption. }
  destruct t1 as [s1 | s1 | | s1 m1 e1] eqn:Et1; cbn [pos_le] in P1; try contradiction.
  - (* the quotient underflows to a zero *)
    rewrite d60_Zv. cbn [fdiv SFdiv fval] in *.
    split; [reflexivity | ]. split; [exact I | ].
    rewrite Z.mul_0_r in *. split; [ | intros; exact I].
    apply Z.le_trans with (T * Zv 1 (-45)); [exact E1' | nia].
  - destruct s1; [contradiction | ]. destruct P1 as [He1 _].
    destruct (is_double_finite _ _ _ V1) as [_ He1'].
    cbn [fval cond_Zopp] in F1, E1', B1.
    rewrite d60_Zv.
    assert (HY' : Zv (Zpos (Z.to_pos (60 * 2 ^ 47))) (-47) = 60 * one)
      by (rewrite Zv_to_pos_const by lia; apply Zv_one).
    destruct (fdiv_error m1 e1 (Z.to_pos (60 * 2 ^ 47)) (-47) (-51)) as (V2 & P2 & E2); try lia.
    { rewrite HY', G1. nia. }
    set (t := fdiv (S754_finite false m1 e1)
                   (S754_finite false (Z.to_pos (60 * 2 ^ 47)) (-47))) in *.
    rewrite G1 in P2.
    split; [exact V2 | ]. split; [exact P2 | ].
    rewrite HY' in E2.
    assert (E2' : Z.abs (60 * fval t - Zv (Zpos m1) e1) <= 60 * Zv 1 (-51)).
    { apply (abs_cancel _ _ one H1).
      replace ((60 * fval t - Zv (Zpos m1) e1) * one)
        with (fval t * (60 * one) - Zv (Zpos m1) e1 * one) by ring.
      replace (60 * Zv 1 (-51) * one) with (Zv 1 (-51) * (60 * one)) by ring.
      exact E2. }
    split.
    + replace (60 * T * fval t - Zpos q0 * one)
        with (T * (60 * fval t - Zv (Zpos m1) e1)
              + (T * Zv (Zpos m1) e1 - Zpos q0 * one)) by ring.
      pose proof (Z.abs_triangle (T * (60 * fval t - Zv (Zpos m1) e1))
                                 (T * Zv (Zpos m1) e1 - Zpos q0 * one)) as Tr.
      rewrite (Z.abs_mul T), (Z.abs_eq T) in Tr by lia.
      assert (T * Z.abs (60 * fval t - Zv (Zpos m1) e1) <= T * (60 * Zv 1 (-51)))
        by (apply Z.mul_le_mono_nonneg_l; lia).
      lia.
    + intros B HB HqB. specialize (B1 B HB HqB).
      destruct (fdiv_finite_bounds false m1 e1 false (Z.to_pos (60 * 2 ^ 47)) (-47) 0 0 B 0)
        as [Hm _]; try lia; try (unfold repr; lia).
      * apply Zv_repr_small. clear - HB H40 H53. lia.
      * rewrite HY', (Zv_one 0), (Zv_one B). nia.
      * exact (mag_in_pos_le _ _ _ Hm).
Qed.

Lemma pos_le_zero_sum (H : Z) (y : float) :
  is_double y -> pos_le H y ->
  is_double (fadd (S754_zero false) y) /\ pos_le H (fadd (S754_zero false) y) /\
  fval (fadd (S754_zero false) y) = fval y.
Proof.
  intros Hv Hp.
  destruct y as [s | s | | s m e]; cbn [pos_le] in Hp; try contradiction.
  - destruct s; repeat split.
  - repeat split; assumption.
Qed.

Lemma pos_le_weaken (H H' : Z) (x : float) : pos_le H x -> H <= H' -> pos_le H' x.
Proof.
  destruct x as [s | s | | s m e]; cbn [pos_le]; try tauto.
  destruct s; [tauto | ]. intros [He Hv] Hle. split; lia.
Qed.

(** Lines 444 and 506 on the degrees [D] and the minutes [q], in units of
    [10^-p] minutes. *)
Lemma decode_value (p : nat) (D q : Z) :
  0 <= D < 1000 -> 0 <= q < 100 * 10 ^ Z.of_nat p ->
  let S := 60 * 10 ^ Z.of_nat p in
  let v := fadd (int_to_double D) (fdiv (ratio_to_double false q (10 ^ Z.of_nat p)) d60) in
  is_double v /\ pos_le (1024 * one) v /\
  Z.abs (S * fval v - (S * D + q) * one) <= S * Zv 1 (-41) /\
  forall N, 0 < N < 2 ^ 40 -> S * D + q <= S * N -> pos_le (Zv N 0) v.
Proof.
  intros HD Hq. cbv zeta. pose proof one_pos as H1.
  remember (10 ^ Z.of_nat p) as T eqn:ET0.
  assert (HT : 0 < T) by (subst T; apply Z.pow_pos_nonneg; lia).
  assert (P41 : 0 < Zv 1 (-41)) by (apply Zv_pos; lia).
  assert (G42 : Zv 1 (-41) = 2 * Zv 1 (-42)) by (apply (Zv_pow_mul 1 (-42)); lia).
  assert (G45 : Zv 1 (-42) = 8 * Zv 1 (-45)) by (apply (Zv_pow_mul 3 (-45)); lia).
  assert (G51 : Zv 1 (-45) = 64 * Zv 1 (-51)) by (apply (Zv_pow_mul 6 (-51)); lia).
  assert (P51 : 0 < Zv 1 (-51)) by (apply Zv_pos; lia).
  assert (G10 : Zv 1 (-42 + 52) = 1024 * one) by (apply (Zv_pow_mul 10 0); lia).
  assert (H40 : 2 ^ 40 = 1099511627776) by reflexivity.
  assert (H53 : 2 ^ 53 = 9007199254740992) by reflexivity.
  (* the minutes *)
  assert (Ht : exists t2, fdiv (ratio_to_double false q T) d60 = t2 /\
                          is_double t2 /\ pos_le (2 * one) t2 /\
                          Z.abs (60 * T * fval t2 - q * one)
                          <= T * (60 * Zv 1 (-51) + Zv 1 (-45)) /\
                          (q = 0 -> t2 = S754_zero false) /\
                          forall B, 0 <= B < 2 ^ 40 -> q <= 60 * T * B -> pos_le (Zv B 0) t2).
  { destruct (Z.eq_dec q 0) as [-> | Hnz].
    - exists (S754_zero false). split; [destruct T; reflexivity | ]. split; [reflexivity | ].
      split; [exact I | ]. split; [ | split; [reflexivity | intros; exact I]].
      cbn [fval]. rewrite Z.mul_0_r, Z.mul_0_l. cbn [Z.sub Z.opp Z.add Z.abs]. nia.
    - destruct (minutes_back p q ltac:(subst T; lia)) as (A & B & C & E).
      rewrite <- ET0 in A, B, C, E.
      eexists. split; [reflexivity | ]. repeat split; try assumption. lia. }
  destruct Ht as (t2 & Et & Vt & Pt & Errt & Zt & Bt).
  rewrite Et. clear Et ET0.
  pose proof (pos_le_fval _ _ Pt ltac:(lia)) as Ft.
  assert (HS : T * (60 * Zv 1 (-51) + Zv 1 (-45)) <= 60 * T * Zv 1 (-42)) by nia.
  destruct (Z.eq_dec D 0) as [-> | HDnz].
  - change (int_to_double 0) with (S754_zero false).
    destruct (pos_le_zero_sum _ t2 Vt Pt) as (A & B & C).
    split; [exact A | ]. split; [apply (pos_le_weaken _ _ _ B); lia | ]. rewrite C.
    split.
    + replace ((60 * T * 0 + q) * one) with (q * one) by ring. nia.
    + intros N HN Hcap.
      destruct (pos_le_zero_sum _ t2 Vt (Bt N ltac:(lia) ltac:(lia))) as (_ & B' & _).
      exact B'.
  - destruct (int_to_double_exact D) as (mi & ei & Hid & Hei & Hvi).
    { clear - HD HDnz H53. lia. }
    pose proof (int_to_double_valid D) as Vd.
    rewrite Hid in Vd |- *. rewrite Zv_one in Hvi.
    destruct t2 as [s | s | | s m e] eqn:E2; cbn [pos_le] in Pt; try contradiction.
    + (* no minutes *)
      cbn [fadd SFadd]. split; [exact Vd | ].
      cbn [fval] in Errt. rewrite Z.mul_0_r in Errt.
      assert (Hq0 : Z.abs (0 - q * one) = q * one) by (rewrite Z.abs_neq; nia).
      cbn [pos_le fval cond_Zopp]. rewrite Hvi.
      split; [split; [lia | nia] | ]. split.
      * replace (60 * T * (D * one) - (60 * T * D + q) * one) with (0 - q * one) by ring.
        nia.
      * intros N HN Hcap. split; [lia | ]. rewrite Zv_one.
        assert (D <= N) by nia. nia.
    + destruct s; [contradiction | ]. destruct Pt as [He Hle].
      assert (Hq0 : q <> 0) by (intros C; specialize (Zt C); discriminate Zt).
      cbn [fval cond_Zopp] in Errt, Ft.
      destruct (fadd_error false mi ei false m e (D * one + Zv (Zpos m) e) (-42))
        as [P3 E3]; try lia.
      { cbn [cond_Zopp]. rewrite Hvi. reflexivity. }
      { rewrite G10. clear - HD H1 Ft Hle. nia. }
      split; [apply fadd_valid; assumption | ].
      assert (G0 : one = 2 ^ 42 * Zv 1 (-42)) by (apply (Zv_pow_mul 42 (-42)); lia).
      assert (HDone : 0 <= D * one <= 999 * one) by (clear - HD H1; nia).
      split; [apply (pos_le_weaken _ _ _ P3); clear - HDone Hle G0 P41 G42 H1; lia | ].
      split.
      * set (w := fval (fadd (S754_finite false mi ei) (S754_finite false m e))) in *.
        set (t := Zv (Zpos m) e) in *.
        replace (60 * T * w - (60 * T * D + q) * one)
          with (60 * T * (w - (D * one + t)) + (60 * T * t - q * one)) by ring.
        pose proof (Z.abs_triangle (60 * T * (w - (D * one + t))) (60 * T * t - q * one)) as Tr.
        rewrite (Z.abs_mul (60 * T)), (Z.abs_eq (60 * T)) in Tr by lia.
        assert (60 * T * Z.abs (w - (D * one + t)) <= 60 * T * Zv 1 (-42))
          by (apply Z.mul_le_mono_nonneg_l; lia).
        rewrite G42. clear - Tr H HS Errt. lia.
      * intros N HN Hcap.
        assert (HDN : D < N) by (apply (Z.mul_lt_mono_pos_l (60 * T)); lia).
        pose proof (Bt (N - D) ltac:(lia) ltac:(clear - Hcap; lia)) as Pb.
        cbn [pos_le] in Pb. destruct Pb as [_ Hb]. rewrite Zv_one in Hb.
        apply (mag_in_pos_le (Zv 0 0)).
        apply fadd_finite_bounds; try lia; try (unfold repr; clear - HN H40 H53; lia).
        -- apply Zv_repr_small. clear - HN H40 H53. lia.
        -- cbn [cond_Zopp]. rewrite Hvi, (Zv_one N), (Zv_one 0).
           clear - Hb HDone Ft. lia.
Qed.

(** ** Decoding what the NMEA encoders wrote *)

Lemma two_digits (D : Z) : 0 <= D < 100 -> (D / 10 mod 10) * 10 + D mod 10 = D.
Proof.
  intros H. rewrite (Z.mod_small (D / 10)).
  - pose proof (Z.div_mod D 10 ltac:(lia)). lia.
  - split; [apply Z.div_pos; lia | apply Z.div_lt_upper_bound; lia].
Qed.

Lemma three_digits (D : Z) :
  0 <= D < 1000 -> (D / 10 / 10 mod 10) * 100 + (D / 10 mod 10) * 10 + D mod 10 = D.
Proof.
  intros H. rewrite (Z.mod_small (D / 10 / 10)).
  - pose proof (Z.div_mod D 10 ltac:(lia)).
    pose proof (Z.div_mod (D / 10) 10 ltac:(lia)). lia.
  - split; [apply Z.div_pos; [apply Z.div_pos | ]; lia | ].
    apply Z.div_lt_upper_bound; [lia | ]. apply Z.div_lt_upper_bound; lia.
Qed.

(** A minutes field spelled out: two digits, a point and [p] digits. *)
Lemma render_split (p : nat) (M F : Z) :
  0 <= F < 10 ^ Z.of_nat p ->
  render (p + 3) p (M * 10 ^ Z.of_nat p + F)
  = (fixed_width 2 M ++ "." ++ fixed_width p F)%string.
Proof.
  intros HF. unfold render. replace (p + 3 - p - 1)%nat with 2%nat by lia.
  assert (HT : 0 < 10 ^ Z.of_nat p) by (apply Z.pow_pos_nonneg; lia).
  replace ((M * 10 ^ Z.of_nat p + F) / 10 ^ Z.of_nat p) with M
    by (apply (Z.div_unique _ _ M F); lia).
  replace ((M * 10 ^ Z.of_nat p + F) mod 10 ^ Z.of_nat p) with F
    by (apply (Z.mod_unique _ _ M F); lia).
  reflexivity.
Qed.

Section Round_trip.

Variable G_UNKNOWN : float.

(** [latitude_from_nmea] on two digits of degrees and a minutes field. *)
Lemma latitude_from_nmea_field (p : nat) (D q : Z) (hemi : string) (log : list event) :
  0 <= D < 100 -> 0 <= q < 100 * 10 ^ Z.of_nat p ->
  let v := fadd (int_to_double D) (fdiv (ratio_to_double false q (10 ^ Z.of_nat p)) d60) in
  latitude_from_nmea G_UNKNOWN strtod_c (fixed_width 2 D ++ render (p + 3) p q) hemi log
  = Some (if Ascii.eqb (first_char hemi) "S" then fneg v else v,
          log ++ lat_range_events v ++ lat_hemi_events (first_char hemi)).
Proof.
  intros HD Hq v.
  pose proof (digit_bounds (D / 10)) as Ha. pose proof (digit_bounds D) as Hb.
  set (pstr := (fixed_width 2 D ++ render (p + 3) p q)%string).
  assert (Hp : pstr = String (digit_char (D / 10 mod 10))
                        (String (digit_char (D mod 10)) (render (p + 3) p q))) by reflexivity.
  destruct (latitude_from_nmea_accept G_UNKNOWN strtod_c pstr hemi
              (digit_char (D / 10 mod 10)) log)
    as (c1 & Hc1 & Hrun).
  - rewrite Hp. reflexivity.
  - apply isdigit_digit_char, Ha.
  - rewrite Hp, render_chars. reflexivity.
  - rewrite Hp in Hc1. cbn [String.get] in Hc1. injection Hc1 as <-.
    cbv zeta in Hrun. rewrite Hrun.
    replace (lat_value strtod_c (digit_char (D / 10 mod 10)) (digit_char (D mod 10))
                       (string_drop 2 pstr)) with v; [reflexivity | ].
    unfold v, lat_value. rewrite Hp. cbn [string_drop].
    rewrite strtod_c_render by exact Hq.
    rewrite !int_of_char_digit_char by assumption.
    change (int_of_char "0") with 48.
    f_equal. f_equal. rewrite <- (two_digits D HD) at 1. lia.
Qed.

(** [longitude_from_nmea] on three digits of degrees and a minutes field. *)
Lemma longitude_from_nmea_field (p : nat) (D q : Z) (hemi : string) (log : list event) :
  0 <= D < 1000 -> 0 <= q < 100 * 10 ^ Z.of_nat p ->
  let v := fadd (int_to_double D) (fdiv (ratio_to_double false q (10 ^ Z.of_nat p)) d60) in
  longitude_from_nmea G_UNKNOWN strtod_c (fixed_width 3 D ++ render (p + 3) p q) hemi log
  = Some (if Ascii.eqb (first_char hemi) "W" then fneg v else v,
          log ++ long_range_events v ++ long_hemi_events (first_char hemi)).
Proof.
  intros HD Hq v.
  pose proof (digit_bounds (D / 10 / 10)) as Ha. pose proof (digit_bounds (D / 10)) as Hb.
  pose proof (digit_bounds D) as Hc.
  set (pstr := (fixed_width 3 D ++ render (p + 3) p q)%string).
  assert (Hp : pstr = String (digit_char (D / 10 / 10 mod 10))
                        (String (digit_char (D / 10 mod 10))
                           (String (digit_char (D mod 10)) (render (p + 3) p q)))) by reflexivity.
  destruct (longitude_from_nmea_accept G_UNKNOWN strtod_c pstr hemi
              (digit_char (D / 10 / 10 mod 10)) log)
    as (c1 & c2 & Hc1 & Hc2 & Hrun).
  - rewrite Hp. reflexivity.
  - apply isdigit_digit_char, Ha.
  - rewrite Hp, render_chars. reflexivity.
  - rewrite Hp in Hc1, Hc2. cbn [String.get] in Hc1, Hc2.
    injection Hc1 as <-. injection Hc2 as <-.
    cbv zeta in Hrun. rewrite Hrun.
    replace (long_value strtod_c (digit_char (D / 10 / 10 mod 10))
                        (digit_char (D / 10 mod 10)) (digit_char (D mod 10))
                        (string_drop 3 pstr)) with v; [reflexivity | ].
    unfold v, long_value. rewrite Hp. cbn [string_drop].
    rewrite strtod_c_render by exact Hq.
    rewrite !int_of_char_digit_char by assumption.
    change (int_of_char "0") with 48.
    f_equal. f_equal. rewrite <- (three_digits D HD) at 1. lia.
Qed.

Lemma flt_d0_false (H : Z) (v : float) : pos_le H v -> flt v d0 = false.
Proof.
  destruct v as [s | s | | s m e]; cbn [pos_le]; try contradiction.
  - intros _. reflexivity.
  - destruct s; [contradiction | reflexivity].
Qed.

Lemma flt_clamp_d0 (mc : positive) (ec : Z) (x : float) :
  flt (clamp (S754_finite false mc ec) x) d0 = flt x d0.
Proof.
  pose proof (hemisphere_clamp "S" "N" mc ec x) as H. unfold hemisphere in H.
  destruct (flt (clamp (S754_finite false mc ec) x) d0), (flt x d0);
    try reflexivity; discriminate H.
Qed.

Lemma fval_fneg (x : float) : fval (fneg x) = - fval x.
Proof. destruct x as [s | s | | s m e]; try reflexivity. destruct s; cbn; lia. Qed.

Lemma fval_magnitude (c : float) :
  fval (magnitude c) = if flt c d0 then - fval c else fval c.
Proof. unfold magnitude. destruct (flt c d0); [apply fval_fneg | reflexivity]. Qed.

Lemma grid_20 : 2 * (600000 * Zv 1 (-41)) + Zv 1 (-31) <= Zv 1 (-20).
Proof.
  assert (G1 : Zv 1 (-20) = 2 ^ 21 * Zv 1 (-41)) by (apply (Zv_pow_mul 21 (-41)); lia).
  assert (G2 : Zv 1 (-31) = 2 ^ 10 * Zv 1 (-41)) by (apply (Zv_pow_mul 10 (-41)); lia).
  assert (0 < Zv 1 (-41)) by (apply Zv_pos; lia).
  rewrite G1, G2. change (2 ^ 21) with 2097152. change (2 ^ 10) with 1024. lia.
Qed.

(** No range error for a canonical value between zero and the limit. *)
Lemma lat_range_quiet (v : float) :
  is_double v -> pos_le (Zv 90 0) v -> lat_range_events v = [].
Proof.
  intros Vv Pv.
  assert (Hlim : flt d90 v = false).
  { rewrite d90_Zv. apply flt_limit_false.
    - split; [apply d90_normal | vm_compute; reflexivity].
    - lia.
    - exact Vv.
    - rewrite Zv_to_pos_const by lia. exact Pv. }
  unfold lat_range_events. rewrite (flt_d0_false _ _ Pv), Hlim. reflexivity.
Qed.

Lemma long_range_quiet (v : float) :
  is_double v -> pos_le (Zv 180 0) v -> long_range_events v = [].
Proof.
  intros Vv Pv.
  assert (Hlim : flt d180 v = false).
  { rewrite d180_Zv. apply flt_limit_false.
    - split; [apply d180_normal | vm_compute; reflexivity].
    - lia.
    - exact Vv.
    - rewrite Zv_to_pos_const by lia. exact Pv. }
  unfold long_range_events. rewrite (flt_d0_false _ _ Pv), Hlim. reflexivity.
Qed.

Lemma signed_error (south : bool) (S V w : Z) :
  Z.abs (S * (if south then - w else w) - (if south then -1 else 1) * V)
  = Z.abs (S * w - V).
Proof.
  destruct south; [ | f_equal; ring].
  replace (S * - w - -1 * V) with (- (S * w - V)) by ring. apply Z.abs_opp.
Qed.

(** X13. A field made of the degrees [D] on two digits (three for a
    longitude), the minutes [M] on two digits, a point and any number [p] of
    further digits [F], read with the C library's [atof]. The decoders
    return D + (M + F / 10^p) / 60 degrees within 2^-41 of a degree, negated
    for the hemisphere S (W), and log nothing when the position written is
    at most 90 (180) degrees. *)
Theorem nmea_decode_accuracy (p : nat) (D M F : Z) (neg : bool) :
  0 <= M < 100 -> 0 <= F < 10 ^ Z.of_nat p ->
  let T := 10 ^ Z.of_nat p in
  let mins := (fixed_width 2 M ++ "." ++ fixed_width p F)%string in
  let sgn := if neg then -1 else 1 in
  (0 <= D < 100 ->
   exists v log,
     run (latitude_from_nmea G_UNKNOWN strtod_c (fixed_width 2 D ++ mins)
                             (if neg then "S" else "N")) = Some (v, log) /\
     Z.abs (60 * T * fval v - sgn * (((60 * D + M) * T + F) * one)) <= 60 * T * Zv 1 (-41) /\
     ((60 * D + M) * T + F <= 60 * 90 * T -> log = [])) /\
  (0 <= D < 1000 ->
   exists v log,
     run (longitude_from_nmea G_UNKNOWN strtod_c (fixed_width 3 D ++ mins)
                              (if neg then "W" else "E")) = Some (v, log) /\
     Z.abs (60 * T * fval v - sgn * (((60 * D + M) * T + F) * one)) <= 60 * T * Zv 1 (-41) /\
     ((60 * D + M) * T + F <= 60 * 180 * T -> log = [])).
Proof.
  intros HM HF T mins sgn.
  assert (HT : 0 < T) by (apply Z.pow_pos_nonneg; lia).
  set (q := M * T + F).
  assert (Hq : 0 <= q < 100 * T) by (unfold q; nia).
  assert (Hmins : mins = render (p + 3) p q) by (symmetry; apply render_split; exact HF).
  rewrite Hmins.
  assert (HV : forall D, (60 * D + M) * T + F = 60 * T * D + q) by (intros; unfold q; ring).
  split; intros HD.
  - destruct (decode_value p D q ltac:(lia) Hq) as (Vv & _ & Ev & Cap).
    fold T in Vv, Ev, Cap.
    set (v := fadd (int_to_double D) (fdiv (ratio_to_double false q T) d60)) in *.
    pose proof (latitude_from_nmea_field p D q (if neg then "S" else "N") [] HD Hq) as Hdec.
    cbv zeta in Hdec. fold T in Hdec. fold v in Hdec.
    exists (if neg then fneg v else v), (lat_range_events v).
    split; [ | split].
    + unfold run. rewrite Hdec. destruct neg; cbn; rewrite app_nil_r; reflexivity.
    + rewrite HV.
      replace (fval (if neg then fneg v else v)) with (if neg then - fval v else fval v)
        by (destruct neg; [rewrite fval_fneg | ]; reflexivity).
      unfold sgn. rewrite signed_error. exact Ev.
    + intros Hcap. apply lat_range_quiet; [exact Vv | ].
      apply Cap; [split; [lia | reflexivity] | ]. rewrite <- HV. lia.
  - destruct (decode_value p D q HD Hq) as (Vv & _ & Ev & Cap).
    fold T in Vv, Ev, Cap.
    set (v := fadd (int_to_double D) (fdiv (ratio_to_double false q T) d60)) in *.
    pose proof (longitude_from_nmea_field p D q (if neg then "W" else "E") [] HD Hq) as Hdec.
    cbv zeta in Hdec. fold T in Hdec. fold v in Hdec.
    exists (if neg then fneg v else v), (long_range_events v).
    split; [ | split].
    + unfold run. rewrite Hdec. destruct neg; cbn; rewrite app_nil_r; reflexivity.
    + rewrite HV.
      replace (fval (if neg then fneg v else v)) with (if neg then - fval v else fval v)
        by (destruct neg; [rewrite fval_fneg | ]; reflexivity).
      unfold sgn. rewrite signed_error. exact Ev.
    + intros Hcap. apply long_range_quiet; [exact Vv | ].
      apply Cap; [split; [lia | reflexivity] | ]. rewrite <- HV. lia.
Qed.

(** X14. For a double [x] that is neither a NaN nor the sentinel, decoding
    what the NMEA encoder wrote for [x] (reading with the C library's
    [atof]) gives back the clamped [x] within (1 + 2^-20) / 1200000 of a
    degree, that is half a ten-thousandth of a minute and a little; the
    decoder reports nothing. *)
Theorem nmea_round_trip (x : float) :
  is_double x -> is_nan x = false -> feq x G_UNKNOWN = false ->
  (exists slat hemi log v,
      run (latitude_to_nmea G_UNKNOWN x) = Some ((slat, hemi), log) /\
      run (latitude_from_nmea G_UNKNOWN strtod_c slat hemi) = Some (v, []) /\
      1200000 * Z.abs (fval v - fval (clamp d90 x)) <= one + Zv 1 (-20)) /\
  (exists slong hemi log v,
      run (longitude_to_nmea G_UNKNOWN x) = Some ((slong, hemi), log) /\
      run (longitude_from_nmea G_UNKNOWN strtod_c slong hemi) = Some (v, []) /\
      1200000 * Z.abs (fval v - fval (clamp d180 x)) <= one + Zv 1 (-20)).
Proof.
  intros Hd Hn Hg. pose proof grid_20 as G20. pose proof one_pos as H1.
  assert (P20 : 0 < Zv 1 (-20)) by (apply Zv_pos; lia).
  destruct (neg_zero x) eqn:Hz.
  { (* the negative zero *)
    apply neg_zero_inv in Hz. subst x. split.
    - exists "00-0.0000"%string, "N"%string, [], (S754_zero false). split; [ | split].
      + unfold run, latitude_to_nmea. rewrite Hg. vm_compute. reflexivity.
      + vm_compute. reflexivity.
      + change (clamp d90 (S754_zero true)) with (S754_zero true). cbn [fval].
        change (Z.abs (0 - 0)) with 0. lia.
    - exists "000-0.0000"%string, "E"%string, [], (S754_zero false). split; [ | split].
      + unfold run, longitude_to_nmea. rewrite Hg. vm_compute. reflexivity.
      + vm_compute. reflexivity.
      + change (clamp d180 (S754_zero true)) with (S754_zero true). cbn [fval].
        change (Z.abs (0 - 0)) with 0. lia. }
  split.
  - destruct (latitude_to_nmea_value G_UNKNOWN x Hd Hn Hz Hg)
      as (D & q & HD & Hq & Hcap & Herr & Hrun).
    assert (HD' : 0 <= D < 100) by lia.
    destruct (decode_value 4 D q ltac:(lia) ltac:(change (10 ^ Z.of_nat 4) with 10000; lia))
      as (Vv & _ & Ev & Cap).
    change (10 ^ Z.of_nat 4) with 10000 in Vv, Ev, Cap.
    set (v := fadd (int_to_double D) (fdiv (ratio_to_double false q 10000) d60)) in *.
    pose proof (Cap 90 ltac:(split; [lia | reflexivity]) ltac:(lia)) as Pv.
    pose proof (latitude_from_nmea_field 4 D q
                  (String (hemisphere "S" "N" (clamp d90 x)) "") []
                  HD' ltac:(change (10 ^ Z.of_nat 4) with 10000; lia)) as Hdec.
    cbv zeta in Hdec. change (10 ^ Z.of_nat 4) with 10000 in Hdec.
    fold v in Hdec. cbn [first_char app] in Hdec.
    rewrite (lat_range_quiet v Vv Pv) in Hdec.
    pose proof (flt_clamp_d0 _ _ x : flt (clamp d90 x) d0 = flt x d0) as Hs.
    rewrite fval_magnitude, Hs in Herr.
    unfold hemisphere in Hdec, Hrun. rewrite Hs in Hdec, Hrun.
    replace (60 * 10000 * fval v) with (600000 * fval v) in Ev by ring.
    replace (60 * 10000 * D) with (600000 * D) in Ev by ring.
    replace (60 * 10000 * Zv 1 (-41)) with (600000 * Zv 1 (-41)) in Ev by ring.
    destruct (flt x d0).
    + exists (fixed_width 2 D ++ render 7 4 q)%string, "S"%string.
      eexists _, (fneg v). split; [apply Hrun | ]. split; [exact Hdec | ].
      rewrite fval_fneg.
      replace (- fval v - fval (clamp d90 x)) with (- (fval v - - fval (clamp d90 x))) by ring.
      rewrite Z.abs_opp. lia.
    + exists (fixed_width 2 D ++ render 7 4 q)%string, "N"%string.
      eexists _, v. split; [apply Hrun | ]. split; [exact Hdec | ]. lia.
  - destruct (longitude_to_nmea_value G_UNKNOWN x Hd Hn Hz Hg)
      as (D & q & HD & Hq & Hcap & Herr & Hrun).
    assert (HD' : 0 <= D < 1000) by lia.
    destruct (decode_value 4 D q HD' ltac:(change (10 ^ Z.of_nat 4) with 10000; lia))
      as (Vv & _ & Ev & Cap).
    change (10 ^ Z.of_nat 4) with 10000 in Vv, Ev, Cap.
    set (v := fadd (int_to_double D) (fdiv (ratio_to_double false q 10000) d60)) in *.
    pose proof (Cap 180 ltac:(split; [lia | reflexivity]) ltac:(lia)) as Pv.
    pose proof (longitude_from_nmea_field 4 D q
                  (String (hemisphere "W" "E" (clamp d180 x)) "") []
                  HD' ltac:(change (10 ^ Z.of_nat 4) with 10000; lia)) as Hdec.
    cbv zeta in Hdec. change (10 ^ Z.of_nat 4) with 10000 in Hdec.
    fold v in Hdec. cbn [first_char app] in Hdec.
    rewrite (long_range_quiet v Vv Pv) in Hdec.
    pose proof (flt_clamp_d0 _ _ x : flt (clamp d180 x) d0 = flt x d0) as Hs.
    rewrite fval_magnitude, Hs in Herr.
    unfold hemisphere in Hdec, Hrun. rewrite Hs in Hdec, Hrun.
    replace (60 * 10000 * fval v) with (600000 * fval v) in Ev by ring.
    replace (60 * 10000 * D) with (600000 * D) in Ev by ring.
    replace (60 * 10000 * Zv 1 (-41)) with (600000 * Zv 1 (-41)) in Ev by ring.
    destruct (flt x d0).
    + exists (fixed_width 3 D ++ render 7 4 q)%string, "W"%string.
      eexists _, (fneg v). split; [apply Hrun | ]. split; [exact Hdec | ].
      rewrite fval_fneg.
      replace (- fval v - fval (clamp d180 x)) with (- (fval v - - fval (clamp d180 x))) by ring.
      rewrite Z.abs_opp. lia.
    + exists (fixed_width 3 D ++ render 7 4 q)%string, "E"%string.
      eexists _, v. split; [apply Hrun | ]. split; [exact Hdec | ]. lia.
Qed.

End Round_trip.

(** X13 at the fields "4903.4980" and "04903.4980". *)
Lemma nmea_decode_accuracy_witness :
  (0 <= 3 < 100 /\ 0 <= 4980 < 10 ^ Z.of_nat 4 /\ 0 <= 49 < 100 /\ 0 <= 49 < 1000) /\
  (exists v log,
      run (latitude_from_nmea G_UNKNOWN_dw strtod_c "4903.4980" "N") = Some (v, log) /\
      Z.abs (60 * 10 ^ Z.of_nat 4 * fval v
             - 1 * (((60 * 49 + 3) * 10 ^ Z.of_nat 4 + 4980) * one))
      <= 60 * 10 ^ Z.of_nat 4 * Zv 1 (-41) /\
      ((60 * 49 + 3) * 10 ^ Z.of_nat 4 + 4980 <= 60 * 90 * 10 ^ Z.of_nat 4 -> log = [])) /\
  (exists v log,
      run (longitude_from_nmea G_UNKNOWN_dw strtod_c "04903.4980" "E") = Some (v, log) /\
      Z.abs (60 * 10 ^ Z.of_nat 4 * fval v
             - 1 * (((60 * 49 + 3) * 10 ^ Z.of_nat 4 + 4980) * one))
      <= 60 * 10 ^ Z.of_nat 4 * Zv 1 (-41) /\
      ((60 * 49 + 3) * 10 ^ Z.of_nat 4 + 4980 <= 60 * 180 * 10 ^ Z.of_nat 4 -> log = [])).
Proof.
  assert (H : 0 <= 3 < 100 /\ 0 <= 4980 < 10 ^ Z.of_nat 4 /\ 0 <= 49 < 100 /\ 0 <= 49 < 1000)
    by (vm_compute; repeat split; discriminate).
  split; [exact H | ]. destruct H as (H1 & H2 & H3 & H4).
  destruct (nmea_decode_accuracy G_UNKNOWN_dw 4 49 3 4980 false H1 H2) as [A B].
  split; [exact (A H3) | exact (B H4)].
Defined.

(** X14 at 49.0583 degrees. *)
Lemma nmea_round_trip_witness :
  let x := strtod_c "49.0583" in
  (is_double x /\ is_nan x = false /\ feq x G_UNKNOWN_dw = false) /\
  (exists slat hemi log v,
      run (latitude_to_nmea G_UNKNOWN_dw x) = Some ((slat, hemi), log) /\
      run (latitude_from_nmea G_UNKNOWN_dw strtod_c slat hemi) = Some (v, []) /\
      1200000 * Z.abs (fval v - fval (clamp d90 x)) <= one + Zv 1 (-20)) /\
  (exists slong hemi log v,
      run (longitude_to_nmea G_UNKNOWN_dw x) = Some ((slong, hemi), log) /\
      run (longitude_from_nmea G_UNKNOWN_dw strtod_c slong hemi) = Some (v, []) /\
      1200000 * Z.abs (fval v - fval (clamp d180 x)) <= one + Zv 1 (-20)).
Proof.
  intros x.
  assert (H : is_double x /\ is_nan x = false /\ feq x G_UNKNOWN_dw = false)
    by (repeat split; vm_compute; reflexivity).
  split; [exact H | ]. destruct H as (H1 & H2 & H3).
  exact (nmea_round_trip G_UNKNOWN_dw x H1 H2 H3).
Defined.

(** ** The format of the text *)

Lemma all_digits_app (s t : string) :
  all_digits (s ++ t) = all_digits s && all_digits t.
Proof.
  induction s as [ | c s IH]; cbn [append all_digits]; [reflexivity | ].
  rewrite IH, andb_assoc. reflexivity.
Qed.

Lemma all_digits_fixed_width (n : nat) (r : Z) : all_digits (fixed_width n r) = true.
Proof.
  revert r. induction n as [ | n IH]; intros r; cbn [fixed_width]; [reflexivity | ].
  rewrite all_digits_app, IH. cbn [all_digits andb].
  rewrite isdigit_digit_char by apply digit_bounds. reflexivity.
Qed.

(** A minutes field is two digits, a point and [p] digits. *)
Lemma render_format (p : nat) (q : Z) :
  exists M F, render (p + 3) p q = (M ++ "." ++ F)%string /\
              length M = 2%nat /\ length F = p /\
              all_digits M = true /\ all_digits F = true.
Proof.
  exists (fixed_width (p + 3 - p - 1) (q / 10 ^ Z.of_nat p)),
         (fixed_width p (q mod 10 ^ Z.of_nat p)).
  split; [reflexivity | ].
  rewrite !fixed_width_length, !all_digits_fixed_width.
  repeat split; lia.
Qed.

Section Format.

Variable G_UNKNOWN : float.

(** X15. At level 0 and for a double that is neither a NaN nor the
    negative zero, the text of [latitude_to_str] is four digits, a point,
    two digits and the hemisphere; [longitude_to_str] has five digits before
    the point; the NMEA encoders, for an input other than the sentinel,
    write four digits after it. The negative
    zero is not less than zero, so its sign is not removed, and printf shows
    it: the texts are "00-0.00N", "000-0.00E" and, unless the negative zero
    is the sentinel, "00-0.0000" and "000-0.0000". *)
Theorem text_format (x : float) :
  is_double x -> is_nan x = false ->
  (neg_zero x = false ->
   (exists A B h log,
       run (latitude_to_str x 0) = Some ((A ++ "." ++ B ++ String h "")%string, log) /\
       length A = 4%nat /\ length B = 2%nat /\ all_digits A = true /\ all_digits B = true) /\
   (exists A B h log,
       run (longitude_to_str x 0) = Some ((A ++ "." ++ B ++ String h "")%string, log) /\
       length A = 5%nat /\ length B = 2%nat /\ all_digits A = true /\ all_digits B = true) /\
   (feq x G_UNKNOWN = false ->
    exists A B hemi log,
      run (latitude_to_nmea G_UNKNOWN x) = Some (((A ++ "." ++ B)%string, hemi), log) /\
      length A = 4%nat /\ length B = 4%nat /\ all_digits A = true /\ all_digits B = true) /\
   (feq x G_UNKNOWN = false ->
    exists A B hemi log,
      run (longitude_to_nmea G_UNKNOWN x) = Some (((A ++ "." ++ B)%string, hemi), log) /\
      length A = 5%nat /\ length B = 4%nat /\ all_digits A = true /\ all_digits B = true)) /\
  (neg_zero x = true ->
   run (latitude_to_str x 0) = Some ("00-0.00N"%string, []) /\
   run (longitude_to_str x 0) = Some ("000-0.00E"%string, []) /\
   (feq x G_UNKNOWN = false ->
    run (latitude_to_nmea G_UNKNOWN x) = Some (("00-0.0000", "N")%string, [])) /\
   (feq x G_UNKNOWN = false ->
    run (longitude_to_nmea G_UNKNOWN x) = Some (("000-0.0000", "E")%string, []))).
Proof.
  intros Hd Hn. split; intros Hz.
  - split; [ | split; [ | split]].
    + destruct (latitude_to_str_value x Hd Hn Hz) as (D & q & _ & _ & _ & _ & Hrun).
      destruct (render_format 2 q) as (M & F & HR & HM & HF & AM & AF).
      change (render (2 + 3) 2 q) with (render 5 2 q) in HR.
      exists (fixed_width 2 D ++ M)%string, F. eexists _, _. split.
      * unfold run. rewrite Hrun, HR, !append_assoc. reflexivity.
      * rewrite append_length, fixed_width_length, all_digits_app, all_digits_fixed_width.
        rewrite HM, AM. repeat split; assumption.
    + destruct (longitude_to_str_value x Hd Hn Hz) as (D & q & _ & _ & _ & _ & Hrun).
      destruct (render_format 2 q) as (M & F & HR & HM & HF & AM & AF).
      change (render (2 + 3) 2 q) with (render 5 2 q) in HR.
      exists (fixed_width 3 D ++ M)%string, F. eexists _, _. split.
      * unfold run. rewrite Hrun, HR, !append_assoc. reflexivity.
      * rewrite append_length, fixed_width_length, all_digits_app, all_digits_fixed_width.
        rewrite HM, AM. repeat split; assumption.
    + intros Hg.
      destruct (latitude_to_nmea_value G_UNKNOWN x Hd Hn Hz Hg)
        as (D & q & _ & _ & _ & _ & Hrun).
      destruct (render_format 4 q) as (M & F & HR & HM & HF & AM & AF).
      change (render (4 + 3) 4 q) with (render 7 4 q) in HR.
      exists (fixed_width 2 D ++ M)%string, F. eexists _, _. split.
      * unfold run. rewrite Hrun, HR, !append_assoc. reflexivity.
      * rewrite append_length, fixed_width_length, all_digits_app, all_digits_fixed_width.
        rewrite HM, AM. repeat split; assumption.
    + intros Hg.
      destruct (longitude_to_nmea_value G_UNKNOWN x Hd Hn Hz Hg)
        as (D & q & _ & _ & _ & _ & Hrun).
      destruct (render_format 4 q) as (M & F & HR & HM & HF & AM & AF).
      change (render (4 + 3) 4 q) with (render 7 4 q) in HR.
      exists (fixed_width 3 D ++ M)%string, F. eexists _, _. split.
      * unfold run. rewrite Hrun, HR, !append_assoc. reflexivity.
      * rewrite append_length, fixed_width_length, all_digits_app, all_digits_fixed_width.
        rewrite HM, AM. repeat split; assumption.
  - apply neg_zero_inv in Hz. subst x.
    split; [reflexivity | ]. split; [reflexivity | ].
    split; intros Hg.
    + unfold run, latitude_to_nmea. rewrite Hg. reflexivity.
    + unfold run, longitude_to_nmea. rewrite Hg. reflexivity.
Qed.

(** ** The unknown position *)

Variable atof : string -> float.


End Format.

(** X15 at 49.0583 degrees and at the negative zero. *)
Lemma text_format_witness :
  let x := strtod_c "49.0583" in
  let z := S754_zero true in
  (is_double x /\ is_nan x = false /\ neg_zero x = false /\ feq x G_UNKNOWN_dw = false) /\
  (is_double z /\ is_nan z = false /\ neg_zero z = true /\ feq z G_UNKNOWN_dw = false) /\
  ((exists A B h log,
       run (latitude_to_str x 0) = Some ((A ++ "." ++ B ++ String h "")%string, log) /\
       length A = 4%nat /\ length B = 2%nat /\ all_digits A = true /\ all_digits B = true) /\
   (exists A B h log,
       run (longitude_to_str x 0) = Some ((A ++ "." ++ B ++ String h "")%string, log) /\
       length A = 5%nat /\ length B = 2%nat /\ all_digits A = true /\ all_digits B = true) /\
   (exists A B hemi log,
      run (latitude_to_nmea G_UNKNOWN_dw x) = Some (((A ++ "." ++ B)%string, hemi), log) /\
      length A = 4%nat /\ length B = 4%nat /\ all_digits A = true /\ all_digits B = true) /\
   (exists A B hemi log,
      run (longitude_to_nmea G_UNKNOWN_dw x) = Some (((A ++ "." ++ B)%string, hemi), log) /\
      length A = 5%nat /\ length B = 4%nat /\ all_digits A = true /\ all_digits B = true)) /\
  (run (latitude_to_str z 0) = Some ("00-0.00N"%string, []) /\
   run (longitude_to_str z 0) = Some ("000-0.00E"%string, []) /\
   run (latitude_to_nmea G_UNKNOWN_dw z) = Some (("00-0.0000", "N")%string, []) /\
   run (longitude_to_nmea G_UNKNOWN_dw z) = Some (("000-0.0000", "E")%string, [])).
Proof.
  intros x z.
  assert (Hx : is_double x /\ is_nan x = false /\ neg_zero x = false /\
               feq x G_UNKNOWN_dw = false)
    by (repeat split; vm_compute; reflexivity).
  assert (Hz : is_double z /\ is_nan z = false /\ neg_zero z = true /\
               feq z G_UNKNOWN_dw = false)
    by (repeat split; vm_compute; reflexivity).
  split; [exact Hx | ]. split; [exact Hz | ].
  destruct Hx as (X1 & X2 & X3 & X4). destruct Hz as (Z1 & Z2 & Z3 & Z4).
  split.
  - destruct (proj1 (text_format G_UNKNOWN_dw x X1 X2) X3) as (A & B & C & D).
    split; [exact A | ]. split; [exact B | ]. split; [exact (C X4) | exact (D X4)].
  - destruct (proj2 (text_format G_UNKNOWN_dw z Z1 Z2) Z3) as (A & B & C & D).
    split; [exact A | ]. split; [exact B | ]. split; [exact (C Z4) | exact (D Z4)].
Defined.

